(** * Runtime input processor: a shallow embedding of
      [src/pointing/input_processor_runtime.c]

    The C translation unit is rendered function by function.  Fixed-width
    integers are integers of [Z] with their narrowing conversions written
    out, [double] is the binary64 type of [PrimFloat], the mutable
    [struct runtime_processor_data] is threaded explicitly, and calls into
    the kernel, the keymap and the behaviour registry are recorded in an
    effect trace. *)

From Stdlib Require Import ZArith List String Bool Lia Floats.
Import ListNotations.
Local Open Scope Z_scope.

Set Implicit Arguments.

(** ** Fixed-width integers *)

Module CInt.

(** Conversion to a signed type of [w] bits (two's complement wrap). *)
Definition cast_signed (w : Z) (z : Z) : Z :=
  (z + 2 ^ (w - 1)) mod 2 ^ w - 2 ^ (w - 1).

(** Conversion to an unsigned type of [w] bits. *)
Definition cast_unsigned (w : Z) (z : Z) : Z := z mod 2 ^ w.

Definition int16_t := cast_signed 16.
Definition int32_t := cast_signed 32.
Definition int64_t := cast_signed 64.
Definition uint8_t := cast_unsigned 8.
Definition uint16_t := cast_unsigned 16.
Definition uint32_t := cast_unsigned 32.

Definition in_int16 (z : Z) : Prop := -32768 <= z <= 32767.
Definition in_int32 (z : Z) : Prop := -2147483648 <= z <= 2147483647.

End CInt.
Import CInt.

(** ** Doubles *)

Module CDouble.

(** [M_PI] of the source, 3.14159265358979323846, as the binary64 value
    a C compiler reads it to. *)
Definition M_PI : float := 0x1.921fb54442d18p+1%float.

(** [(double) z] for an integer of at most 32 bits (exact). *)
Definition of_int (z : Z) : float :=
  if z <? 0 then PrimFloat.opp (PrimFloat.of_uint63 (Uint63.of_Z (- z)))
  else PrimFloat.of_uint63 (Uint63.of_Z z).

(** Conversion of a double to an integer type: the fractional part is
    discarded (truncation towards zero).  Infinities and NaN, undefined in
    C, are sent to 0. *)
Definition to_int (f : float) : Z :=
  match Prim2SF f with
  | S754_finite s m e =>
      let a := if 0 <=? e then Z.pos m * 2 ^ e else Z.pos m / 2 ^ (- e) in
      if s then - a else a
  | _ => 0
  end.

End CDouble.
Import CDouble.

(** The three functions of the C mathematics library the source calls. *)
Record libm : Type := {
  libm_cos : float -> float;
  libm_sin : float -> float;
  libm_atan2 : float -> float -> float
}.

(** ** Constants of the platform headers *)

Definition EINVAL : Z := 22.
Definition ENODEV : Z := 19.
Definition ZMK_INPUT_PROC_CONTINUE : Z := 0.
Definition ZMK_INPUT_PROC_STOP : Z := 1.
Definition INPUT_REL_X : Z := 0.
Definition INPUT_REL_Y : Z := 1.
Definition INPUT_REL_HWHEEL : Z := 6.
Definition INPUT_REL_WHEEL : Z := 8.
Definition ZMK_KEYMAP_LAYER_ID_INVAL : Z := 255.
Definition ZMK_INPUT_PROCESSOR_AXIS_SNAP_MODE_NONE : Z := 0.
Definition ZMK_INPUT_PROCESSOR_AXIS_SNAP_MODE_X : Z := 1.
Definition ZMK_INPUT_PROCESSOR_AXIS_SNAP_MODE_Y : Z := 2.
Definition MAX_KEYBIND_BEHAVIORS : Z := 8.

(** ** Data model *)

(** [struct input_event], the fields the processor reads and writes. *)
Record input_event : Type := {
  ev_type : Z;
  code : Z;
  value : Z
}.

Definition set_code (v : Z) (e : input_event) : input_event :=
  Build_input_event (ev_type e) v (value e).
Definition set_value (v : Z) (e : input_event) : input_event :=
  Build_input_event (ev_type e) (code e) v.

(** [struct runtime_processor_config], the fields read by the functions
    below.  A missing entry of [keybind_behaviors] (a null name) is [None]. *)
Record runtime_processor_config : Type := {
  name : string;
  type : Z;
  x_codes : list Z;
  y_codes : list Z;
  keybind_behaviors : list (option string)
}.

Definition keybind_behaviors_len (cfg : runtime_processor_config) : Z :=
  Z.of_nat (List.length (keybind_behaviors cfg)).

(** The tunables of [struct runtime_processor_data].  The structure holds
    each of them twice, as [data->f] and as [data->persistent_f]; here the
    two copies are the records [current] and [persistent]. *)
Record tunables : Type := {
  scale_multiplier : Z;
  scale_divisor : Z;
  rotation_degrees : Z;
  temp_layer_enabled : bool;
  temp_layer_layer : Z;
  temp_layer_activation_delay_ms : Z;
  temp_layer_deactivation_delay_ms : Z;
  active_layers : Z;
  axis_snap_mode : Z;
  axis_snap_threshold : Z;
  axis_snap_timeout_ms : Z;
  xy_to_scroll_enabled : bool;
  xy_swap_enabled : bool;
  x_invert : bool;
  y_invert : bool;
  keybind_enabled : bool;
  keybind_behavior_count : Z;
  keybind_degree_offset : Z;
  keybind_tick : Z
}.

(** [struct runtime_processor_data] without its three work items, whose
    scheduling is recorded in the effect trace. *)
Record runtime_processor_data : Type := {
  current : tunables;
  persistent : tunables;
  cos_val : Z;
  sin_val : Z;
  last_x : Z;
  last_y : Z;
  has_x : bool;
  has_y : bool;
  axis_snap_cross_axis_accum : Z;
  axis_snap_last_decay_timestamp : Z;
  keybind_x_accum : Z;
  keybind_y_accum : Z;
  temp_layer_layer_active : bool;
  temp_layer_keep_active : bool;
  last_input_timestamp : Z;
  last_keypress_timestamp : Z
}.

(** Field assignments, one per member. *)
Definition set_scale_multiplier (v : Z) (t : tunables) : tunables :=
  Build_tunables v (scale_divisor t) (rotation_degrees t) (temp_layer_enabled t)
    (temp_layer_layer t) (temp_layer_activation_delay_ms t) (temp_layer_deactivation_delay_ms t)
    (active_layers t) (axis_snap_mode t) (axis_snap_threshold t) (axis_snap_timeout_ms t)
    (xy_to_scroll_enabled t) (xy_swap_enabled t) (x_invert t) (y_invert t) (keybind_enabled t)
    (keybind_behavior_count t) (keybind_degree_offset t) (keybind_tick t).
Definition set_scale_divisor (v : Z) (t : tunables) : tunables :=
  Build_tunables (scale_multiplier t) v (rotation_degrees t) (temp_layer_enabled t)
    (temp_layer_layer t) (temp_layer_activation_delay_ms t) (temp_layer_deactivation_delay_ms t)
    (active_layers t) (axis_snap_mode t) (axis_snap_threshold t) (axis_snap_timeout_ms t)
    (xy_to_scroll_enabled t) (xy_swap_enabled t) (x_invert t) (y_invert t) (keybind_enabled t)
    (keybind_behavior_count t) (keybind_degree_offset t) (keybind_tick t).
Definition set_rotation_degrees (v : Z) (t : tunables) : tunables :=
  Build_tunables (scale_multiplier t) (scale_divisor t) v (temp_layer_enabled t)
    (temp_layer_layer t) (temp_layer_activation_delay_ms t) (temp_layer_deactivation_delay_ms t)
    (active_layers t) (axis_snap_mode t) (axis_snap_threshold t) (axis_snap_timeout_ms t)
    (xy_to_scroll_enabled t) (xy_swap_enabled t) (x_invert t) (y_invert t) (keybind_enabled t)
    (keybind_behavior_count t) (keybind_degree_offset t) (keybind_tick t).
Definition set_temp_layer_enabled (v : bool) (t : tunables) : tunables :=
  Build_tunables (scale_multiplier t) (scale_divisor t) (rotation_degrees t) v (temp_layer_layer
    t) (temp_layer_activation_delay_ms t) (temp_layer_deactivation_delay_ms t) (active_layers t)
    (axis_snap_mode t) (axis_snap_threshold t) (axis_snap_timeout_ms t) (xy_to_scroll_enabled t)
    (xy_swap_enabled t) (x_invert t) (y_invert t) (keybind_enabled t) (keybind_behavior_count t)
    (keybind_degree_offset t) (keybind_tick t).
Definition set_temp_layer_layer (v : Z) (t : tunables) : tunables :=
  Build_tunables (scale_multiplier t) (scale_divisor t) (rotation_degrees t) (temp_layer_enabled
    t) v (temp_layer_activation_delay_ms t) (temp_layer_deactivation_delay_ms t) (active_layers
    t) (axis_snap_mode t) (axis_snap_threshold t) (axis_snap_timeout_ms t) (xy_to_scroll_enabled
    t) (xy_swap_enabled t) (x_invert t) (y_invert t) (keybind_enabled t) (keybind_behavior_count
    t) (keybind_degree_offset t) (keybind_tick t).
Definition set_temp_layer_activation_delay_ms (v : Z) (t : tunables) : tunables :=
  Build_tunables (scale_multiplier t) (scale_divisor t) (rotation_degrees t) (temp_layer_enabled
    t) (temp_layer_layer t) v (temp_layer_deactivation_delay_ms t) (active_layers t)
    (axis_snap_mode t) (axis_snap_threshold t) (axis_snap_timeout_ms t) (xy_to_scroll_enabled t)
    (xy_swap_enabled t) (x_invert t) (y_invert t) (keybind_enabled t) (keybind_behavior_count t)
    (keybind_degree_offset t) (keybind_tick t).
Definition set_temp_layer_deactivation_delay_ms (v : Z) (t : tunables) : tunables :=
  Build_tunables (scale_multiplier t) (scale_divisor t) (rotation_degrees t) (temp_layer_enabled
    t) (temp_layer_layer t) (temp_layer_activation_delay_ms t) v (active_layers t)
    (axis_snap_mode t) (axis_snap_threshold t) (axis_snap_timeout_ms t) (xy_to_scroll_enabled t)
    (xy_swap_enabled t) (x_invert t) (y_invert t) (keybind_enabled t) (keybind_behavior_count t)
    (keybind_degree_offset t) (keybind_tick t).
Definition set_active_layers (v : Z) (t : tunables) : tunables :=
  Build_tunables (scale_multiplier t) (scale_divisor t) (rotation_degrees t) (temp_layer_enabled
    t) (temp_layer_layer t) (temp_layer_activation_delay_ms t) (temp_layer_deactivation_delay_ms
    t) v (axis_snap_mode t) (axis_snap_threshold t) (axis_snap_timeout_ms t)
    (xy_to_scroll_enabled t) (xy_swap_enabled t) (x_invert t) (y_invert t) (keybind_enabled t)
    (keybind_behavior_count t) (keybind_degree_offset t) (keybind_tick t).
Definition set_axis_snap_mode (v : Z) (t : tunables) : tunables :=
  Build_tunables (scale_multiplier t) (scale_divisor t) (rotation_degrees t) (temp_layer_enabled
    t) (temp_layer_layer t) (temp_layer_activation_delay_ms t) (temp_layer_deactivation_delay_ms
    t) (active_layers t) v (axis_snap_threshold t) (axis_snap_timeout_ms t)
    (xy_to_scroll_enabled t) (xy_swap_enabled t) (x_invert t) (y_invert t) (keybind_enabled t)
    (keybind_behavior_count t) (keybind_degree_offset t) (keybind_tick t).
Definition set_axis_snap_threshold (v : Z) (t : tunables) : tunables :=
  Build_tunables (scale_multiplier t) (scale_divisor t) (rotation_degrees t) (temp_layer_enabled
    t) (temp_layer_layer t) (temp_layer_activation_delay_ms t) (temp_layer_deactivation_delay_ms
    t) (active_layers t) (axis_snap_mode t) v (axis_snap_timeout_ms t) (xy_to_scroll_enabled t)
    (xy_swap_enabled t) (x_invert t) (y_invert t) (keybind_enabled t) (keybind_behavior_count t)
    (keybind_degree_offset t) (keybind_tick t).
Definition set_axis_snap_timeout_ms (v : Z) (t : tunables) : tunables :=
  Build_tunables (scale_multiplier t) (scale_divisor t) (rotation_degrees t) (temp_layer_enabled
    t) (temp_layer_layer t) (temp_layer_activation_delay_ms t) (temp_layer_deactivation_delay_ms
    t) (active_layers t) (axis_snap_mode t) (axis_snap_threshold t) v (xy_to_scroll_enabled t)
    (xy_swap_enabled t) (x_invert t) (y_invert t) (keybind_enabled t) (keybind_behavior_count t)
    (keybind_degree_offset t) (keybind_tick t).
Definition set_xy_to_scroll_enabled (v : bool) (t : tunables) : tunables :=
  Build_tunables (scale_multiplier t) (scale_divisor t) (rotation_degrees t) (temp_layer_enabled
    t) (temp_layer_layer t) (temp_layer_activation_delay_ms t) (temp_layer_deactivation_delay_ms
    t) (active_layers t) (axis_snap_mode t) (axis_snap_threshold t) (axis_snap_timeout_ms t) v
    (xy_swap_enabled t) (x_invert t) (y_invert t) (keybind_enabled t) (keybind_behavior_count t)
    (keybind_degree_offset t) (keybind_tick t).
Definition set_xy_swap_enabled (v : bool) (t : tunables) : tunables :=
  Build_tunables (scale_multiplier t) (scale_divisor t) (rotation_degrees t) (temp_layer_enabled
    t) (temp_layer_layer t) (temp_layer_activation_delay_ms t) (temp_layer_deactivation_delay_ms
    t) (active_layers t) (axis_snap_mode t) (axis_snap_threshold t) (axis_snap_timeout_ms t)
    (xy_to_scroll_enabled t) v (x_invert t) (y_invert t) (keybind_enabled t)
    (keybind_behavior_count t) (keybind_degree_offset t) (keybind_tick t).
Definition set_x_invert (v : bool) (t : tunables) : tunables :=
  Build_tunables (scale_multiplier t) (scale_divisor t) (rotation_degrees t) (temp_layer_enabled
    t) (temp_layer_layer t) (temp_layer_activation_delay_ms t) (temp_layer_deactivation_delay_ms
    t) (active_layers t) (axis_snap_mode t) (axis_snap_threshold t) (axis_snap_timeout_ms t)
    (xy_to_scroll_enabled t) (xy_swap_enabled t) v (y_invert t) (keybind_enabled t)
    (keybind_behavior_count t) (keybind_degree_offset t) (keybind_tick t).
Definition set_y_invert (v : bool) (t : tunables) : tunables :=
  Build_tunables (scale_multiplier t) (scale_divisor t) (rotation_degrees t) (temp_layer_enabled
    t) (temp_layer_layer t) (temp_layer_activation_delay_ms t) (temp_layer_deactivation_delay_ms
    t) (active_layers t) (axis_snap_mode t) (axis_snap_threshold t) (axis_snap_timeout_ms t)
    (xy_to_scroll_enabled t) (xy_swap_enabled t) (x_invert t) v (keybind_enabled t)
    (keybind_behavior_count t) (keybind_degree_offset t) (keybind_tick t).
Definition set_keybind_enabled (v : bool) (t : tunables) : tunables :=
  Build_tunables (scale_multiplier t) (scale_divisor t) (rotation_degrees t) (temp_layer_enabled
    t) (temp_layer_layer t) (temp_layer_activation_delay_ms t) (temp_layer_deactivation_delay_ms
    t) (active_layers t) (axis_snap_mode t) (axis_snap_threshold t) (axis_snap_timeout_ms t)
    (xy_to_scroll_enabled t) (xy_swap_enabled t) (x_invert t) (y_invert t) v
    (keybind_behavior_count t) (keybind_degree_offset t) (keybind_tick t).
Definition set_keybind_behavior_count (v : Z) (t : tunables) : tunables :=
  Build_tunables (scale_multiplier t) (scale_divisor t) (rotation_degrees t) (temp_layer_enabled
    t) (temp_layer_layer t) (temp_layer_activation_delay_ms t) (temp_layer_deactivation_delay_ms
    t) (active_layers t) (axis_snap_mode t) (axis_snap_threshold t) (axis_snap_timeout_ms t)
    (xy_to_scroll_enabled t) (xy_swap_enabled t) (x_invert t) (y_invert t) (keybind_enabled t) v
    (keybind_degree_offset t) (keybind_tick t).
Definition set_keybind_degree_offset (v : Z) (t : tunables) : tunables :=
  Build_tunables (scale_multiplier t) (scale_divisor t) (rotation_degrees t) (temp_layer_enabled
    t) (temp_layer_layer t) (temp_layer_activation_delay_ms t) (temp_layer_deactivation_delay_ms
    t) (active_layers t) (axis_snap_mode t) (axis_snap_threshold t) (axis_snap_timeout_ms t)
    (xy_to_scroll_enabled t) (xy_swap_enabled t) (x_invert t) (y_invert t) (keybind_enabled t)
    (keybind_behavior_count t) v (keybind_tick t).
Definition set_keybind_tick (v : Z) (t : tunables) : tunables :=
  Build_tunables (scale_multiplier t) (scale_divisor t) (rotation_degrees t) (temp_layer_enabled
    t) (temp_layer_layer t) (temp_layer_activation_delay_ms t) (temp_layer_deactivation_delay_ms
    t) (active_layers t) (axis_snap_mode t) (axis_snap_threshold t) (axis_snap_timeout_ms t)
    (xy_to_scroll_enabled t) (xy_swap_enabled t) (x_invert t) (y_invert t) (keybind_enabled t)
    (keybind_behavior_count t) (keybind_degree_offset t) v.
Definition set_current (v : tunables) (d : runtime_processor_data) : runtime_processor_data :=
  Build_runtime_processor_data v (persistent d) (cos_val d) (sin_val d) (last_x d) (last_y d)
    (has_x d) (has_y d) (axis_snap_cross_axis_accum d) (axis_snap_last_decay_timestamp d)
    (keybind_x_accum d) (keybind_y_accum d) (temp_layer_layer_active d) (temp_layer_keep_active
    d) (last_input_timestamp d) (last_keypress_timestamp d).
Definition set_persistent (v : tunables) (d : runtime_processor_data) : runtime_processor_data :=
  Build_runtime_processor_data (current d) v (cos_val d) (sin_val d) (last_x d) (last_y d)
    (has_x d) (has_y d) (axis_snap_cross_axis_accum d) (axis_snap_last_decay_timestamp d)
    (keybind_x_accum d) (keybind_y_accum d) (temp_layer_layer_active d) (temp_layer_keep_active
    d) (last_input_timestamp d) (last_keypress_timestamp d).
Definition set_cos_val (v : Z) (d : runtime_processor_data) : runtime_processor_data :=
  Build_runtime_processor_data (current d) (persistent d) v (sin_val d) (last_x d) (last_y d)
    (has_x d) (has_y d) (axis_snap_cross_axis_accum d) (axis_snap_last_decay_timestamp d)
    (keybind_x_accum d) (keybind_y_accum d) (temp_layer_layer_active d) (temp_layer_keep_active
    d) (last_input_timestamp d) (last_keypress_timestamp d).
Definition set_sin_val (v : Z) (d : runtime_processor_data) : runtime_processor_data :=
  Build_runtime_processor_data (current d) (persistent d) (cos_val d) v (last_x d) (last_y d)
    (has_x d) (has_y d) (axis_snap_cross_axis_accum d) (axis_snap_last_decay_timestamp d)
    (keybind_x_accum d) (keybind_y_accum d) (temp_layer_layer_active d) (temp_layer_keep_active
    d) (last_input_timestamp d) (last_keypress_timestamp d).
Definition set_last_x (v : Z) (d : runtime_processor_data) : runtime_processor_data :=
  Build_runtime_processor_data (current d) (persistent d) (cos_val d) (sin_val d) v (last_y d)
    (has_x d) (has_y d) (axis_snap_cross_axis_accum d) (axis_snap_last_decay_timestamp d)
    (keybind_x_accum d) (keybind_y_accum d) (temp_layer_layer_active d) (temp_layer_keep_active
    d) (last_input_timestamp d) (last_keypress_timestamp d).
Definition set_last_y (v : Z) (d : runtime_processor_data) : runtime_processor_data :=
  Build_runtime_processor_data (current d) (persistent d) (cos_val d) (sin_val d) (last_x d) v
    (has_x d) (has_y d) (axis_snap_cross_axis_accum d) (axis_snap_last_decay_timestamp d)
    (keybind_x_accum d) (keybind_y_accum d) (temp_layer_layer_active d) (temp_layer_keep_active
    d) (last_input_timestamp d) (last_keypress_timestamp d).
Definition set_has_x (v : bool) (d : runtime_processor_data) : runtime_processor_data :=
  Build_runtime_processor_data (current d) (persistent d) (cos_val d) (sin_val d) (last_x d)
    (last_y d) v (has_y d) (axis_snap_cross_axis_accum d) (axis_snap_last_decay_timestamp d)
    (keybind_x_accum d) (keybind_y_accum d) (temp_layer_layer_active d) (temp_layer_keep_active
    d) (last_input_timestamp d) (last_keypress_timestamp d).
Definition set_has_y (v : bool) (d : runtime_processor_data) : runtime_processor_data :=
  Build_runtime_processor_data (current d) (persistent d) (cos_val d) (sin_val d) (last_x d)
    (last_y d) (has_x d) v (axis_snap_cross_axis_accum d) (axis_snap_last_decay_timestamp d)
    (keybind_x_accum d) (keybind_y_accum d) (temp_layer_layer_active d) (temp_layer_keep_active
    d) (last_input_timestamp d) (last_keypress_timestamp d).
Definition set_axis_snap_cross_axis_accum (v : Z) (d : runtime_processor_data) : runtime_processor_data :=
  Build_runtime_processor_data (current d) (persistent d) (cos_val d) (sin_val d) (last_x d)
    (last_y d) (has_x d) (has_y d) v (axis_snap_last_decay_timestamp d) (keybind_x_accum d)
    (keybind_y_accum d) (temp_layer_layer_active d) (temp_layer_keep_active d)
    (last_input_timestamp d) (last_keypress_timestamp d).
Definition set_axis_snap_last_decay_timestamp (v : Z) (d : runtime_processor_data) : runtime_processor_data :=
  Build_runtime_processor_data (current d) (persistent d) (cos_val d) (sin_val d) (last_x d)
    (last_y d) (has_x d) (has_y d) (axis_snap_cross_axis_accum d) v (keybind_x_accum d)
    (keybind_y_accum d) (temp_layer_layer_active d) (temp_layer_keep_active d)
    (last_input_timestamp d) (last_keypress_timestamp d).
Definition set_keybind_x_accum (v : Z) (d : runtime_processor_data) : runtime_processor_data :=
  Build_runtime_processor_data (current d) (persistent d) (cos_val d) (sin_val d) (last_x d)
    (last_y d) (has_x d) (has_y d) (axis_snap_cross_axis_accum d)
    (axis_snap_last_decay_timestamp d) v (keybind_y_accum d) (temp_layer_layer_active d)
    (temp_layer_keep_active d) (last_input_timestamp d) (last_keypress_timestamp d).
Definition set_keybind_y_accum (v : Z) (d : runtime_processor_data) : runtime_processor_data :=
  Build_runtime_processor_data (current d) (persistent d) (cos_val d) (sin_val d) (last_x d)
    (last_y d) (has_x d) (has_y d) (axis_snap_cross_axis_accum d)
    (axis_snap_last_decay_timestamp d) (keybind_x_accum d) v (temp_layer_layer_active d)
    (temp_layer_keep_active d) (last_input_timestamp d) (last_keypress_timestamp d).
Definition set_temp_layer_layer_active (v : bool) (d : runtime_processor_data) : runtime_processor_data :=
  Build_runtime_processor_data (current d) (persistent d) (cos_val d) (sin_val d) (last_x d)
    (last_y d) (has_x d) (has_y d) (axis_snap_cross_axis_accum d)
    (axis_snap_last_decay_timestamp d) (keybind_x_accum d) (keybind_y_accum d) v
    (temp_layer_keep_active d) (last_input_timestamp d) (last_keypress_timestamp d).
Definition set_temp_layer_keep_active (v : bool) (d : runtime_processor_data) : runtime_processor_data :=
  Build_runtime_processor_data (current d) (persistent d) (cos_val d) (sin_val d) (last_x d)
    (last_y d) (has_x d) (has_y d) (axis_snap_cross_axis_accum d)
    (axis_snap_last_decay_timestamp d) (keybind_x_accum d) (keybind_y_accum d)
    (temp_layer_layer_active d) v (last_input_timestamp d) (last_keypress_timestamp d).
Definition set_last_input_timestamp (v : Z) (d : runtime_processor_data) : runtime_processor_data :=
  Build_runtime_processor_data (current d) (persistent d) (cos_val d) (sin_val d) (last_x d)
    (last_y d) (has_x d) (has_y d) (axis_snap_cross_axis_accum d)
    (axis_snap_last_decay_timestamp d) (keybind_x_accum d) (keybind_y_accum d)
    (temp_layer_layer_active d) (temp_layer_keep_active d) v (last_keypress_timestamp d).
Definition set_last_keypress_timestamp (v : Z) (d : runtime_processor_data) : runtime_processor_data :=
  Build_runtime_processor_data (current d) (persistent d) (cos_val d) (sin_val d) (last_x d)
    (last_y d) (has_x d) (has_y d) (axis_snap_cross_axis_accum d)
    (axis_snap_last_decay_timestamp d) (keybind_x_accum d) (keybind_y_accum d)
    (temp_layer_layer_active d) (temp_layer_keep_active d) (last_input_timestamp d) v.

(** [data->f = ...] and [data->persistent_f = ...]. *)
Definition upd_current (f : tunables -> tunables) (d : runtime_processor_data) :=
  set_current (f (current d)) d.
Definition upd_persistent (f : tunables -> tunables) (d : runtime_processor_data) :=
  set_persistent (f (persistent d)) d.

(** [struct zmk_input_processor_runtime_config], the public view filled in
    by [zmk_input_processor_runtime_get_config]. *)
Record zmk_input_processor_runtime_config : Type := {
  cfg_scale_multiplier : Z;
  cfg_scale_divisor : Z;
  cfg_rotation_degrees : Z;
  cfg_temp_layer_enabled : bool;
  cfg_temp_layer_layer : Z;
  cfg_temp_layer_activation_delay_ms : Z;
  cfg_temp_layer_deactivation_delay_ms : Z;
  cfg_active_layers : Z;
  cfg_axis_snap_mode : Z;
  cfg_axis_snap_threshold : Z;
  cfg_axis_snap_timeout_ms : Z;
  cfg_xy_to_scroll_enabled : bool;
  cfg_xy_swap_enabled : bool;
  cfg_x_invert : bool;
  cfg_y_invert : bool;
  cfg_keybind_enabled : bool;
  cfg_keybind_behavior_count : Z;
  cfg_keybind_degree_offset : Z;
  cfg_keybind_tick : Z
}.

(** A device: its constant configuration and its mutable data.  A null
    [const struct device *] is [None]. *)
Record device : Type := {
  config : runtime_processor_config;
  data : runtime_processor_data
}.

Definition with_data (dev : device) (d : runtime_processor_data) : device :=
  Build_device (config dev) d.

(** The work items of the structure. *)
Inductive work_item : Type :=
| save_work
| temp_layer_activation_work
| temp_layer_deactivation_work.

(** Calls that leave the translation unit.  A rescheduling call carries the
    data as it stands when the call is made. *)
Inductive effect : Type :=
| k_work_reschedule (w : work_item) (delay_ms : Z) (seen : runtime_processor_data)
| raise_zmk_input_processor_state_changed
    (nm : string) (cfg : zmk_input_processor_runtime_config)
| zmk_behavior_invoke_binding
    (behavior_dev : string) (layer : Z) (position : Z) (timestamp : Z) (pressed : bool).

(** The keymap as the processor queries it. *)
Record keymap : Type := {
  ZMK_KEYMAP_LAYERS_LEN : nat;
  zmk_keymap_layer_index_to_id : Z -> Z;
  zmk_keymap_layer_active : Z -> bool;
  zmk_keymap_highest_layer_active : Z
}.

(** The behaviour registry: whether a name resolves to a behaviour device,
    and the status an invocation returns. *)
Record behavior_registry : Type := {
  zmk_behavior_get_binding : string -> bool;
  invoke_status : string -> bool -> Z
}.

(** ** The event pipeline *)

Section Pipeline.

Variable M : libm.
Variable K : keymap.
Variable B : behavior_registry.

(** [update_rotation_values]: the cosine and sine of the angle, scaled by
    1000 and converted to [int32_t]. *)
Definition update_rotation_values (d : runtime_processor_data) : runtime_processor_data :=
  if rotation_degrees (current d) =? 0 then
    set_sin_val 0 (set_cos_val 1000 d)
  else
    let angle_rad := (of_int (rotation_degrees (current d)) * M_PI / 180)%float in
    let d := set_cos_val (int32_t (to_int (libm_cos M angle_rad * 1000)%float)) d in
    set_sin_val (int32_t (to_int (libm_sin M angle_rad * 1000)%float)) d.

(** [code_idx]: the index of the first occurrence of [code], or [-ENODEV]. *)
Fixpoint code_idx_from (i : Z) (c : Z) (l : list Z) : Z :=
  match l with
  | [] => - ENODEV
  | x :: l' => if x =? c then i else code_idx_from (i + 1) c l'
  end.

Definition code_idx (c : Z) (l : list Z) : Z := code_idx_from 0 c l.

(** The loop of [is_processor_active_for_current_layers]; [n] counts the
    layer indices still below [ZMK_KEYMAP_LAYERS_LEN]. *)
Fixpoint layers_loop (n : nat) (remaining_mask layer_idx : Z) : bool :=
  match n with
  | O => false
  | S n' =>
      if remaining_mask =? 0 then false
      else if Z.odd remaining_mask
                && negb (zmk_keymap_layer_index_to_id K layer_idx =? ZMK_KEYMAP_LAYER_ID_INVAL)
                && zmk_keymap_layer_active K (zmk_keymap_layer_index_to_id K layer_idx)
      then true
      else layers_loop n' (Z.shiftr remaining_mask 1) (layer_idx + 1)
  end.

Definition is_processor_active_for_current_layers (active_layers_mask : Z) : bool :=
  if active_layers_mask =? 0 then true
  else layers_loop (ZMK_KEYMAP_LAYERS_LEN K) active_layers_mask 0.

(** [trigger_keybind_behavior]: the status and the invocations made. *)
Definition trigger_keybind_behavior (cfg : runtime_processor_config) (behavior_idx : Z)
    (now : Z) : Z * list effect :=
  if keybind_behaviors_len cfg <=? behavior_idx then (- EINVAL, [])
  else
    match nth (Z.to_nat behavior_idx) (keybind_behaviors cfg) None with
    | None => (- EINVAL, [])
    | Some behavior_name =>
        if negb (zmk_behavior_get_binding B behavior_name) then (- ENODEV, [])
        else
          let layer := zmk_keymap_highest_layer_active K in
          let press := zmk_behavior_invoke_binding behavior_name layer 0 now true in
          let ret := invoke_status B behavior_name true in
          if ret <? 0 then (ret, [press])
          else (0, [press; zmk_behavior_invoke_binding behavior_name layer 0 now false])
    end.

(** Lines 356-387 of [process_keybind]: the direction index chosen for the
    accumulated movement. *)
Definition keybind_behavior_idx (x_accum y_accum degree_offset behavior_count : Z) : Z :=
  let angle_rad := libm_atan2 M (of_int y_accum) (of_int x_accum) in
  let angle_deg := (angle_rad * 180 / M_PI)%float in
  let angle_deg := if (angle_deg <? 0)%float then (angle_deg + 360)%float else angle_deg in
  let angle_deg := (angle_deg + of_int degree_offset)%float in
  let angle_deg := if (360 <=? angle_deg)%float then (angle_deg - 360)%float else angle_deg in
  if behavior_count =? 1 then 0
  else
    let segment_size := (360 / of_int behavior_count)%float in
    let adjusted_angle := (angle_deg + segment_size / 2)%float in
    let adjusted_angle :=
      if (360 <=? adjusted_angle)%float then (adjusted_angle - 360)%float
      else adjusted_angle in
    uint8_t (Z.rem (uint8_t (to_int (adjusted_angle / segment_size)%float)) behavior_count).

(** [process_keybind]: whether the event was consumed, the data afterwards
    and the invocations made. *)
Definition process_keybind (dev : device) (is_x : bool) (val : Z) (now : Z)
    : bool * runtime_processor_data * list effect :=
  let cfg := config dev in
  let d := data dev in
  if negb (keybind_enabled (current d))
     || (keybind_behavior_count (current d) =? 0)
     || (keybind_behaviors_len cfg =? 0)
  then (false, d, [])
  else
    let behavior_count := keybind_behavior_count (current d) in
    let behavior_count :=
      if keybind_behaviors_len cfg <? behavior_count
      then uint8_t (keybind_behaviors_len cfg) else behavior_count in
    let behavior_count :=
      if MAX_KEYBIND_BEHAVIORS <? behavior_count
      then MAX_KEYBIND_BEHAVIORS else behavior_count in
    let d :=
      if is_x then set_keybind_x_accum (int32_t (keybind_x_accum d + val)) d
      else set_keybind_y_accum (int32_t (keybind_y_accum d + val)) d in
    let total_movement_sq :=
      int32_t (int32_t (keybind_x_accum d * keybind_x_accum d)
               + int32_t (keybind_y_accum d * keybind_y_accum d)) in
    let tick_threshold_sq :=
      int32_t (keybind_tick (current d) * keybind_tick (current d)) in
    if total_movement_sq <? tick_threshold_sq then (true, d, [])
    else
      let behavior_idx :=
        keybind_behavior_idx (keybind_x_accum d) (keybind_y_accum d)
          (keybind_degree_offset (current d)) behavior_count in
      let tr := snd (trigger_keybind_behavior cfg behavior_idx now) in
      (true, set_keybind_y_accum 0 (set_keybind_x_accum 0 d), tr).

(** [scale_val].  [remainder] is [Some r] when [state] and
    [state->remainder] are both non-null.  The returned triple is the
    status, the event and the remainder afterwards.  A divisor that
    narrows to 0 makes the source divide by zero; [Z.quot] then yields 0. *)
Definition scale_val (event : input_event) (mul div : Z) (remainder : option Z)
    : Z * input_event * option Z :=
  if (mul =? 0) || (div =? 0) then (ZMK_INPUT_PROC_CONTINUE, event, remainder)
  else
    let value_mul := int16_t (int32_t (value event * int16_t mul)) in
    let value_mul :=
      match remainder with
      | Some r => int16_t (value_mul + r)
      | None => value_mul
      end in
    let scaled := int16_t (Z.quot value_mul (int16_t div)) in
    let remainder :=
      match remainder with
      | Some _ => Some (int16_t (value_mul - scaled * int16_t div))
      | None => None
      end in
    (0, set_value scaled event, remainder).

(** The code mapping block (XY-to-scroll has precedence over XY-swap). *)
Definition code_mapping (d : runtime_processor_data) (is_x : bool) (event : input_event)
    : input_event :=
  if xy_to_scroll_enabled (current d) then
    if is_x then set_code INPUT_REL_HWHEEL event else set_code INPUT_REL_WHEEL event
  else if xy_swap_enabled (current d) then
    if is_x then set_code INPUT_REL_Y event else set_code INPUT_REL_X event
  else event.

(** The temp-layer activation block. *)
Definition temp_layer_activation (d : runtime_processor_data) (event : input_event) (now : Z)
    : runtime_processor_data * list effect :=
  if temp_layer_enabled (current d) && negb (value event =? 0) then
    let d := set_last_input_timestamp now d in
    if negb (temp_layer_layer_active d)
       && ((last_keypress_timestamp d =? 0)
           || (temp_layer_activation_delay_ms (current d)
               <=? int64_t (now - last_keypress_timestamp d)))
    then (d, [k_work_reschedule temp_layer_activation_work 0 d])
    else (d, [])
  else (d, []).

(** The two rotated coordinates, computed in [int32_t]. *)
Definition rotated_x (lx ly c s : Z) : Z :=
  int32_t (Z.quot (int32_t (int32_t (lx * c) - int32_t (ly * s))) 1000).

Definition rotated_y (lx ly c s : Z) : Z :=
  int32_t (Z.quot (int32_t (int32_t (lx * s) + int32_t (ly * c))) 1000).

(** The rotation block; [val] is the [int16_t value] read from the event
    on entry. *)
Definition apply_rotation (d : runtime_processor_data) (is_x : bool) (val : Z)
    (event : input_event) : runtime_processor_data * input_event :=
  if negb (rotation_degrees (current d) =? 0) then
    if is_x then
      let d := set_has_x true (set_last_x val d) in
      if has_y d then
        let r := rotated_x (last_x d) (last_y d) (cos_val d) (sin_val d) in
        (set_has_y false d, set_value (int16_t r) event)
      else (d, set_value 0 event)
    else
      let d := set_has_y true (set_last_y val d) in
      if has_x d then
        let r := rotated_y (last_x d) (last_y d) (cos_val d) (sin_val d) in
        (set_has_x false d, set_value (int16_t r) event)
      else (d, set_value 0 event)
  else (d, event).

(** The axis inversion block. *)
Definition apply_invert (d : runtime_processor_data) (is_x : bool) (event : input_event)
    : input_event :=
  if (is_x && x_invert (current d)) || (negb is_x && y_invert (current d))
  then set_value (int32_t (- value event)) event
  else event.

(** Decay of the cross-axis accumulator, the first half of the axis snap
    block.  With a timeout below 50 ms the source divides by zero; [Z.quot]
    then yields 0 and the decay per period is the minimum, 1. *)
Definition axis_snap_decay (d : runtime_processor_data) (now : Z) : runtime_processor_data :=
  if (0 <? axis_snap_timeout_ms (current d)) && (0 <? axis_snap_last_decay_timestamp d) then
    let elapsed := int64_t (now - axis_snap_last_decay_timestamp d) in
    if 0 <? elapsed then
      let decay_periods := Z.quot elapsed 50 in
      if 0 <? decay_periods then
        let decay_per_50ms :=
          int16_t (Z.quot (axis_snap_threshold (current d))
                          (Z.quot (axis_snap_timeout_ms (current d)) 50)) in
        let decay_per_50ms := if decay_per_50ms <? 1 then 1 else decay_per_50ms in
        let total_decay := int16_t (int64_t (decay_per_50ms * decay_periods)) in
        let d :=
          if 0 <? axis_snap_cross_axis_accum d then
            let d :=
              set_axis_snap_cross_axis_accum
                (int16_t (axis_snap_cross_axis_accum d - total_decay)) d in
            if axis_snap_cross_axis_accum d <? 0
            then set_axis_snap_cross_axis_accum 0 d else d
          else if axis_snap_cross_axis_accum d <? 0 then
            let d :=
              set_axis_snap_cross_axis_accum
                (int16_t (axis_snap_cross_axis_accum d + total_decay)) d in
            if 0 <? axis_snap_cross_axis_accum d
            then set_axis_snap_cross_axis_accum 0 d else d
          else d in
        set_axis_snap_last_decay_timestamp now d
      else d
    else d
  else d.

(** The cross-axis half of the axis snap block; [val] is the [int16_t
    value] refreshed after inversion. *)
Definition axis_snap_cross (d : runtime_processor_data) (val : Z) (event : input_event)
    (now : Z) : runtime_processor_data * input_event :=
  let current_abs_accum :=
    int16_t (if axis_snap_cross_axis_accum d <? 0
             then - axis_snap_cross_axis_accum d else axis_snap_cross_axis_accum d) in
  let is_unsnapped := axis_snap_threshold (current d) <=? current_abs_accum in
  let d :=
    if is_unsnapped then
      set_axis_snap_cross_axis_accum
        (int16_t (current_abs_accum + (if 0 <? val then val else - val))) d
    else set_axis_snap_cross_axis_accum (int16_t (axis_snap_cross_axis_accum d + val)) d in
  let d := set_axis_snap_last_decay_timestamp now d in
  let abs_accum :=
    int16_t (if axis_snap_cross_axis_accum d <? 0
             then - axis_snap_cross_axis_accum d else axis_snap_cross_axis_accum d) in
  if axis_snap_threshold (current d) <=? abs_accum then
    if axis_snap_threshold (current d) * 2 <? abs_accum then
      (set_axis_snap_cross_axis_accum
         (int16_t ((if 0 <? axis_snap_cross_axis_accum d
                    then axis_snap_threshold (current d)
                    else - axis_snap_threshold (current d)) * 2)) d,
       event)
    else (d, event)
  else (d, set_value 0 event).

(** The axis snap block. *)
Definition apply_axis_snap (d : runtime_processor_data) (is_x : bool) (val : Z)
    (event : input_event) (now : Z) : runtime_processor_data * input_event :=
  if negb (axis_snap_mode (current d) =? ZMK_INPUT_PROCESSOR_AXIS_SNAP_MODE_NONE)
     && negb (value event =? 0)
  then
    let is_snapped_axis :=
      ((axis_snap_mode (current d) =? ZMK_INPUT_PROCESSOR_AXIS_SNAP_MODE_X) && is_x)
      || ((axis_snap_mode (current d) =? ZMK_INPUT_PROCESSOR_AXIS_SNAP_MODE_Y) && negb is_x) in
    let is_cross_axis := negb is_snapped_axis in
    let d := axis_snap_decay d now in
    if is_cross_axis then axis_snap_cross d val event now else (d, event)
  else (d, event).

(** The scaling block. *)
Definition apply_scaling (d : runtime_processor_data) (event : input_event)
    (remainder : option Z) : input_event * option Z :=
  if (0 <? scale_multiplier (current d)) && (0 <? scale_divisor (current d)) then
    let '(_, event, remainder) :=
      scale_val event (scale_multiplier (current d)) (scale_divisor (current d)) remainder in
    (event, remainder)
  else (event, remainder).

(** The block that pushes the temp-layer deactivation back. *)
Definition temp_layer_deactivation (d : runtime_processor_data) : list effect :=
  if temp_layer_enabled (current d) && temp_layer_layer_active d
     && negb (temp_layer_keep_active d)
  then [k_work_reschedule temp_layer_deactivation_work
          (temp_layer_deactivation_delay_ms (current d)) d]
  else [].

(** What a call of the handler leaves behind: the status returned, the
    data, the event as the caller now sees it, the caller's remainder and
    the calls made. *)
Record handled : Type := {
  status : Z;
  data_out : runtime_processor_data;
  event_out : input_event;
  remainder_out : option Z;
  trace : list effect
}.

(** [runtime_processor_handle_event].  [now] is the uptime that
    [k_uptime_get] returns during the call. *)
Definition runtime_processor_handle_event (dev : device) (event : input_event)
    (remainder : option Z) (now : Z) : handled :=
  let cfg := config dev in
  let d := data dev in
  if negb (ev_type event =? type cfg) then
    Build_handled ZMK_INPUT_PROC_CONTINUE d event remainder []
  else
    let x_idx := code_idx (code event) (x_codes cfg) in
    let y_idx := code_idx (code event) (y_codes cfg) in
    if (x_idx <? 0) && (y_idx <? 0) then
      Build_handled ZMK_INPUT_PROC_CONTINUE d event remainder []
    else if negb (is_processor_active_for_current_layers (active_layers (current d))) then
      Build_handled ZMK_INPUT_PROC_CONTINUE d event remainder []
    else
      let is_x := 0 <=? x_idx in
      let val := int16_t (value event) in
      let '(consumed, d, tr_keybind) := process_keybind dev is_x val now in
      if consumed then Build_handled ZMK_INPUT_PROC_STOP d event remainder tr_keybind
      else
        let event := code_mapping d is_x event in
        let '(d, tr_act) := temp_layer_activation d event now in
        let '(d, event) := apply_rotation d is_x val event in
        let event := apply_invert d is_x event in
        let val := int16_t (value event) in
        let '(d, event) := apply_axis_snap d is_x val event now in
        let '(event, remainder) := apply_scaling d event remainder in
        let tr_deact := temp_layer_deactivation d in
        Build_handled ZMK_INPUT_PROC_CONTINUE d event remainder
          (tr_keybind ++ tr_act ++ tr_deact).

(** A run of the handler over a stream of timed events, the data and the
    remainder carried from one call to the next. *)
Fixpoint run_events (dev : device) (remainder : option Z) (evs : list (Z * input_event))
    : list handled :=
  match evs with
  | [] => []
  | (now, event) :: evs' =>
      let h := runtime_processor_handle_event dev event remainder now in
      h :: run_events (with_data dev (data_out h)) (remainder_out h) evs'
  end.

End Pipeline.

(** ** The control surface *)

Section ControlSurface.

Variable M : libm.

(** [IS_ENABLED(CONFIG_SETTINGS)], [CONFIG_ZMK_SETTINGS_SAVE_DEBOUNCE] and
    the status the kernel returns from rescheduling the save work. *)
Variable CONFIG_SETTINGS : bool.
Variable CONFIG_ZMK_SETTINGS_SAVE_DEBOUNCE : Z.
Variable save_reschedule_status : Z.

(** What a call of the control surface leaves behind: the status returned,
    the device and the calls made. *)
Record outcome : Type := {
  ret : Z;
  dev_after : option device;
  calls : list effect
}.

(** [zmk_input_processor_runtime_get_config] with both out-parameters
    supplied: the status, the name and the public view. *)
Definition zmk_input_processor_runtime_get_config (dev : option device)
    : Z * option (string * zmk_input_processor_runtime_config) :=
  match dev with
  | None => (- EINVAL, None)
  | Some dv =>
      let p := persistent (data dv) in
      (0, Some (name (config dv),
                {| cfg_scale_multiplier := scale_multiplier p;
                   cfg_scale_divisor := scale_divisor p;
                   cfg_rotation_degrees := rotation_degrees p;
                   cfg_temp_layer_enabled := temp_layer_enabled p;
                   cfg_temp_layer_layer := temp_layer_layer p;
                   cfg_temp_layer_activation_delay_ms := temp_layer_activation_delay_ms p;
                   cfg_temp_layer_deactivation_delay_ms := temp_layer_deactivation_delay_ms p;
                   cfg_active_layers := active_layers p;
                   cfg_axis_snap_mode := axis_snap_mode p;
                   cfg_axis_snap_threshold := axis_snap_threshold p;
                   cfg_axis_snap_timeout_ms := axis_snap_timeout_ms p;
                   cfg_xy_to_scroll_enabled := xy_to_scroll_enabled p;
                   cfg_xy_swap_enabled := xy_swap_enabled p;
                   cfg_x_invert := x_invert p;
                   cfg_y_invert := y_invert p;
                   cfg_keybind_enabled := keybind_enabled p;
                   cfg_keybind_behavior_count := keybind_behavior_count p;
                   cfg_keybind_degree_offset := keybind_degree_offset p;
                   cfg_keybind_tick := keybind_tick p |}))
  end.

(** [raise_state_changed_event]. *)
Definition raise_state_changed_event (dev : device) : list effect :=
  match zmk_input_processor_runtime_get_config (Some dev) with
  | (_, Some (nm, cfg)) => [raise_zmk_input_processor_state_changed nm cfg]
  | (_, None) => []
  end.

(** [schedule_save_processor_settings]. *)
Definition schedule_save_processor_settings (dev : device) : Z * list effect :=
  (save_reschedule_status,
   [k_work_reschedule save_work CONFIG_ZMK_SETTINGS_SAVE_DEBOUNCE (data dev)]).

(** The tail shared by the setters: under [CONFIG_SETTINGS] a persistent
    change schedules the save and raises the event. *)
Definition save_and_notify (dev : device) (persist : bool) : outcome :=
  if CONFIG_SETTINGS && persist then
    let '(r, tr) := schedule_save_processor_settings dev in
    {| ret := r; dev_after := Some dev; calls := tr ++ raise_state_changed_event dev |}
  else {| ret := 0; dev_after := Some dev; calls := [] |}.

(** An early [return -EINVAL]. *)
Definition reject (dev : option device) : outcome :=
  {| ret := - EINVAL; dev_after := dev; calls := [] |}.

(** [data->f = v; if (persistent) data->persistent_f = v;] *)
Definition assign (f : tunables -> tunables) (persist : bool) (d : runtime_processor_data)
    : runtime_processor_data :=
  let d := upd_current f d in
  if persist then upd_persistent f d else d.

Definition zmk_input_processor_runtime_set_scaling (dev : option device)
    (multiplier divisor : Z) (persist : bool) : outcome :=
  match dev with
  | None => reject dev
  | Some dv =>
      let d := data dv in
      let d := if 0 <? multiplier then assign (set_scale_multiplier multiplier) persist d
               else d in
      let d := if 0 <? divisor then assign (set_scale_divisor divisor) persist d else d in
      save_and_notify (with_data dv d) persist
  end.

Definition zmk_input_processor_runtime_set_rotation (dev : option device) (degrees : Z)
    (persist : bool) : outcome :=
  match dev with
  | None => reject dev
  | Some dv =>
      let d := assign (set_rotation_degrees degrees) persist (data dv) in
      let d := update_rotation_values M d in
      save_and_notify (with_data dv d) persist
  end.

(** [zmk_input_processor_runtime_restore_persistent]. *)
Definition zmk_input_processor_runtime_restore_persistent (dev : option device)
    : option device :=
  match dev with
  | None => None
  | Some dv =>
      let d := data dv in
      let d := upd_current (set_scale_multiplier (scale_multiplier (persistent d))) d in
      let d := upd_current (set_scale_divisor (scale_divisor (persistent d))) d in
      let d := upd_current (set_rotation_degrees (rotation_degrees (persistent d))) d in
      let d := update_rotation_values M d in
      let d := upd_current (set_axis_snap_mode (axis_snap_mode (persistent d))) d in
      let d := upd_current (set_axis_snap_threshold (axis_snap_threshold (persistent d))) d in
      let d :=
        upd_current (set_axis_snap_timeout_ms (axis_snap_timeout_ms (persistent d))) d in
      let d := set_axis_snap_cross_axis_accum 0 d in
      let d := set_axis_snap_last_decay_timestamp 0 d in
      let d := upd_current (set_x_invert (x_invert (persistent d))) d in
      let d := upd_current (set_y_invert (y_invert (persistent d))) d in
      let d := upd_current (set_keybind_enabled (keybind_enabled (persistent d))) d in
      let d :=
        upd_current
          (set_keybind_behavior_count (keybind_behavior_count (persistent d))) d in
      let d :=
        upd_current (set_keybind_degree_offset (keybind_degree_offset (persistent d))) d in
      let d := upd_current (set_keybind_tick (keybind_tick (persistent d))) d in
      let d := set_keybind_x_accum 0 d in
      let d := set_keybind_y_accum 0 d in
      Some (with_data dv d)
  end.

Definition zmk_input_processor_runtime_set_temp_layer (dev : option device)
    (enabled : bool) (layer activation_delay_ms deactivation_delay_ms : Z) (persist : bool)
    : outcome :=
  match dev with
  | None => reject dev
  | Some dv =>
      let d := data dv in
      let d := upd_current (set_temp_layer_enabled enabled) d in
      let d := upd_current (set_temp_layer_layer layer) d in
      let d :=
        upd_current (set_temp_layer_activation_delay_ms (uint16_t activation_delay_ms)) d in
      let d :=
        upd_current
          (set_temp_layer_deactivation_delay_ms (uint16_t deactivation_delay_ms)) d in
      let d :=
        if persist then
          let d := upd_persistent (set_temp_layer_enabled enabled) d in
          let d := upd_persistent (set_temp_layer_layer layer) d in
          let d :=
            upd_persistent
              (set_temp_layer_activation_delay_ms (uint16_t activation_delay_ms)) d in
          upd_persistent
            (set_temp_layer_deactivation_delay_ms (uint16_t deactivation_delay_ms)) d
        else d in
      save_and_notify (with_data dv d) persist
  end.

(** The setters of one field with no validation of the value. *)
Definition plain_setter (f : tunables -> tunables) (dev : option device) (persist : bool)
    : outcome :=
  match dev with
  | None => reject dev
  | Some dv => save_and_notify (with_data dv (assign f persist (data dv))) persist
  end.

Definition zmk_input_processor_runtime_set_temp_layer_enabled (dev : option device)
    (enabled : bool) (persist : bool) : outcome :=
  plain_setter (set_temp_layer_enabled enabled) dev persist.

Definition zmk_input_processor_runtime_set_temp_layer_layer (dev : option device)
    (layer : Z) (persist : bool) : outcome :=
  plain_setter (set_temp_layer_layer layer) dev persist.

Definition zmk_input_processor_runtime_set_temp_layer_activation_delay
    (dev : option device) (activation_delay_ms : Z) (persist : bool) : outcome :=
  plain_setter (set_temp_layer_activation_delay_ms (uint16_t activation_delay_ms)) dev persist.

Definition zmk_input_processor_runtime_set_temp_layer_deactivation_delay
    (dev : option device) (deactivation_delay_ms : Z) (persist : bool) : outcome :=
  plain_setter (set_temp_layer_deactivation_delay_ms (uint16_t deactivation_delay_ms))
    dev persist.

Definition zmk_input_processor_runtime_set_active_layers (dev : option device)
    (layers : Z) (persist : bool) : outcome :=
  plain_setter (set_active_layers layers) dev persist.

Definition zmk_input_processor_runtime_set_axis_snap_mode (dev : option device)
    (mode : Z) (persist : bool) : outcome :=
  match dev with
  | None => reject dev
  | Some dv =>
      if ZMK_INPUT_PROCESSOR_AXIS_SNAP_MODE_Y <? mode then reject dev
      else
        let d := upd_current (set_axis_snap_mode mode) (data dv) in
        let d := set_axis_snap_cross_axis_accum 0 d in
        let d := if persist then upd_persistent (set_axis_snap_mode mode) d else d in
        save_and_notify (with_data dv d) persist
  end.

Definition zmk_input_processor_runtime_set_axis_snap_threshold (dev : option device)
    (threshold : Z) (persist : bool) : outcome :=
  plain_setter (set_axis_snap_threshold threshold) dev persist.

Definition zmk_input_processor_runtime_set_axis_snap_timeout (dev : option device)
    (timeout_ms : Z) (persist : bool) : outcome :=
  plain_setter (set_axis_snap_timeout_ms timeout_ms) dev persist.

Definition zmk_input_processor_runtime_set_axis_snap (dev : option device)
    (mode threshold timeout_ms : Z) (persist : bool) : outcome :=
  match dev with
  | None => reject dev
  | Some dv =>
      if ZMK_INPUT_PROCESSOR_AXIS_SNAP_MODE_Y <? mode then reject dev
      else
        let d := upd_current (set_axis_snap_mode mode) (data dv) in
        let d := upd_current (set_axis_snap_threshold threshold) d in
        let d := upd_current (set_axis_snap_timeout_ms timeout_ms) d in
        let d := set_axis_snap_cross_axis_accum 0 d in
        let d :=
          if persist then
            let d := upd_persistent (set_axis_snap_mode mode) d in
            let d := upd_persistent (set_axis_snap_threshold threshold) d in
            upd_persistent (set_axis_snap_timeout_ms timeout_ms) d
          else d in
        save_and_notify (with_data dv d) persist
  end.

Definition zmk_input_processor_runtime_set_x_invert (dev : option device) (invert : bool)
    (persist : bool) : outcome :=
  plain_setter (set_x_invert invert) dev persist.

Definition zmk_input_processor_runtime_set_y_invert (dev : option device) (invert : bool)
    (persist : bool) : outcome :=
  plain_setter (set_y_invert invert) dev persist.

Definition zmk_input_processor_runtime_set_keybind_enabled (dev : option device)
    (enabled : bool) (persist : bool) : outcome :=
  plain_setter (set_keybind_enabled enabled) dev persist.

Definition zmk_input_processor_runtime_set_keybind_behavior_count (dev : option device)
    (count : Z) (persist : bool) : outcome :=
  match dev with
  | None => reject dev
  | Some dv =>
      if (count <? 1) || (MAX_KEYBIND_BEHAVIORS <? count) then reject dev
      else
        save_and_notify
          (with_data dv (assign (set_keybind_behavior_count count) persist (data dv)))
          persist
  end.

Definition zmk_input_processor_runtime_set_keybind_degree_offset (dev : option device)
    (degree_offset : Z) (persist : bool) : outcome :=
  match dev with
  | None => reject dev
  | Some dv =>
      if 360 <=? degree_offset then reject dev
      else
        save_and_notify
          (with_data dv (assign (set_keybind_degree_offset degree_offset) persist (data dv)))
          persist
  end.

Definition zmk_input_processor_runtime_set_keybind_tick (dev : option device) (tick : Z)
    (persist : bool) : outcome :=
  match dev with
  | None => reject dev
  | Some dv =>
      if tick =? 0 then reject dev
      else
        save_and_notify
          (with_data dv (assign (set_keybind_tick tick) persist (data dv))) persist
  end.

Definition zmk_input_processor_runtime_set_xy_to_scroll_enabled (dev : option device)
    (enabled : bool) (persist : bool) : outcome :=
  plain_setter (set_xy_to_scroll_enabled enabled) dev persist.

Definition zmk_input_processor_runtime_set_xy_swap_enabled (dev : option device)
    (enabled : bool) (persist : bool) : outcome :=
  plain_setter (set_xy_swap_enabled enabled) dev persist.

(** The setters of the control surface with their arguments, so that a
    property can range over all of them. *)
Inductive setter_call : Type :=
| SetScaling (multiplier divisor : Z)
| SetRotation (degrees : Z)
| SetTempLayer (enabled : bool) (layer activation_delay_ms deactivation_delay_ms : Z)
| SetTempLayerEnabled (enabled : bool)
| SetTempLayerLayer (layer : Z)
| SetTempLayerActivationDelay (activation_delay_ms : Z)
| SetTempLayerDeactivationDelay (deactivation_delay_ms : Z)
| SetActiveLayers (layers : Z)
| SetAxisSnapMode (mode : Z)
| SetAxisSnapThreshold (threshold : Z)
| SetAxisSnapTimeout (timeout_ms : Z)
| SetAxisSnap (mode threshold timeout_ms : Z)
| SetXInvert (invert : bool)
| SetYInvert (invert : bool)
| SetKeybindEnabled (enabled : bool)
| SetKeybindBehaviorCount (count : Z)
| SetKeybindDegreeOffset (degree_offset : Z)
| SetKeybindTick (tick : Z)
| SetXyToScrollEnabled (enabled : bool)
| SetXySwapEnabled (enabled : bool).

Definition call_setter (c : setter_call) (dev : option device) (persist : bool) : outcome :=
  match c with
  | SetScaling m dv => zmk_input_processor_runtime_set_scaling dev m dv persist
  | SetRotation g => zmk_input_processor_runtime_set_rotation dev g persist
  | SetTempLayer e l a b => zmk_input_processor_runtime_set_temp_layer dev e l a b persist
  | SetTempLayerEnabled e => zmk_input_processor_runtime_set_temp_layer_enabled dev e persist
  | SetTempLayerLayer l => zmk_input_processor_runtime_set_temp_layer_layer dev l persist
  | SetTempLayerActivationDelay a =>
      zmk_input_processor_runtime_set_temp_layer_activation_delay dev a persist
  | SetTempLayerDeactivationDelay a =>
      zmk_input_processor_runtime_set_temp_layer_deactivation_delay dev a persist
  | SetActiveLayers l => zmk_input_processor_runtime_set_active_layers dev l persist
  | SetAxisSnapMode m => zmk_input_processor_runtime_set_axis_snap_mode dev m persist
  | SetAxisSnapThreshold t =>
      zmk_input_processor_runtime_set_axis_snap_threshold dev t persist
  | SetAxisSnapTimeout t => zmk_input_processor_runtime_set_axis_snap_timeout dev t persist
  | SetAxisSnap m t o => zmk_input_processor_runtime_set_axis_snap dev m t o persist
  | SetXInvert b => zmk_input_processor_runtime_set_x_invert dev b persist
  | SetYInvert b => zmk_input_processor_runtime_set_y_invert dev b persist
  | SetKeybindEnabled b => zmk_input_processor_runtime_set_keybind_enabled dev b persist
  | SetKeybindBehaviorCount n =>
      zmk_input_processor_runtime_set_keybind_behavior_count dev n persist
  | SetKeybindDegreeOffset o =>
      zmk_input_processor_runtime_set_keybind_degree_offset dev o persist
  | SetKeybindTick t => zmk_input_processor_runtime_set_keybind_tick dev t persist
  | SetXyToScrollEnabled b =>
      zmk_input_processor_runtime_set_xy_to_scroll_enabled dev b persist
  | SetXySwapEnabled b => zmk_input_processor_runtime_set_xy_swap_enabled dev b persist
  end.

(** A sequence of calls on one device, all with the same [persistent]
    argument. *)
Fixpoint call_setters (cs : list setter_call) (dev : option device) (persist : bool)
    : option device :=
  match cs with
  | [] => dev
  | c :: cs' => call_setters cs' (dev_after (call_setter c dev persist)) persist
  end.

(** The validation failures of the setters: a null device, or a value the
    setter refuses. *)
Definition refused (c : setter_call) : bool :=
  match c with
  | SetAxisSnapMode m => ZMK_INPUT_PROCESSOR_AXIS_SNAP_MODE_Y <? m
  | SetAxisSnap m _ _ => ZMK_INPUT_PROCESSOR_AXIS_SNAP_MODE_Y <? m
  | SetKeybindBehaviorCount n => (n <? 1) || (MAX_KEYBIND_BEHAVIORS <? n)
  | SetKeybindDegreeOffset o => 360 <=? o
  | SetKeybindTick t => t =? 0
  | _ => false
  end.

Definition validation_fails (c : setter_call) (dev : option device) : bool :=
  match dev with
  | None => true
  | Some _ => refused c
  end.

(** The tunable a call writes, read back from a record of tunables, as a
    check that the record [t] holds the values of the call.  The scaling
    setter skips a zero argument. *)
Definition holds_values (c : setter_call) (t : tunables) : Prop :=
  match c with
  | SetScaling m dv =>
      (0 < m -> scale_multiplier t = m) /\ (0 < dv -> scale_divisor t = dv)
  | SetRotation g => rotation_degrees t = g
  | SetTempLayer e l a b =>
      temp_layer_enabled t = e /\ temp_layer_layer t = l
      /\ temp_layer_activation_delay_ms t = uint16_t a
      /\ temp_layer_deactivation_delay_ms t = uint16_t b
  | SetTempLayerEnabled e => temp_layer_enabled t = e
  | SetTempLayerLayer l => temp_layer_layer t = l
  | SetTempLayerActivationDelay a => temp_layer_activation_delay_ms t = uint16_t a
  | SetTempLayerDeactivationDelay a => temp_layer_deactivation_delay_ms t = uint16_t a
  | SetActiveLayers l => active_layers t = l
  | SetAxisSnapMode m => axis_snap_mode t = m
  | SetAxisSnapThreshold h => axis_snap_threshold t = h
  | SetAxisSnapTimeout o => axis_snap_timeout_ms t = o
  | SetAxisSnap m h o =>
      axis_snap_mode t = m /\ axis_snap_threshold t = h /\ axis_snap_timeout_ms t = o
  | SetXInvert b => x_invert t = b
  | SetYInvert b => y_invert t = b
  | SetKeybindEnabled b => keybind_enabled t = b
  | SetKeybindBehaviorCount n => keybind_behavior_count t = n
  | SetKeybindDegreeOffset o => keybind_degree_offset t = o
  | SetKeybindTick k => keybind_tick t = k
  | SetXyToScrollEnabled b => xy_to_scroll_enabled t = b
  | SetXySwapEnabled b => xy_swap_enabled t = b
  end.

End ControlSurface.

(** ** Initialisation, reset and the temp-layer work items *)

Definition ENOENT : Z := 2.
Definition ZMK_EV_EVENT_BUBBLE : Z := 0.

(** Calls into the keymap that change which layers are active. *)
Inductive keymap_call : Type :=
| zmk_keymap_layer_activate (layer : Z)
| zmk_keymap_layer_deactivate (layer : Z).

(** [temp_layer_activation_work_handler].  [ret] is the status
    [zmk_keymap_layer_activate] returns when the handler calls it. *)
Definition temp_layer_activation_work_handler (ret : Z) (d : runtime_processor_data)
    : runtime_processor_data * list keymap_call :=
  if negb (temp_layer_enabled (current d)) || temp_layer_layer_active d then (d, [])
  else
    (if ret =? 0 then set_temp_layer_layer_active true d else d,
     [zmk_keymap_layer_activate (temp_layer_layer (current d))]).

(** [temp_layer_deactivation_work_handler].  [ret] is the status
    [zmk_keymap_layer_deactivate] returns when the handler calls it. *)
Definition temp_layer_deactivation_work_handler (ret : Z) (d : runtime_processor_data)
    : runtime_processor_data * list keymap_call :=
  if negb (temp_layer_layer_active d) || temp_layer_keep_active d then (d, [])
  else
    (if ret =? 0 then set_temp_layer_layer_active false d else d,
     [zmk_keymap_layer_deactivate (temp_layer_layer (current d))]).

Section Lifecycle.

Variable M : libm.
Variable CONFIG_SETTINGS : bool.
Variable CONFIG_ZMK_SETTINGS_SAVE_DEBOUNCE : Z.
Variable save_reschedule_status : Z.

(** The nineteen [initial_*] members of [struct runtime_processor_config],
    gathered in a record of tunables: [scale_multiplier initial] stands for
    [cfg->initial_scale_multiplier], and so on. *)
Variable initial : tunables.

(** [runtime_processor_init], on the data as the loader left it. *)
Definition runtime_processor_init (d : runtime_processor_data) : runtime_processor_data :=
  let d := upd_current (set_scale_multiplier (scale_multiplier initial)) d in
  let d := upd_current (set_scale_divisor (scale_divisor initial)) d in
  let d := upd_current (set_rotation_degrees (rotation_degrees initial)) d in
  let d := upd_persistent (set_scale_multiplier (scale_multiplier initial)) d in
  let d := upd_persistent (set_scale_divisor (scale_divisor initial)) d in
  let d := upd_persistent (set_rotation_degrees (rotation_degrees initial)) d in
  let d := set_has_x false d in
  let d := set_has_y false d in
  let d := set_last_x 0 d in
  let d := set_last_y 0 d in
  let d := upd_current (set_temp_layer_enabled (temp_layer_enabled initial)) d in
  let d := upd_current (set_temp_layer_layer (temp_layer_layer initial)) d in
  let d :=
    upd_current
      (set_temp_layer_activation_delay_ms (temp_layer_activation_delay_ms initial)) d in
  let d :=
    upd_current
      (set_temp_layer_deactivation_delay_ms (temp_layer_deactivation_delay_ms initial)) d in
  let d := upd_persistent (set_temp_layer_enabled (temp_layer_enabled initial)) d in
  let d := upd_persistent (set_temp_layer_layer (temp_layer_layer initial)) d in
  let d :=
    upd_persistent
      (set_temp_layer_activation_delay_ms (temp_layer_activation_delay_ms initial)) d in
  let d :=
    upd_persistent
      (set_temp_layer_deactivation_delay_ms (temp_layer_deactivation_delay_ms initial)) d in
  let d := set_temp_layer_layer_active false d in
  let d := set_temp_layer_keep_active false d in
  let d := set_last_input_timestamp 0 d in
  let d := set_last_keypress_timestamp 0 d in
  let d := upd_current (set_active_layers (active_layers initial)) d in
  let d := upd_persistent (set_active_layers (active_layers initial)) d in
  let d := upd_current (set_axis_snap_mode (axis_snap_mode initial)) d in
  let d := upd_current (set_axis_snap_threshold (axis_snap_threshold initial)) d in
  let d := upd_current (set_axis_snap_timeout_ms (axis_snap_timeout_ms initial)) d in
  let d := upd_persistent (set_axis_snap_mode (axis_snap_mode initial)) d in
  let d := upd_persistent (set_axis_snap_threshold (axis_snap_threshold initial)) d in
  let d := upd_persistent (set_axis_snap_timeout_ms (axis_snap_timeout_ms initial)) d in
  let d := set_axis_snap_cross_axis_accum 0 d in
  let d := set_axis_snap_last_decay_timestamp 0 d in
  let d := upd_current (set_xy_to_scroll_enabled (xy_to_scroll_enabled initial)) d in
  let d := upd_current (set_xy_swap_enabled (xy_swap_enabled initial)) d in
  let d := upd_persistent (set_xy_to_scroll_enabled (xy_to_scroll_enabled initial)) d in
  let d := upd_persistent (set_xy_swap_enabled (xy_swap_enabled initial)) d in
  let d := upd_current (set_x_invert (x_invert initial)) d in
  let d := upd_current (set_y_invert (y_invert initial)) d in
  let d := upd_persistent (set_x_invert (x_invert initial)) d in
  let d := upd_persistent (set_y_invert (y_invert initial)) d in
  let d := upd_current (set_keybind_enabled (keybind_enabled initial)) d in
  let d := upd_current (set_keybind_behavior_count (keybind_behavior_count initial)) d in
  let d := upd_current (set_keybind_degree_offset (keybind_degree_offset initial)) d in
  let d := upd_current (set_keybind_tick (keybind_tick initial)) d in
  let d := upd_persistent (set_keybind_enabled (keybind_enabled initial)) d in
  let d := upd_persistent (set_keybind_behavior_count (keybind_behavior_count initial)) d in
  let d := upd_persistent (set_keybind_degree_offset (keybind_degree_offset initial)) d in
  let d := upd_persistent (set_keybind_tick (keybind_tick initial)) d in
  let d := set_keybind_x_accum 0 d in
  let d := set_keybind_y_accum 0 d in
  update_rotation_values M d.

(** [zmk_input_processor_runtime_reset]: the outcome and the calls into
    the keymap. *)
Definition zmk_input_processor_runtime_reset (dev : option device)
    : outcome * list keymap_call :=
  match dev with
  | None => (reject dev, [])
  | Some dv =>
      let d := data dv in
      let d := upd_current (set_scale_multiplier (scale_multiplier initial)) d in
      let d := upd_current (set_scale_divisor (scale_divisor initial)) d in
      let d := upd_current (set_rotation_degrees (rotation_degrees initial)) d in
      let d := upd_persistent (set_scale_multiplier (scale_multiplier initial)) d in
      let d := upd_persistent (set_scale_divisor (scale_divisor initial)) d in
      let d := upd_persistent (set_rotation_degrees (rotation_degrees initial)) d in
      let d := upd_current (set_temp_layer_enabled (temp_layer_enabled initial)) d in
      let d := upd_current (set_temp_layer_layer (temp_layer_layer initial)) d in
      let d :=
        upd_current
          (set_temp_layer_activation_delay_ms (temp_layer_activation_delay_ms initial)) d in
      let d :=
        upd_current
          (set_temp_layer_deactivation_delay_ms (temp_layer_deactivation_delay_ms initial))
          d in
      let d := upd_persistent (set_temp_layer_enabled (temp_layer_enabled initial)) d in
      let d := upd_persistent (set_temp_layer_layer (temp_layer_layer initial)) d in
      let d :=
        upd_persistent
          (set_temp_layer_activation_delay_ms (temp_layer_activation_delay_ms initial)) d in
      let d :=
        upd_persistent
          (set_temp_layer_deactivation_delay_ms (temp_layer_deactivation_delay_ms initial))
          d in
      let d := upd_current (set_active_layers (active_layers initial)) d in
      let d := upd_persistent (set_active_layers (active_layers initial)) d in
      let '(d, km) :=
        if temp_layer_layer_active d
        then (set_temp_layer_layer_active false d,
              [zmk_keymap_layer_deactivate (temp_layer_layer (current d))])
        else (d, []) in
      let d := upd_current (set_x_invert (x_invert initial)) d in
      let d := upd_current (set_y_invert (y_invert initial)) d in
      let d := upd_persistent (set_x_invert (x_invert initial)) d in
      let d := upd_persistent (set_y_invert (y_invert initial)) d in
      let d := upd_current (set_keybind_enabled (keybind_enabled initial)) d in
      let d :=
        upd_current (set_keybind_behavior_count (keybind_behavior_count initial)) d in
      let d := upd_current (set_keybind_degree_offset (keybind_degree_offset initial)) d in
      let d := upd_current (set_keybind_tick (keybind_tick initial)) d in
      let d := upd_persistent (set_keybind_enabled (keybind_enabled initial)) d in
      let d :=
        upd_persistent (set_keybind_behavior_count (keybind_behavior_count initial)) d in
      let d :=
        upd_persistent (set_keybind_degree_offset (keybind_degree_offset initial)) d in
      let d := upd_persistent (set_keybind_tick (keybind_tick initial)) d in
      let d := set_keybind_x_accum 0 d in
      let d := set_keybind_y_accum 0 d in
      let d := update_rotation_values M d in
      (if CONFIG_SETTINGS then
         let dv' := with_data dv d in
         let '(r, tr) :=
           schedule_save_processor_settings CONFIG_ZMK_SETTINGS_SAVE_DEBOUNCE
             save_reschedule_status dv' in
         {| ret := r; dev_after := Some dv';
            calls := tr ++ raise_state_changed_event dv' |}
       else {| ret := 0; dev_after := Some (with_data dv d); calls := [] |},
       km)
  end.

(** [zmk_input_processor_runtime_temp_layer_keep_active]: the device and
    the calls made. *)
Definition zmk_input_processor_runtime_temp_layer_keep_active (dev : option device)
    (keep_active : bool) : option device * list effect :=
  match dev with
  | None => (None, [])
  | Some dv =>
      let d := set_temp_layer_keep_active keep_active (data dv) in
      (Some (with_data dv d),
       if negb keep_active && temp_layer_enabled (current d) && temp_layer_layer_active d
       then [k_work_reschedule temp_layer_deactivation_work 0 d]
       else [])
  end.

End Lifecycle.

(** ** Settings *)

(** [struct processor_settings].  It has the nineteen members of the
    tunables, with the same names and types and in the same order, and is
    modelled by the same record; a stored record stands for its bytes. *)
Definition processor_settings : Type := tunables.

(** A call into the settings backend. *)
Inductive settings_call : Type :=
| settings_save_one (path : string) (settings : processor_settings) (size : Z).

Section Settings.

Variable M : libm.

(** [sizeof(struct processor_settings)]. *)
Variable sizeof_processor_settings : Z.

(** [snprintf(path, 64, "input_proc/%s", name)]: at most 63 characters are
    kept. *)
Definition settings_path (nm : string) : string :=
  substring 0 63 ("input_proc/" ++ nm).

(** [save_processor_settings_work_handler]: the record handed to
    [settings_save_one]. *)
Definition save_processor_settings_work_handler (dev : device) : settings_call :=
  let d := data dev in
  let settings : processor_settings :=
    {| scale_multiplier := scale_multiplier (persistent d);
       scale_divisor := scale_divisor (persistent d);
       rotation_degrees := rotation_degrees (persistent d);
       temp_layer_enabled := temp_layer_enabled (persistent d);
       temp_layer_layer := temp_layer_layer (persistent d);
       temp_layer_activation_delay_ms := temp_layer_activation_delay_ms (persistent d);
       temp_layer_deactivation_delay_ms := temp_layer_deactivation_delay_ms (persistent d);
       active_layers := active_layers (persistent d);
       axis_snap_mode := axis_snap_mode (persistent d);
       axis_snap_threshold := axis_snap_threshold (persistent d);
       axis_snap_timeout_ms := axis_snap_timeout_ms (persistent d);
       xy_to_scroll_enabled := xy_to_scroll_enabled (persistent d);
       xy_swap_enabled := xy_swap_enabled (persistent d);
       x_invert := x_invert (persistent d);
       y_invert := y_invert (persistent d);
       keybind_enabled := keybind_enabled (persistent d);
       keybind_behavior_count := keybind_behavior_count (persistent d);
       keybind_degree_offset := keybind_degree_offset (persistent d);
       keybind_tick := keybind_tick (persistent d) |} in
  settings_save_one (settings_path (name (config dev))) settings sizeof_processor_settings.

(** [load_processor_settings_cb].  [len] is the size of the stored value;
    [read] is what [read_cb] delivers: its status and the record it
    fills. *)
Definition load_processor_settings_cb (len : Z) (read : Z * processor_settings)
    (d : runtime_processor_data) : Z * runtime_processor_data :=
  if len =? sizeof_processor_settings then
    let '(rc, settings) := read in
    if 0 <=? rc then
      let d := upd_persistent (set_scale_multiplier (scale_multiplier settings)) d in
      let d := upd_persistent (set_scale_divisor (scale_divisor settings)) d in
      let d := upd_persistent (set_rotation_degrees (rotation_degrees settings)) d in
      let d := upd_persistent (set_temp_layer_enabled (temp_layer_enabled settings)) d in
      let d := upd_persistent (set_temp_layer_layer (temp_layer_layer settings)) d in
      let d :=
        upd_persistent
          (set_temp_layer_activation_delay_ms (temp_layer_activation_delay_ms settings)) d in
      let d :=
        upd_persistent
          (set_temp_layer_deactivation_delay_ms (temp_layer_deactivation_delay_ms settings))
          d in
      let d := upd_persistent (set_active_layers (active_layers settings)) d in
      let d := upd_persistent (set_axis_snap_mode (axis_snap_mode settings)) d in
      let d := upd_persistent (set_axis_snap_threshold (axis_snap_threshold settings)) d in
      let d := upd_persistent (set_axis_snap_timeout_ms (axis_snap_timeout_ms settings)) d in
      let d :=
        upd_persistent (set_xy_to_scroll_enabled (xy_to_scroll_enabled settings)) d in
      let d := upd_persistent (set_xy_swap_enabled (xy_swap_enabled settings)) d in
      let d := upd_persistent (set_x_invert (x_invert settings)) d in
      let d := upd_persistent (set_y_invert (y_invert settings)) d in
      let d := upd_persistent (set_keybind_enabled (keybind_enabled settings)) d in
      let d :=
        upd_persistent (set_keybind_behavior_count (keybind_behavior_count settings)) d in
      let d :=
        upd_persistent (set_keybind_degree_offset (keybind_degree_offset settings)) d in
      let d := upd_persistent (set_keybind_tick (keybind_tick settings)) d in
      let d := upd_current (set_scale_multiplier (scale_multiplier settings)) d in
      let d := upd_current (set_scale_divisor (scale_divisor settings)) d in
      let d := upd_current (set_rotation_degrees (rotation_degrees settings)) d in
      let d := upd_current (set_temp_layer_enabled (temp_layer_enabled settings)) d in
      let d := upd_current (set_temp_layer_layer (temp_layer_layer settings)) d in
      let d :=
        upd_current
          (set_temp_layer_activation_delay_ms (temp_layer_activation_delay_ms settings)) d in
      let d :=
        upd_current
          (set_temp_layer_deactivation_delay_ms (temp_layer_deactivation_delay_ms settings))
          d in
      let d := upd_current (set_active_layers (active_layers settings)) d in
      let d := upd_current (set_axis_snap_mode (axis_snap_mode settings)) d in
      let d := upd_current (set_axis_snap_threshold (axis_snap_threshold settings)) d in
      let d := upd_current (set_axis_snap_timeout_ms (axis_snap_timeout_ms settings)) d in
      let d := upd_current (set_xy_to_scroll_enabled (xy_to_scroll_enabled settings)) d in
      let d := upd_current (set_xy_swap_enabled (xy_swap_enabled settings)) d in
      let d := upd_current (set_x_invert (x_invert settings)) d in
      let d := upd_current (set_y_invert (y_invert settings)) d in
      let d := upd_current (set_keybind_enabled (keybind_enabled settings)) d in
      let d :=
        upd_current (set_keybind_behavior_count (keybind_behavior_count settings)) d in
      let d := upd_current (set_keybind_degree_offset (keybind_degree_offset settings)) d in
      let d := upd_current (set_keybind_tick (keybind_tick settings)) d in
      (0, update_rotation_values M d)
    else (- EINVAL, d)
  else (- EINVAL, d).

(** [runtime_processor_settings_load_cb] over the array
    [runtime_processors]: the status and the array afterwards. *)
Fixpoint runtime_processor_settings_load_cb (runtime_processors : list device)
    (nm : string) (len : Z) (read : Z * processor_settings) : Z * list device :=
  match runtime_processors with
  | [] => (- ENOENT, [])
  | dev :: rest =>
      if String.eqb nm (name (config dev)) then
        let '(r, d) := load_processor_settings_cb len read (data dev) in
        (r, with_data dev d :: rest)
      else
        let '(r, rest') := runtime_processor_settings_load_cb rest nm len read in
        (r, dev :: rest')
  end.

End Settings.

(** ** The registry *)

(** [zmk_input_processor_runtime_foreach].  The callback receives the
    device and the user data and returns its status and the user data as
    it leaves them. *)
Fixpoint zmk_input_processor_runtime_foreach (U : Type)
    (callback : device -> U -> Z * U) (runtime_processors : list device) (user_data : U)
    : Z * U :=
  match runtime_processors with
  | [] => (0, user_data)
  | dev :: rest =>
      let '(r, user_data) := callback dev user_data in
      if negb (r =? 0) then (r, user_data)
      else zmk_input_processor_runtime_foreach callback rest user_data
  end.

(** [zmk_input_processor_runtime_find_by_name]: the index of the device
    found in [runtime_processors], which stands for the pointer to it;
    [None] is the null pointer. *)
Fixpoint find_by_name_from (i : nat) (runtime_processors : list device) (nm : string)
    : option nat :=
  match runtime_processors with
  | [] => None
  | dev :: rest =>
      if String.eqb (name (config dev)) nm then Some i
      else find_by_name_from (S i) rest nm
  end.

Definition zmk_input_processor_runtime_find_by_name (runtime_processors : list device)
    (nm : string) : option nat :=
  find_by_name_from 0 runtime_processors nm.

(** [zmk_input_processor_runtime_find_by_id]; [id] is a [uint8_t]. *)
Definition zmk_input_processor_runtime_find_by_id (runtime_processors : list device)
    (id : Z) : option nat :=
  if id <? Z.of_nat (List.length runtime_processors) then Some (Z.to_nat id) else None.

(** [keycode_state_changed_listener] on a key event that is present:
    [state] tells a press from a release, [now] is the uptime. *)
Definition keycode_state_changed_listener (runtime_processors : list device)
    (state : bool) (now : Z) : Z * list device :=
  if negb state then (ZMK_EV_EVENT_BUBBLE, runtime_processors)
  else
    (ZMK_EV_EVENT_BUBBLE,
     map (fun dev => with_data dev (set_last_keypress_timestamp now (data dev)))
       runtime_processors).

(** ** Reference environment

    Concrete collaborators on which the scenarios are evaluated. *)

Module Ref.

Definition half_pi : float := 0x1.921fb54442d18p+0%float.

(** The C library at the arguments the scenarios reach, with the correctly
    rounded binary64 results; not-a-number elsewhere. *)
Definition one_degree : float := 0x1.1df46a2529d39p-6%float.
Definition two_degrees : float := 0x1.1df46a2529d39p-5%float.

Definition cos (a : float) : float :=
  if PrimFloat.eqb a half_pi then 0x1.1a62633145c07p-54%float
  else if PrimFloat.eqb (PrimFloat.abs a) one_degree then 0x1.ffec097f5af8ap-1%float
  else if PrimFloat.eqb (PrimFloat.abs a) two_degrees then 0x1.ffb0278bf0567p-1%float
  else nan.

Definition sin (a : float) : float :=
  if PrimFloat.eqb a half_pi then 1%float
  else if PrimFloat.eqb a one_degree then 0x1.1df0b2b89dd1ep-6%float
  else if PrimFloat.eqb a (- one_degree) then (-0x1.1df0b2b89dd1ep-6)%float
  else if PrimFloat.eqb a two_degrees then 0x1.1de58c9f7dc27p-5%float
  else if PrimFloat.eqb a (- two_degrees) then (-0x1.1de58c9f7dc27p-5)%float
  else nan.

Definition atan2 (y x : float) : float :=
  if PrimFloat.eqb y 0 && PrimFloat.eqb x 10 then 0%float
  else if PrimFloat.eqb y 10 && PrimFloat.eqb x 0 then half_pi
  else if PrimFloat.eqb y 0 && PrimFloat.eqb x (-10) then M_PI
  else if PrimFloat.eqb y (-10) && PrimFloat.eqb x 0 then (- half_pi)%float
  else if PrimFloat.eqb y 10 && PrimFloat.eqb x 10 then 0x1.921fb54442d18p-1%float
  else if PrimFloat.eqb y 8 && PrimFloat.eqb x 6 then 0x1.dac670561bb4fp-1%float
  else nan.

Definition math : libm :=
  {| libm_cos := cos; libm_sin := sin; libm_atan2 := atan2 |}.

(** A keymap of four layers, identity index-to-id map, only layer 0
    active. *)
Definition layers : keymap :=
  {| ZMK_KEYMAP_LAYERS_LEN := 4;
     zmk_keymap_layer_index_to_id := fun i => i;
     zmk_keymap_layer_active := fun id => id =? 0;
     zmk_keymap_highest_layer_active := 0 |}.

(** Every behaviour name resolves and every invocation succeeds. *)
Definition registry : behavior_registry :=
  {| zmk_behavior_get_binding := fun _ => true;
     invoke_status := fun _ _ => 0 |}.

(** A processor for relative X/Y motion with four keybind behaviours. *)
Definition cfg : runtime_processor_config :=
  {| name := "tpkb";
     type := 2;
     x_codes := [INPUT_REL_X];
     y_codes := [INPUT_REL_Y];
     keybind_behaviors := [Some "UP"; Some "LEFT"; Some "DOWN"; Some "RIGHT"]%string |}.

(** The defaults of the device tree binding: scale 1/1, no rotation,
    temp-layer off (100 ms, 500 ms), all layers, snapping off (threshold
    100, timeout 1000 ms), keybind off (4 behaviours, offset 0, tick 10). *)
Definition defaults : tunables :=
  {| scale_multiplier := 1; scale_divisor := 1; rotation_degrees := 0;
     temp_layer_enabled := false; temp_layer_layer := 0;
     temp_layer_activation_delay_ms := 100; temp_layer_deactivation_delay_ms := 500;
     active_layers := 0;
     axis_snap_mode := 0; axis_snap_threshold := 100; axis_snap_timeout_ms := 1000;
     xy_to_scroll_enabled := false; xy_swap_enabled := false;
     x_invert := false; y_invert := false;
     keybind_enabled := false; keybind_behavior_count := 4;
     keybind_degree_offset := 0; keybind_tick := 10 |}.

(** The data [runtime_processor_init] leaves for these defaults. *)
Definition init_data : runtime_processor_data :=
  {| current := defaults; persistent := defaults;
     cos_val := 1000; sin_val := 0;
     last_x := 0; last_y := 0; has_x := false; has_y := false;
     axis_snap_cross_axis_accum := 0; axis_snap_last_decay_timestamp := 0;
     keybind_x_accum := 0; keybind_y_accum := 0;
     temp_layer_layer_active := false; temp_layer_keep_active := false;
     last_input_timestamp := 0; last_keypress_timestamp := 0 |}.

Definition dev : device := {| config := cfg; data := init_data |}.

(** The same device with the current tunables changed by [f]. *)
Definition dev_with (f : tunables -> tunables) : device :=
  with_data dev (upd_current f init_data).

Definition rel_x (v : Z) : input_event := {| ev_type := 2; code := INPUT_REL_X; value := v |}.
Definition rel_y (v : Z) : input_event := {| ev_type := 2; code := INPUT_REL_Y; value := v |}.

End Ref.

(** ** Vocabulary of the properties *)

(** [r] is the binary64 value [v] or one of its two neighbours. *)
Definition within_ulp (r v : float) : Prop :=
  r = v \/ r = PrimFloat.next_up v \/ r = PrimFloat.next_down v.

Section Dispatch.

Variable M : libm.
Variable K : keymap.
Variable B : behavior_registry.

(** The behaviours at the indices below [n] can be fired: each is
    configured, known to the registry, and accepts a press. *)
Definition behaviors_ready (cfg : runtime_processor_config) (n : Z) : Prop :=
  forall i : Z, 0 <= i < n ->
    exists behavior_name : string,
      nth (Z.to_nat i) (keybind_behaviors cfg) None = Some behavior_name
      /\ zmk_behavior_get_binding B behavior_name = true
      /\ 0 <= invoke_status B behavior_name true.

(** The press and the release of a behaviour, as [trigger_keybind_behavior]
    invokes them: on the highest active layer, at position 0. *)
Definition press_and_release (behavior_name : string) (now : Z) : list effect :=
  [zmk_behavior_invoke_binding behavior_name (zmk_keymap_highest_layer_active K) 0 now true;
   zmk_behavior_invoke_binding behavior_name (zmk_keymap_highest_layer_active K) 0 now false].

(** "The dispatcher fires behaviour index [idx]": the event is consumed, the
    behaviour configured at that index is pressed and then released, no
    other call is made, and both accumulators are back at zero. *)
Definition keybind_fires (dev : device) (is_x : bool) (val now idx : Z) : Prop :=
  let r := process_keybind M K B dev is_x val now in
  exists behavior_name : string,
    0 <= idx
    /\ nth (Z.to_nat idx) (keybind_behaviors (config dev)) None = Some behavior_name
    /\ fst (fst r) = true
    /\ snd r = press_and_release behavior_name now
    /\ keybind_x_accum (snd (fst r)) = 0
    /\ keybind_y_accum (snd (fst r)) = 0.

End Dispatch.

(** The two values the rotation block emits for a matched pair. *)
Definition rotate_pair (c s x y : Z) : Z * Z :=
  (int16_t (rotated_x x y c s), int16_t (rotated_y x y c s)).

(** Rotation with the precomputed pair [(c, s)] followed by rotation with
    the pair of the opposite angle, [(c, - s)]. *)
Definition round_trip (c s x y : Z) : Z * Z :=
  let '(x1, y1) := rotate_pair c s x y in rotate_pair c (- s) x1 y1.

(** The settings of the snap scenario: snapping to X with threshold 100
    and timeout 1000 ms, and no other stage altering a Y value. *)
Definition snap_x_settings (t : tunables) : Prop :=
  axis_snap_mode t = ZMK_INPUT_PROCESSOR_AXIS_SNAP_MODE_X
  /\ axis_snap_threshold t = 100
  /\ axis_snap_timeout_ms t = 1000
  /\ keybind_enabled t = false
  /\ xy_to_scroll_enabled t = false
  /\ xy_swap_enabled t = false
  /\ temp_layer_enabled t = false
  /\ rotation_degrees t = 0
  /\ y_invert t = false
  /\ scale_multiplier t = 1
  /\ scale_divisor t = 1.

(** Uptimes at which no decay applies: each event comes less than one
    decay period (50 ms) after the accumulator was last touched at [last],
    or the accumulator has not been touched yet ([last = 0]). *)
Fixpoint rapid (last : Z) (ts : list Z) : Prop :=
  match ts with
  | [] => True
  | t :: ts' => 0 <= t < 2 ^ 62 /\ (last = 0 \/ t - last < 50) /\ rapid t ts'
  end.

(** The values emitted for [n] events (Y,10) from accumulator [a]. *)
Fixpoint snap_values (a : Z) (n : nat) : list Z :=
  match n with
  | O => []
  | S n' => (if a + 10 <? 100 then 0 else 10) :: snap_values (Z.min (a + 10) 200) n'
  end.

(** What a call of the handler has no business changing: both copies of
    the tunables, the precomputed rotation values, the temp-layer flags and
    the time of the last key press. *)
Definition same_settings (d d' : runtime_processor_data) : Prop :=
  current d' = current d
  /\ persistent d' = persistent d
  /\ cos_val d' = cos_val d
  /\ sin_val d' = sin_val d
  /\ temp_layer_layer_active d' = temp_layer_layer_active d
  /\ temp_layer_keep_active d' = temp_layer_keep_active d
  /\ last_keypress_timestamp d' = last_keypress_timestamp d.

(** The behaviour count [process_keybind] works with: the configured
    count clamped to the number of behaviours and to
    [MAX_KEYBIND_BEHAVIORS]. *)
Definition effective_behavior_count (dev : device) : Z :=
  Z.min (keybind_behavior_count (current (data dev)))
    (Z.min (keybind_behaviors_len (config dev)) MAX_KEYBIND_BEHAVIORS).

(** The scaling block applied to a stream of events, the remainder
    carried from one event to the next. *)
Fixpoint scale_stream (d : runtime_processor_data) (remainder : option Z)
    (events : list input_event) : list input_event * option Z :=
  match events with
  | [] => ([], remainder)
  | e :: rest =>
      let '(e', remainder) := apply_scaling d e remainder in
      let '(out, remainder) := scale_stream d remainder rest in
      (e' :: out, remainder)
  end.

(** The sum of the values of a list of events. *)
Definition total_value (events : list input_event) : Z :=
  fold_right (fun e acc => value e + acc) 0 events.

(** The data with both copies of the tunables equal to [t] and all the
    motion state cleared. *)
Definition cleared (t : tunables) : runtime_processor_data :=
  {| current := t; persistent := t; cos_val := 0; sin_val := 0;
     last_x := 0; last_y := 0; has_x := false; has_y := false;
     axis_snap_cross_axis_accum := 0; axis_snap_last_decay_timestamp := 0;
     keybind_x_accum := 0; keybind_y_accum := 0;
     temp_layer_layer_active := false; temp_layer_keep_active := false;
     last_input_timestamp := 0; last_keypress_timestamp := 0 |}.

(** The tunables [into] with the axis snap settings and the two code
    mapping flags of [from]. *)
Definition keep_snap_and_mapping (from into : tunables) : tunables :=
  set_axis_snap_mode (axis_snap_mode from)
    (set_axis_snap_threshold (axis_snap_threshold from)
       (set_axis_snap_timeout_ms (axis_snap_timeout_ms from)
          (set_xy_to_scroll_enabled (xy_to_scroll_enabled from)
             (set_xy_swap_enabled (xy_swap_enabled from) into)))).

(** The cached cosine and sine are the ones [update_rotation_values]
    computes for the current angle. *)
Definition rotation_in_sync (M : libm) (d : runtime_processor_data) : Prop :=
  cos_val (update_rotation_values M d) = cos_val d
  /\ sin_val (update_rotation_values M d) = sin_val d.

(** [scale_val] divides by [(int16_t)div] once [mul] and [div] have
    passed its test against zero.  A divisor that is a multiple of 65536
    passes the test and narrows to 0: the source then divides by zero,
    where the definition above has the quotient 0. *)
Definition scale_val_divides_by_zero (mul div : Z) : bool :=
  negb ((mul =? 0) || (div =? 0)) && (int16_t div =? 0).

(** Settings under which no division of the handler is a division by
    zero: the snap timeout is off or at least one decay period of 50 ms,
    so that [axis_snap_timeout_ms / 50] is not 0, and the scaling is off or
    its divisor does not narrow to 0. *)
Definition divisions_defined (t : tunables) : Prop :=
  (axis_snap_timeout_ms t <= 0 \/ 50 <= axis_snap_timeout_ms t)
  /\ (scale_multiplier t <= 0 \/ scale_divisor t <= 0 \/ int16_t (scale_divisor t) <> 0).

(** No behaviour is invoked in a trace.  The code a behaviour runs when
    it is invoked is outside this file's model. *)
Definition invokes_no_behavior (tr : list effect) : Prop :=
  forall (behavior_dev : string) (layer position timestamp : Z) (pressed : bool),
    ~ In (zmk_behavior_invoke_binding behavior_dev layer position timestamp pressed) tr.


Section TempLayerRun.

Variable M : libm.
Variable K : keymap.
Variable B : behavior_registry.



End TempLayerRun.

(** * Properties *)

(** ** Integer conversions *)

Lemma int16_t_small z : in_int16 z -> int16_t z = z.
Proof.
unfold in_int16, int16_t, cast_signed; intros H.
change (2 ^ (16 - 1)) with 32768; change (2 ^ 16) with 65536.
rewrite Z.mod_small; lia.
Qed.

Lemma int32_t_small z : in_int32 z -> int32_t z = z.
Proof.
unfold in_int32, int32_t, cast_signed; intros H.
change (2 ^ (32 - 1)) with 2147483648; change (2 ^ 32) with 4294967296.
rewrite Z.mod_small; lia.
Qed.

Lemma int16_t_range z : in_int16 (int16_t z).
Proof.
unfold in_int16, int16_t, cast_signed.
change (2 ^ (16 - 1)) with 32768; change (2 ^ 16) with 65536.
pose proof (Z.mod_pos_bound (z + 32768) 65536); lia.
Qed.

Lemma uint16_t_small z : 0 <= z < 65536 -> uint16_t z = z.
Proof. intros H; unfold uint16_t, cast_unsigned; apply Z.mod_small; exact H. Qed.


Lemma int64_t_small z :
  -9223372036854775808 <= z <= 9223372036854775807 -> int64_t z = z.
Proof.
  unfold int64_t, cast_signed; intros H.
  change (2 ^ (64 - 1)) with 9223372036854775808.
  change (2 ^ 64) with 18446744073709551616.
  rewrite Z.mod_small; lia.
Qed.

(** ** Keybind consumption *)

Section KeybindConsumption.

Variable M : libm.
Variable K : keymap.
Variable B : behavior_registry.

(** Once the three enabling conditions hold, both exits of
    [process_keybind] report the event as consumed. *)
Lemma process_keybind_enabled_consumes (dev : device) (is_x : bool) (val now : Z) :
  keybind_enabled (current (data dev)) = true ->
  0 < keybind_behavior_count (current (data dev)) ->
  keybind_behaviors (config dev) <> [] ->
  fst (fst (process_keybind M K B dev is_x val now)) = true.
Proof.
  intros Hen Hcount Hlist.
  unfold process_keybind.
  rewrite Hen.
  replace (keybind_behavior_count (current (data dev)) =? 0) with false
    by (symmetry; apply Z.eqb_neq; lia).
  replace (keybind_behaviors_len (config dev) =? 0) with false.
  - cbn [negb orb].
    match goal with |- context [if ?c <? ?t then _ else _] =>
      destruct (c <? t) end; reflexivity.
  - symmetry; apply Z.eqb_neq. unfold keybind_behaviors_len.
    destruct (keybind_behaviors (config dev)); [congruence | cbn [List.length]; lia].
Qed.

(** Claim C1.  An event of the configured type whose code is one of the X
    or Y codes, arriving while the layer gate is open, is consumed whenever
    keybind is enabled (flag set, behaviour count above zero, behaviour list
    not empty): the handler returns [ZMK_INPUT_PROC_STOP], and the event and
    the caller's remainder are left as they came in.  The statement covers
    the exit below the tick threshold and the exit after a direction has
    fired alike. *)
Theorem keybind_enabled_stops_event
    (dev : device) (event : input_event) (remainder : option Z) (now : Z) :
  ev_type event = type (config dev) ->
  (0 <= code_idx (code event) (x_codes (config dev))
   \/ 0 <= code_idx (code event) (y_codes (config dev))) ->
  is_processor_active_for_current_layers K (active_layers (current (data dev))) = true ->
  keybind_enabled (current (data dev)) = true ->
  0 < keybind_behavior_count (current (data dev)) ->
  keybind_behaviors (config dev) <> [] ->
  let h := runtime_processor_handle_event M K B dev event remainder now in
  status h = ZMK_INPUT_PROC_STOP
  /\ event_out h = event
  /\ remainder_out h = remainder.
Proof.
  intros Htype Hcode Hlayer Hen Hcount Hlist.
  pose proof (process_keybind_enabled_consumes dev
                (0 <=? code_idx (code event) (x_codes (config dev)))
                (int16_t (value event)) now Hen Hcount Hlist) as Hpk.
  unfold runtime_processor_handle_event.
  rewrite Htype, Z.eqb_refl, Hlayer. cbn [negb].
  replace ((code_idx (code event) (x_codes (config dev)) <? 0)
           && (code_idx (code event) (y_codes (config dev)) <? 0)) with false.
  - destruct (process_keybind M K B dev _ _ now) as [[consumed d] tr].
    cbn [fst] in Hpk. subst consumed. cbn. repeat split.
  - symmetry. apply andb_false_iff.
    destruct Hcode as [Hx | Hy]; [left | right]; apply Z.ltb_ge; assumption.
Qed.

End KeybindConsumption.

(** Claim C1 on the reference device with keybind switched on, below the
    threshold ((X,3): 9 < 100). *)
Lemma keybind_enabled_stops_event_witness :
  let dev := Ref.dev_with (set_keybind_enabled true) in
  let h := runtime_processor_handle_event Ref.math Ref.layers Ref.registry
             dev (Ref.rel_x 3) None 1000 in
  status h = ZMK_INPUT_PROC_STOP /\ event_out h = Ref.rel_x 3 /\ remainder_out h = None.
Proof.
  apply (@keybind_enabled_stops_event Ref.math Ref.layers Ref.registry
           (Ref.dev_with (set_keybind_enabled true)) (Ref.rel_x 3) None 1000).
  - reflexivity.
  - left. vm_compute. discriminate.
  - reflexivity.
  - reflexivity.
  - vm_compute. reflexivity.
  - vm_compute. discriminate.
Defined.

(** ** Keybind direction *)

Ltac by_ulp H :=
  unfold keybind_behavior_idx;
  destruct H as [H | [H | H]]; rewrite H; vm_compute; reflexivity.

Section KeybindDirection.

Variable M : libm.
Variable K : keymap.
Variable B : behavior_registry.

(** The firing exit of [process_keybind]: with keybind enabled and the
    squared movement at or above the squared tick, the behaviour at the
    chosen index is triggered and both accumulators return to zero. *)
Lemma process_keybind_fires (dev : device) (is_x : bool) (val now : Z) (x y : Z) :
  keybind_enabled (current (data dev)) = true ->
  keybind_behavior_count (current (data dev)) = 4 ->
  4 <= keybind_behaviors_len (config dev) ->
  (if is_x then int32_t (keybind_x_accum (data dev) + val)
   else keybind_x_accum (data dev)) = x ->
  (if is_x then keybind_y_accum (data dev)
   else int32_t (keybind_y_accum (data dev) + val)) = y ->
  -32767 <= x <= 32767 -> -32767 <= y <= 32767 ->
  keybind_tick (current (data dev)) * keybind_tick (current (data dev)) <= x * x + y * y ->
  0 <= keybind_tick (current (data dev)) <= 32767 ->
  let r := process_keybind M K B dev is_x val now in
  fst (fst r) = true
  /\ keybind_x_accum (snd (fst r)) = 0
  /\ keybind_y_accum (snd (fst r)) = 0
  /\ snd r = snd (trigger_keybind_behavior K B (config dev)
                    (keybind_behavior_idx M x y
                       (keybind_degree_offset (current (data dev))) 4) now).
Proof.
  intros Hen Hcount Hlen Hx Hy Rx Ry Hsq Htick.
  unfold process_keybind.
  rewrite Hen, Hcount.
  replace (keybind_behaviors_len (config dev) =? 0) with false
    by (symmetry; apply Z.eqb_neq; lia).
  replace (keybind_behaviors_len (config dev) <? 4) with false
    by (symmetry; apply Z.ltb_ge; lia).
  change (MAX_KEYBIND_BEHAVIORS <? 4) with false.
  cbn [negb orb Z.eqb].
  match goal with |- context [if is_x then ?a else ?b] =>
    set (d' := if is_x then a else b) end.
  assert (Ex : keybind_x_accum d' = x) by (subst d'; destruct is_x; assumption).
  assert (Ey : keybind_y_accum d' = y) by (subst d'; destruct is_x; assumption).
  assert (Ec : current d' = current (data dev)) by (subst d'; destruct is_x; reflexivity).
  clearbody d'.
  rewrite Ex, Ey, Ec.
  rewrite (int32_t_small (z := x * x)) by (unfold in_int32; nia).
  rewrite (int32_t_small (z := y * y)) by (unfold in_int32; nia).
  rewrite (int32_t_small (z := x * x + y * y)) by (unfold in_int32; nia).
  rewrite int32_t_small by (unfold in_int32; nia).
  replace (x * x + y * y <? _) with false by (symmetry; apply Z.ltb_ge; lia).
  cbn. auto.
Qed.

(** A behaviour that is ready is pressed and then released. *)
Lemma trigger_keybind_behavior_ready (cfg : runtime_processor_config) (n idx now : Z) :
  behaviors_ready B cfg n ->
  0 <= idx < n ->
  exists behavior_name : string,
    nth (Z.to_nat idx) (keybind_behaviors cfg) None = Some behavior_name
    /\ zmk_behavior_get_binding B behavior_name = true
    /\ trigger_keybind_behavior K B cfg idx now = (0, press_and_release K behavior_name now).
Proof.
  intros Hready Hidx. destruct (Hready idx Hidx) as (nm & Hnth & Hbound & Hok).
  exists nm. split; [exact Hnth |]. split; [exact Hbound |].
  unfold trigger_keybind_behavior, keybind_behaviors_len.
  assert (Hlen : (Z.to_nat idx < List.length (keybind_behaviors cfg))%nat).
  { destruct (Nat.lt_ge_cases (Z.to_nat idx) (List.length (keybind_behaviors cfg)))
      as [H | H]; [exact H |].
    rewrite (nth_overflow _ _ H) in Hnth. discriminate. }
  destruct (Z.leb_spec (Z.of_nat (List.length (keybind_behaviors cfg))) idx); [lia |].
  rewrite Hnth, Hbound. cbn [negb].
  destruct (Z.ltb_spec (invoke_status B nm true) 0); [lia | reflexivity].
Qed.

Lemma keybind_fires_at (dev : device) (is_x : bool) (val now x y idx : Z) :
  keybind_enabled (current (data dev)) = true ->
  keybind_behavior_count (current (data dev)) = 4 ->
  keybind_tick (current (data dev)) = 10 ->
  4 <= keybind_behaviors_len (config dev) ->
  behaviors_ready B (config dev) 4 ->
  (if is_x then int32_t (keybind_x_accum (data dev) + val)
   else keybind_x_accum (data dev)) = x ->
  (if is_x then keybind_y_accum (data dev)
   else int32_t (keybind_y_accum (data dev) + val)) = y ->
  -32767 <= x <= 32767 -> -32767 <= y <= 32767 ->
  100 <= x * x + y * y ->
  keybind_behavior_idx M x y (keybind_degree_offset (current (data dev))) 4 = idx ->
  0 <= idx < 4 ->
  keybind_fires M K B dev is_x val now idx.
Proof.
  intros Hen Hcount Htick Hlen Hready Hx Hy Rx Ry Hsq Hidx Hrange.
  destruct (@process_keybind_fires dev is_x val now x y Hen Hcount Hlen Hx Hy Rx Ry)
    as (H1 & H2 & H3 & H4); [rewrite Htick; lia | rewrite Htick; lia |].
  destruct (@trigger_keybind_behavior_ready (config dev) 4 idx now Hready Hrange)
    as (nm & Hnth & _ & Htrig).
  unfold keybind_fires. exists nm. rewrite Hidx in H4. rewrite Htrig in H4.
  refine (conj _ (conj Hnth (conj H1 (conj H4 (conj H2 H3))))). lia.
Qed.

(** Claim C6.  Four behaviours, offset 0, tick 10, accumulators at rest,
    each of the four behaviours configured, known to the registry and
    accepting a press.  A movement that brings the accumulators to (10,0)
    presses and releases the behaviour at index 0, to (0,10) the one at
    index 1, to (-10,0) the one at index 2 and to (0,-10) the one at index
    3.  The events (X,6) then (Y,8): the first stays below the threshold
    (36 < 100) and is consumed without a call, the second reaches
    36 + 64 = 100 and presses and releases the behaviour at index 1.
    [atan2] is taken within one unit in the last place of the correctly
    rounded angle at each of the five points. *)
Theorem keybind_four_way_directions (dev : device) (now now' : Z) :
  within_ulp (libm_atan2 M (of_int 0) (of_int 10)) 0 ->
  within_ulp (libm_atan2 M (of_int 10) (of_int 0)) Ref.half_pi ->
  within_ulp (libm_atan2 M (of_int 0) (of_int (-10))) M_PI ->
  within_ulp (libm_atan2 M (of_int (-10)) (of_int 0)) (- Ref.half_pi) ->
  within_ulp (libm_atan2 M (of_int 8) (of_int 6)) 0x1.dac670561bb4fp-1 ->
  keybind_enabled (current (data dev)) = true ->
  keybind_behavior_count (current (data dev)) = 4 ->
  keybind_degree_offset (current (data dev)) = 0 ->
  keybind_tick (current (data dev)) = 10 ->
  4 <= keybind_behaviors_len (config dev) ->
  behaviors_ready B (config dev) 4 ->
  keybind_x_accum (data dev) = 0 ->
  keybind_y_accum (data dev) = 0 ->
  keybind_fires M K B dev true 10 now 0
  /\ keybind_fires M K B dev false 10 now 1
  /\ keybind_fires M K B dev true (-10) now 2
  /\ keybind_fires M K B dev false (-10) now 3
  /\ (let r := process_keybind M K B dev true 6 now in
      r = (true, set_keybind_x_accum 6 (data dev), [])
      /\ keybind_fires M K B (with_data dev (snd (fst r))) false 8 now' 1).
Proof.
  intros A0 A90 A180 A270 A53 Hen Hcount Hoff Htick Hlen Hready Hx Hy.
  assert (I0 : keybind_behavior_idx M 10 0 0 4 = 0) by by_ulp A0.
  assert (I1 : keybind_behavior_idx M 0 10 0 4 = 1) by by_ulp A90.
  assert (I2 : keybind_behavior_idx M (-10) 0 0 4 = 2) by by_ulp A180.
  assert (I3 : keybind_behavior_idx M 0 (-10) 0 4 = 3) by by_ulp A270.
  assert (I4 : keybind_behavior_idx M 6 8 0 4 = 1) by by_ulp A53.
  assert (E : process_keybind M K B dev true 6 now
              = (true, set_keybind_x_accum 6 (data dev), [])).
  { unfold process_keybind. rewrite Hen, Hcount.
    replace (keybind_behaviors_len (config dev) =? 0) with false
      by (symmetry; apply Z.eqb_neq; lia).
    cbn -[int32_t Z.mul Z.add Z.ltb]. rewrite Hx, Hy, Htick. reflexivity. }
  cbv zeta. rewrite E. cbn [fst snd].
  refine (conj _ (conj _ (conj _ (conj _ (conj eq_refl _))))).
  - apply (@keybind_fires_at dev true 10 now 10 0 0); try assumption; try lia;
      try (rewrite ?Hx, ?Hy; vm_compute; try reflexivity; intuition discriminate).
    rewrite Hoff; exact I0.
  - apply (@keybind_fires_at dev false 10 now 0 10 1); try assumption; try lia;
      try (rewrite ?Hx, ?Hy; vm_compute; try reflexivity; intuition discriminate).
    rewrite Hoff; exact I1.
  - apply (@keybind_fires_at dev true (-10) now (-10) 0 2); try assumption; try lia;
      try (rewrite ?Hx, ?Hy; vm_compute; try reflexivity; intuition discriminate).
    rewrite Hoff; exact I2.
  - apply (@keybind_fires_at dev false (-10) now 0 (-10) 3); try assumption; try lia;
      try (rewrite ?Hx, ?Hy; vm_compute; try reflexivity; intuition discriminate).
    rewrite Hoff; exact I3.
  - apply (@keybind_fires_at _ false 8 now' 6 8 1); cbn; try assumption; try lia;
      try (rewrite ?Hx, ?Hy; vm_compute; try reflexivity; intuition discriminate).
    rewrite Hoff; exact I4.
Qed.

(** Claim C4, which the code breaks.  Four behaviours, offset 45, tick 10,
    the four behaviours ready: when the event (Y,10) brings the
    accumulators from (10,0) to (10,10) the angle is 45 degrees, the offset
    is added, 45 + 45 = 90, and (90 + 45) / 90 = 1.5 selects index 1, not
    index 0: the behaviour at index 1 is pressed and released.  Index 0,
    which the claim and the documented layout for offset 45 give to this
    diagonal, is what the code selects for the offset 315, the same
    rotation taken the other way round.  [atan2] is taken within one unit
    in the last place of the correctly rounded angle. *)
Theorem keybind_offset_45_diagonal (dev : device) (now : Z) :
  within_ulp (libm_atan2 M (of_int 10) (of_int 10)) 0x1.921fb54442d18p-1 ->
  keybind_enabled (current (data dev)) = true ->
  keybind_behavior_count (current (data dev)) = 4 ->
  keybind_degree_offset (current (data dev)) = 45 ->
  keybind_tick (current (data dev)) = 10 ->
  4 <= keybind_behaviors_len (config dev) ->
  behaviors_ready B (config dev) 4 ->
  keybind_x_accum (data dev) = 10 ->
  keybind_y_accum (data dev) = 0 ->
  keybind_behavior_idx M 10 10 45 4 = 1
  /\ keybind_behavior_idx M 10 10 45 4 <> 0
  /\ keybind_fires M K B dev false 10 now 1
  /\ keybind_behavior_idx M 10 10 315 4 = 0.
Proof.
  intros A45 Hen Hcount Hoff Htick Hlen Hready Hx Hy.
  assert (I : keybind_behavior_idx M 10 10 45 4 = 1) by (pose proof A45 as A; by_ulp A).
  assert (J : keybind_behavior_idx M 10 10 315 4 = 0) by (pose proof A45 as A; by_ulp A).
  refine (conj I (conj _ (conj _ J))); [rewrite I; discriminate |].
  apply (@keybind_fires_at dev false 10 now 10 10 1); try assumption; try lia;
    try (rewrite ?Hx, ?Hy; vm_compute; try reflexivity; intuition discriminate).
  rewrite Hoff; exact I.
Qed.

End KeybindDirection.

(** The four behaviours of the reference device are ready. *)
Ltac reference_ready :=
  let i := fresh "i" in
  let Hi := fresh "Hi" in
  intros i Hi;
  assert (i = 0 \/ i = 1 \/ i = 2 \/ i = 3) as [-> | [-> | [-> | ->]]] by lia;
  eexists; (split; [reflexivity | split; [reflexivity | discriminate]]).

(** Claim C6 on the reference device with keybind switched on: all four
    cardinal movements and the (X,6),(Y,8) stream. *)
Lemma keybind_four_way_directions_witness :
  let dev := Ref.dev_with (set_keybind_enabled true) in
  keybind_fires Ref.math Ref.layers Ref.registry dev true 10 1000 0
  /\ keybind_fires Ref.math Ref.layers Ref.registry dev false 10 1000 1
  /\ keybind_fires Ref.math Ref.layers Ref.registry dev true (-10) 1000 2
  /\ keybind_fires Ref.math Ref.layers Ref.registry dev false (-10) 1000 3
  /\ (let r := process_keybind Ref.math Ref.layers Ref.registry dev true 6 1000 in
      r = (true, set_keybind_x_accum 6 (data dev), [])
      /\ keybind_fires Ref.math Ref.layers Ref.registry
           (with_data dev (snd (fst r))) false 8 1001 1).
Proof.
  apply (@keybind_four_way_directions Ref.math Ref.layers Ref.registry
           (Ref.dev_with (set_keybind_enabled true)) 1000 1001);
    try (left; vm_compute; reflexivity);
    try (vm_compute; reflexivity);
    try reference_ready;
    vm_compute; discriminate.
Defined.

(** Claim C4 on the reference device with keybind on, offset 45 and the X
    accumulator at 10: the event (Y,10) fires index 1. *)
Lemma keybind_offset_45_diagonal_witness :
  let dev :=
    with_data Ref.dev
      (set_keybind_x_accum 10
         (upd_current
            (fun t => set_keybind_degree_offset 45 (set_keybind_enabled true t))
            Ref.init_data)) in
  keybind_behavior_idx Ref.math 10 10 45 4 = 1
  /\ keybind_behavior_idx Ref.math 10 10 45 4 <> 0
  /\ keybind_fires Ref.math Ref.layers Ref.registry dev false 10 1000 1
  /\ keybind_behavior_idx Ref.math 10 10 315 4 = 0.
Proof.
  apply (@keybind_offset_45_diagonal Ref.math Ref.layers Ref.registry
           (with_data Ref.dev
              (set_keybind_x_accum 10
                 (upd_current
                    (fun t => set_keybind_degree_offset 45 (set_keybind_enabled true t))
                    Ref.init_data))) 1000);
    try (left; vm_compute; reflexivity);
    try (vm_compute; reflexivity);
    try reference_ready;
    vm_compute; discriminate.
Defined.

(** The same on the whole handler.  The reference device has the
    behaviours UP, LEFT, DOWN, RIGHT of the documented four-way example;
    with offset 45 and the accumulators at (10,0), the event (Y,10) brings
    them to (10,10), and it is "LEFT", the behaviour at index 1, that is
    pressed and released, where the documentation of the example has the
    first behaviour for this diagonal. *)
Example keybind_offset_45_presses_left :
  let dev :=
    with_data Ref.dev
      (set_keybind_x_accum 10
         (upd_current
            (fun t => set_keybind_degree_offset 45 (set_keybind_enabled true t))
            Ref.init_data)) in
  let h := runtime_processor_handle_event Ref.math Ref.layers Ref.registry
             dev (Ref.rel_y 10) None 1000 in
  (keybind_x_accum (data dev), keybind_y_accum (data dev)) = (10, 0)
  /\ status h = ZMK_INPUT_PROC_STOP
  /\ trace h = [zmk_behavior_invoke_binding "LEFT" 0 0 1000 true;
                zmk_behavior_invoke_binding "LEFT" 0 0 1000 false].
Proof. repeat split. Qed.

(** The calls the second firing makes on the reference device: "LEFT",
    the behaviour at index 1, is pressed and released at once. *)
Example keybind_six_eight_calls :
  let dev := Ref.dev_with (set_keybind_enabled true) in
  map (fun h => (status h, trace h))
      (run_events Ref.math Ref.layers Ref.registry dev None
         [(1000, Ref.rel_x 6); (1001, Ref.rel_y 8)])
  = [(ZMK_INPUT_PROC_STOP, []);
     (ZMK_INPUT_PROC_STOP,
      [zmk_behavior_invoke_binding "LEFT" 0 0 1001 true;
       zmk_behavior_invoke_binding "LEFT" 0 0 1001 false])].
Proof. vm_compute. reflexivity. Qed.

(** ** Rotation *)

(** With 16-bit coordinates and a cosine and sine of magnitude at most
    1000, the 32-bit arithmetic of the rotation does not wrap. *)
Lemma rotated_x_exact (lx ly c s : Z) :
  in_int16 lx -> in_int16 ly -> -1000 <= c <= 1000 -> -1000 <= s <= 1000 ->
  rotated_x lx ly c s = Z.quot (lx * c - ly * s) 1000.
Proof.
  unfold in_int16, rotated_x; intros Hx Hy Hc Hs.
  rewrite (int32_t_small (z := lx * c)) by (unfold in_int32; nia).
  rewrite (int32_t_small (z := ly * s)) by (unfold in_int32; nia).
  rewrite (int32_t_small (z := lx * c - ly * s)) by (unfold in_int32; nia).
  apply int32_t_small. unfold in_int32.
  pose proof (Z.quot_le_mono (lx * c - ly * s) 65536000 1000).
  pose proof (Z.quot_le_mono (- 65536000) (lx * c - ly * s) 1000).
  change (65536000 ÷ 1000) with 65536 in *.
  change (- 65536000 ÷ 1000) with (- 65536) in *.
  assert (-65536000 <= lx * c - ly * s <= 65536000) by nia.
  lia.
Qed.

Lemma rotated_y_exact (lx ly c s : Z) :
  in_int16 lx -> in_int16 ly -> -1000 <= c <= 1000 -> -1000 <= s <= 1000 ->
  rotated_y lx ly c s = Z.quot (lx * s + ly * c) 1000.
Proof.
  unfold in_int16, rotated_y; intros Hx Hy Hc Hs.
  rewrite (int32_t_small (z := lx * s)) by (unfold in_int32; nia).
  rewrite (int32_t_small (z := ly * c)) by (unfold in_int32; nia).
  rewrite (int32_t_small (z := lx * s + ly * c)) by (unfold in_int32; nia).
  apply int32_t_small. unfold in_int32.
  pose proof (Z.quot_le_mono (lx * s + ly * c) 65536000 1000).
  pose proof (Z.quot_le_mono (- 65536000) (lx * s + ly * c) 1000).
  change (65536000 ÷ 1000) with 65536 in *.
  change (- 65536000 ÷ 1000) with (- 65536) in *.
  assert (-65536000 <= lx * s + ly * c <= 65536000) by nia.
  lia.
Qed.

(** [update_rotation_values] at 90 degrees: the cosine of the double
    nearest to pi/2 is about 6e-17 and truncates to 0, the sine is 1. *)
Lemma update_rotation_values_quarter_turn (M : libm) (d : runtime_processor_data) :
  rotation_degrees (current d) = 90 ->
  within_ulp (libm_cos M (of_int 90 * M_PI / 180)) 0x1.1a62633145c07p-54 ->
  libm_sin M (of_int 90 * M_PI / 180) = 1%float ->
  update_rotation_values M d = set_sin_val 1000 (set_cos_val 0 d).
Proof.
  intros Hrot Hcos Hsin. unfold update_rotation_values.
  rewrite Hrot. change (90 =? 0) with false. cbv iota.
  rewrite Hsin.
  replace (int32_t (to_int (1 * 1000)%float)) with 1000 by (vm_compute; reflexivity).
  destruct Hcos as [H | [H | H]]; rewrite H;
    match goal with |- context [int32_t (to_int ?f)] =>
      replace (int32_t (to_int f)) with 0 by (vm_compute; reflexivity) end;
    reflexivity.
Qed.

(** ** The motion path of the handler *)

(** Reads of a field after an assignment, by computation. *)
Ltac fields :=
  cbn [current persistent cos_val sin_val last_x last_y has_x has_y
       axis_snap_cross_axis_accum axis_snap_last_decay_timestamp
       keybind_x_accum keybind_y_accum temp_layer_layer_active temp_layer_keep_active
       last_input_timestamp last_keypress_timestamp
       set_current set_persistent set_cos_val set_sin_val set_last_x set_last_y
       set_has_x set_has_y set_axis_snap_cross_axis_accum
       set_axis_snap_last_decay_timestamp set_keybind_x_accum set_keybind_y_accum
       set_temp_layer_layer_active set_temp_layer_keep_active
       set_last_input_timestamp set_last_keypress_timestamp
       upd_current upd_persistent
       scale_multiplier scale_divisor rotation_degrees temp_layer_enabled
       temp_layer_layer temp_layer_activation_delay_ms temp_layer_deactivation_delay_ms
       active_layers axis_snap_mode axis_snap_threshold axis_snap_timeout_ms
       xy_to_scroll_enabled xy_swap_enabled x_invert y_invert keybind_enabled
       keybind_behavior_count keybind_degree_offset keybind_tick
       set_scale_multiplier set_scale_divisor set_rotation_degrees
       set_temp_layer_enabled set_temp_layer_layer set_temp_layer_activation_delay_ms
       set_temp_layer_deactivation_delay_ms set_active_layers set_axis_snap_mode
       set_axis_snap_threshold set_axis_snap_timeout_ms set_xy_to_scroll_enabled
       set_xy_swap_enabled set_x_invert set_y_invert set_keybind_enabled
       set_keybind_behavior_count set_keybind_degree_offset set_keybind_tick
       config data with_data ev_type code value set_code set_value
       status data_out event_out remainder_out trace fst snd] in *.

Section MotionPath.

Variable M : libm.
Variable K : keymap.
Variable B : behavior_registry.

Lemma process_keybind_disabled (dev : device) (is_x : bool) (val now : Z) :
  keybind_enabled (current (data dev)) = false ->
  process_keybind M K B dev is_x val now = (false, data dev, []).
Proof. intros H. unfold process_keybind. rewrite H. reflexivity. Qed.

Lemma code_mapping_off (d : runtime_processor_data) (is_x : bool) (e : input_event) :
  xy_to_scroll_enabled (current d) = false ->
  xy_swap_enabled (current d) = false ->
  code_mapping d is_x e = e.
Proof. intros H1 H2. unfold code_mapping. rewrite H1, H2. reflexivity. Qed.

Lemma temp_layer_activation_off (d : runtime_processor_data) (e : input_event) (now : Z) :
  temp_layer_enabled (current d) = false ->
  temp_layer_activation d e now = (d, []).
Proof. intros H. unfold temp_layer_activation. rewrite H. reflexivity. Qed.

Lemma temp_layer_deactivation_off (d : runtime_processor_data) :
  temp_layer_enabled (current d) = false ->
  temp_layer_deactivation d = [].
Proof. intros H. unfold temp_layer_deactivation. rewrite H. reflexivity. Qed.

Lemma apply_invert_off (d : runtime_processor_data) (is_x : bool) (e : input_event) :
  x_invert (current d) = false ->
  y_invert (current d) = false ->
  apply_invert d is_x e = e.
Proof.
  intros H1 H2. unfold apply_invert. rewrite H1, H2.
  destruct is_x; reflexivity.
Qed.

Lemma apply_axis_snap_off (d : runtime_processor_data) (is_x : bool) (val : Z)
    (e : input_event) (now : Z) :
  axis_snap_mode (current d) = ZMK_INPUT_PROCESSOR_AXIS_SNAP_MODE_NONE ->
  apply_axis_snap d is_x val e now = (d, e).
Proof. intros H. unfold apply_axis_snap. rewrite H. reflexivity. Qed.

(** Scaling by 1/1 without a remainder returns a 16-bit value as it is. *)
Lemma apply_scaling_unit (d : runtime_processor_data) (e : input_event) :
  scale_multiplier (current d) = 1 ->
  scale_divisor (current d) = 1 ->
  in_int16 (value e) ->
  apply_scaling d e None = (e, None).
Proof.
  intros H1 H2 Hv. unfold apply_scaling, scale_val. rewrite H1, H2.
  cbn [Z.ltb Z.compare andb Z.eqb orb].
  change (int16_t 1) with 1. rewrite Z.mul_1_r, Z.quot_1_r.
  rewrite (int32_t_small (z := value e)) by (unfold in_int16, in_int32 in *; lia).
  rewrite !(int16_t_small (z := value e)) by assumption.
  destruct e; reflexivity.
Qed.

Lemma apply_rotation_current (d : runtime_processor_data) (is_x : bool) (val : Z)
    (e : input_event) :
  current (fst (apply_rotation d is_x val e)) = current d.
Proof.
  unfold apply_rotation.
  destruct (negb (rotation_degrees (current d) =? 0)); [| reflexivity].
  destruct is_x; fields.
  - destruct (has_y d); reflexivity.
  - destruct (has_x d); reflexivity.
Qed.

(** The handler on an event that passes the three gates while keybind,
    code mapping and the temp-layer are off: rotation, inversion, snapping
    and scaling in this order. *)
Lemma handle_event_motion_path (dev : device) (event : input_event) (remainder : option Z)
    (now : Z) (is_x : bool) :
  ev_type event = type (config dev) ->
  (0 <=? code_idx (code event) (x_codes (config dev))) = is_x ->
  (is_x = false -> 0 <= code_idx (code event) (y_codes (config dev))) ->
  is_processor_active_for_current_layers K (active_layers (current (data dev))) = true ->
  keybind_enabled (current (data dev)) = false ->
  xy_to_scroll_enabled (current (data dev)) = false ->
  xy_swap_enabled (current (data dev)) = false ->
  temp_layer_enabled (current (data dev)) = false ->
  runtime_processor_handle_event M K B dev event remainder now
  = let rot := apply_rotation (data dev) is_x (int16_t (value event)) event in
    let inv := apply_invert (fst rot) is_x (snd rot) in
    let snap := apply_axis_snap (fst rot) is_x (int16_t (value inv)) inv now in
    let sc := apply_scaling (fst snap) (snd snap) remainder in
    Build_handled ZMK_INPUT_PROC_CONTINUE (fst snap) (fst sc) (snd sc)
      (temp_layer_deactivation (fst snap)).
Proof.
  intros Htype Hx Hy Hlayer Hkb Hscroll Hswap Htl.
  unfold runtime_processor_handle_event.
  rewrite Htype, Z.eqb_refl, Hlayer, Hx. cbn [negb].
  replace ((code_idx (code event) (x_codes (config dev)) <? 0)
           && (code_idx (code event) (y_codes (config dev)) <? 0)) with false.
  - rewrite process_keybind_disabled by assumption.
    rewrite code_mapping_off by assumption.
    rewrite temp_layer_activation_off by assumption.
    cbv zeta.
    destruct (apply_rotation (data dev) is_x (int16_t (value event)) event) as [d1 e1].
    fields.
    destruct (apply_axis_snap d1 is_x _ _ now) as [d3 e3]. fields.
    destruct (apply_scaling d3 e3 remainder) as [e4 r4]. reflexivity.
  - symmetry. apply andb_false_iff. destruct is_x.
    + left. apply Z.ltb_ge. apply Z.leb_le. assumption.
    + right. apply Z.ltb_ge. auto.
Qed.

(** The same path when inversion and snapping are off as well and the
    scale is 1/1 without a remainder: what the rotation block emits is what
    the handler emits. *)
Lemma handle_event_rotation_only (dev : device) (event : input_event) (now : Z)
    (is_x : bool) (d1 : runtime_processor_data) (e1 : input_event) :
  ev_type event = type (config dev) ->
  (0 <=? code_idx (code event) (x_codes (config dev))) = is_x ->
  (is_x = false -> 0 <= code_idx (code event) (y_codes (config dev))) ->
  is_processor_active_for_current_layers K (active_layers (current (data dev))) = true ->
  keybind_enabled (current (data dev)) = false ->
  xy_to_scroll_enabled (current (data dev)) = false ->
  xy_swap_enabled (current (data dev)) = false ->
  temp_layer_enabled (current (data dev)) = false ->
  x_invert (current (data dev)) = false ->
  y_invert (current (data dev)) = false ->
  axis_snap_mode (current (data dev)) = ZMK_INPUT_PROCESSOR_AXIS_SNAP_MODE_NONE ->
  scale_multiplier (current (data dev)) = 1 ->
  scale_divisor (current (data dev)) = 1 ->
  apply_rotation (data dev) is_x (int16_t (value event)) event = (d1, e1) ->
  in_int16 (value e1) ->
  runtime_processor_handle_event M K B dev event None now
  = Build_handled ZMK_INPUT_PROC_CONTINUE d1 e1 None [].
Proof.
  intros Htype Hx Hy Hlayer Hkb Hscroll Hswap Htl Hxi Hyi Hsnap Hmul Hdiv Hrot Hrange.
  rewrite (@handle_event_motion_path dev event None now is_x) by assumption.
  pose proof (apply_rotation_current (data dev) is_x (int16_t (value event)) event) as Hc.
  rewrite Hrot in *. fields.
  rewrite apply_invert_off by (rewrite Hc; assumption).
  rewrite apply_axis_snap_off by (rewrite Hc; assumption). fields.
  rewrite apply_scaling_unit by (rewrite ?Hc; assumption). fields.
  rewrite temp_layer_deactivation_off by (rewrite Hc; assumption).
  reflexivity.
Qed.

End MotionPath.

Section RotationScenario.

Variable M : libm.
Variable K : keymap.
Variable B : behavior_registry.
Variable CONFIG_SETTINGS : bool.
Variable CONFIG_ZMK_SETTINGS_SAVE_DEBOUNCE : Z.
Variable save_reschedule_status : Z.

(** The stream (X,5), (Y,7) through a device turned by 90 degrees with the
    temporary setter, nothing else in the pipeline altering values. *)
Lemma rotation_quarter_turn_stream (dev : device) (ex ey : input_event) (t1 t2 : Z) :
  within_ulp (libm_cos M (of_int 90 * M_PI / 180)) 0x1.1a62633145c07p-54 ->
  libm_sin M (of_int 90 * M_PI / 180) = 1%float ->
  ev_type ex = type (config dev) -> ev_type ey = type (config dev) ->
  0 <= code_idx (code ex) (x_codes (config dev)) ->
  code_idx (code ey) (x_codes (config dev)) < 0 ->
  0 <= code_idx (code ey) (y_codes (config dev)) ->
  value ex = 5 -> value ey = 7 ->
  is_processor_active_for_current_layers K (active_layers (current (data dev))) = true ->
  keybind_enabled (current (data dev)) = false ->
  xy_to_scroll_enabled (current (data dev)) = false ->
  xy_swap_enabled (current (data dev)) = false ->
  temp_layer_enabled (current (data dev)) = false ->
  x_invert (current (data dev)) = false ->
  y_invert (current (data dev)) = false ->
  axis_snap_mode (current (data dev)) = ZMK_INPUT_PROCESSOR_AXIS_SNAP_MODE_NONE ->
  scale_multiplier (current (data dev)) = 1 ->
  scale_divisor (current (data dev)) = 1 ->
  has_x (data dev) = false -> has_y (data dev) = false ->
  match dev_after (zmk_input_processor_runtime_set_rotation M CONFIG_SETTINGS
                     CONFIG_ZMK_SETTINGS_SAVE_DEBOUNCE save_reschedule_status
                     (Some dev) 90 false) with
  | Some dev' =>
      map (fun h => (status h, event_out h))
          (run_events M K B dev' None [(t1, ex); (t2, ey)])
      = [(ZMK_INPUT_PROC_CONTINUE, set_value 0 ex);
         (ZMK_INPUT_PROC_CONTINUE, set_value 5 ey)]
  | None => False
  end.
Proof.
  intros Hcos Hsin Tx Ty Cx Cyx Cy Vx Vy Hal Hkb Hscroll Hswap Htl Hxi Hyi Hsnap Hmul Hdiv
    Hhx Hhy.
  unfold zmk_input_processor_runtime_set_rotation, save_and_notify, assign.
  rewrite andb_false_r. cbn [dev_after].
  rewrite update_rotation_values_quarter_turn by (try assumption; reflexivity).
  set (d0 := set_sin_val 1000 (set_cos_val 0
               (upd_current (set_rotation_degrees 90) (data dev)))).
  cbn [run_events map].
  (* first event: X with no Y pending *)
  rewrite (@handle_event_rotation_only M K B (with_data dev d0) ex t1 true
             (set_has_x true (set_last_x 5 d0)) (set_value 0 ex));
    subst d0; fields; try assumption;
    [| apply Z.leb_le; assumption | discriminate
     | unfold apply_rotation; fields; rewrite Hhy, Vx; reflexivity
     | unfold in_int16; lia ].
  (* second event: Y pairs with the X just recorded *)
  match goal with |- context [with_data _ (set_has_x true ?d)] =>
    set (d1 := set_has_x true d) end.
  rewrite (@handle_event_rotation_only M K B _ ey t2 false
             (set_has_x false (set_has_y true (set_last_y 7 d1))) (set_value 5 ey));
    subst d1; fields; try assumption;
    [ reflexivity | apply Z.leb_gt; assumption | intros _; assumption
    | unfold apply_rotation; fields; rewrite Vy; reflexivity
    | unfold in_int16; lia ].
Qed.

End RotationScenario.

(** Claim C5, as amended.  The rotation block, reached when keybind has
    not consumed the event and [rotation_degrees] is not zero.  An X event
    records [last_x] and [has_x]; with no Y pending it emits 0, with a Y
    pending it clears [has_y] and emits (last_x * cos - last_y * sin) / 1000
    whenever this quotient fits 16 bits, and the quotient narrowed to 16
    bits in general.  A Y event records [last_y] and [has_y]; with an X
    pending it clears [has_x] and emits (last_x * sin + last_y * cos) / 1000
    under the same condition, with none pending it emits 0.  Second part:
    after a rotation of 90 degrees is set, the stream (X,5), (Y,7) is
    emitted as (X,0), (Y,5). *)
Theorem rotation_stage_pairing :
  (forall (d : runtime_processor_data) (val : Z) (event : input_event),
      rotation_degrees (current d) <> 0 ->
      in_int16 val -> in_int16 (last_x d) -> in_int16 (last_y d) ->
      -1000 <= cos_val d <= 1000 -> -1000 <= sin_val d <= 1000 ->
      let qx := Z.quot (val * cos_val d - last_y d * sin_val d) 1000 in
      let qy := Z.quot (last_x d * sin_val d + val * cos_val d) 1000 in
      (has_y d = false ->
       apply_rotation d true val event
       = (set_has_x true (set_last_x val d), set_value 0 event))
      /\ (has_y d = true ->
          (in_int16 qx ->
           apply_rotation d true val event
           = (set_has_y false (set_has_x true (set_last_x val d)), set_value qx event))
          /\ apply_rotation d true val event
             = (set_has_y false (set_has_x true (set_last_x val d)),
                set_value (int16_t qx) event))
      /\ (has_x d = true ->
          (in_int16 qy ->
           apply_rotation d false val event
           = (set_has_x false (set_has_y true (set_last_y val d)), set_value qy event))
          /\ apply_rotation d false val event
             = (set_has_x false (set_has_y true (set_last_y val d)),
                set_value (int16_t qy) event))
      /\ (has_x d = false ->
          apply_rotation d false val event
          = (set_has_y true (set_last_y val d), set_value 0 event)))
  /\ (forall (M : libm) (K : keymap) (B : behavior_registry)
        (CONFIG_SETTINGS : bool) (CONFIG_ZMK_SETTINGS_SAVE_DEBOUNCE : Z)
        (save_reschedule_status : Z)
        (dev : device) (ex ey : input_event) (t1 t2 : Z),
      within_ulp (libm_cos M (of_int 90 * M_PI / 180)) 0x1.1a62633145c07p-54 ->
      libm_sin M (of_int 90 * M_PI / 180) = 1%float ->
      ev_type ex = type (config dev) -> ev_type ey = type (config dev) ->
      0 <= code_idx (code ex) (x_codes (config dev)) ->
      code_idx (code ey) (x_codes (config dev)) < 0 ->
      0 <= code_idx (code ey) (y_codes (config dev)) ->
      value ex = 5 -> value ey = 7 ->
      is_processor_active_for_current_layers K (active_layers (current (data dev)))
      = true ->
      keybind_enabled (current (data dev)) = false ->
      xy_to_scroll_enabled (current (data dev)) = false ->
      xy_swap_enabled (current (data dev)) = false ->
      temp_layer_enabled (current (data dev)) = false ->
      x_invert (current (data dev)) = false ->
      y_invert (current (data dev)) = false ->
      axis_snap_mode (current (data dev)) = ZMK_INPUT_PROCESSOR_AXIS_SNAP_MODE_NONE ->
      scale_multiplier (current (data dev)) = 1 ->
      scale_divisor (current (data dev)) = 1 ->
      has_x (data dev) = false -> has_y (data dev) = false ->
      match dev_after (zmk_input_processor_runtime_set_rotation M CONFIG_SETTINGS
                         CONFIG_ZMK_SETTINGS_SAVE_DEBOUNCE save_reschedule_status
                         (Some dev) 90 false) with
      | Some dev' =>
          map (fun h => (status h, event_out h))
              (run_events M K B dev' None [(t1, ex); (t2, ey)])
          = [(ZMK_INPUT_PROC_CONTINUE, set_value 0 ex);
             (ZMK_INPUT_PROC_CONTINUE, set_value 5 ey)]
      | None => False
      end).
Proof.
  split.
  - intros d val event Hrot Hv Hlx Hly Hc Hs qx qy.
    assert (Hnz : negb (rotation_degrees (current d) =? 0) = true)
      by (apply negb_true_iff, Z.eqb_neq; assumption).
    unfold apply_rotation. rewrite Hnz. fields.
    refine (conj _ (conj _ (conj _ _))).
    + intros H; rewrite H; reflexivity.
    + intros H. rewrite H, rotated_x_exact by assumption. fold qx.
      split; [intros Hq; rewrite (int16_t_small Hq) |]; reflexivity.
    + intros H. rewrite H, rotated_y_exact by assumption. fold qy.
      split; [intros Hq; rewrite (int16_t_small Hq) |]; reflexivity.
    + intros H; rewrite H; reflexivity.
  - intros. apply rotation_quarter_turn_stream; assumption.
Qed.

(** Claim C5 as stated fails where the quotient leaves 16 bits.  A device
    turned by 45 degrees (cosine and sine 707) with the Y value -25000
    pending: the X event 25000 gives the quotient
    (25000 * 707 + 25000 * 707) / 1000 = 35350, and what is emitted is
    35350 - 65536 = -30186; the handler emits the same. *)
Lemma rotation_stage_pairing_counterexample :
  let d := set_has_y true (set_last_y (-25000) (set_sin_val 707 (set_cos_val 707
             (upd_current (set_rotation_degrees 45) Ref.init_data)))) in
  Z.quot (25000 * cos_val d - last_y d * sin_val d) 1000 = 35350
  /\ value (snd (apply_rotation d true 25000 (Ref.rel_x 25000))) = -30186
  /\ value (snd (apply_rotation d true 25000 (Ref.rel_x 25000)))
     <> Z.quot (25000 * cos_val d - last_y d * sin_val d) 1000
  /\ (let h := runtime_processor_handle_event Ref.math Ref.layers Ref.registry
                 (with_data Ref.dev d) (Ref.rel_x 25000) None 1000 in
      (status h, event_out h) = (ZMK_INPUT_PROC_CONTINUE, Ref.rel_x (-30186))).
Proof.
  repeat split; try (vm_compute; reflexivity). vm_compute. discriminate.
Qed.

(** Claim C5, as amended, on reference data: a paired X event on a device
    turned by a quarter, and the stream of the scenario. *)
Lemma rotation_stage_pairing_witness :
  (let d := set_has_y true (set_last_y 7 (set_sin_val 1000 (set_cos_val 0
              (upd_current (set_rotation_degrees 90) Ref.init_data)))) in
   apply_rotation d true 5 (Ref.rel_x 5)
   = (set_has_y false (set_has_x true (set_last_x 5 d)), Ref.rel_x (-7)))
  /\ match dev_after (zmk_input_processor_runtime_set_rotation Ref.math true 100 1
                        (Some Ref.dev) 90 false) with
     | Some dev' =>
         map (fun h => (status h, event_out h))
             (run_events Ref.math Ref.layers Ref.registry dev' None
                [(1000, Ref.rel_x 5); (1001, Ref.rel_y 7)])
         = [(ZMK_INPUT_PROC_CONTINUE, Ref.rel_x 0); (ZMK_INPUT_PROC_CONTINUE, Ref.rel_y 5)]
     | None => False
     end.
Proof.
  split.
  - refine (proj1 (proj1 (proj2 (proj1 rotation_stage_pairing _ 5 (Ref.rel_x 5)
                                   _ _ _ _ _ _)) _) _);
      vm_compute; try reflexivity; try discriminate; split; discriminate.
  - apply (proj2 rotation_stage_pairing Ref.math Ref.layers Ref.registry true 100 1
             Ref.dev (Ref.rel_x 5) (Ref.rel_y 7) 1000 1001);
      try (left; vm_compute; reflexivity);
      try (vm_compute; reflexivity);
      vm_compute; discriminate.
Defined.

(** ** Rotation round trip *)

Lemma abs_sum_bound (c s : Z) :
  c * c + s * s <= 1000000 -> Z.abs c + Z.abs s <= 1414.
Proof.
  intros H.
  pose proof (Z.abs_square c) as Hc. pose proof (Z.abs_square s) as Hs.
  pose proof (Z.abs_nonneg c) as Ha0. pose proof (Z.abs_nonneg s) as Hb0.
  set (a := Z.abs c) in *. set (b := Z.abs s) in *. clearbody a b.
  pose proof (Z.square_nonneg (a - b)) as Hsq.
  assert (H1 : (a + b) * (a + b) <= 2000000) by lia.
  destruct (Z_le_gt_dec (a + b) 1414) as [L | G]; [exact L | exfalso].
  assert (1415 * 1415 <= (a + b) * (a + b)) by (apply Z.mul_le_mono_nonneg; lia).
  lia.
Qed.

Lemma quot_1000_decompose (a : Z) :
  exists r, a = 1000 * Z.quot a 1000 + r /\ -999 <= r <= 999.
Proof.
  exists (Z.rem a 1000). split.
  - apply Z.quot_rem'.
  - pose proof (Z.rem_bound_abs a 1000). 
    assert (Z.abs (Z.rem a 1000) < 1000) by (apply Z.rem_bound_abs; lia).
    lia.
Qed.

Lemma cross_term_bound (c s r1 r2 : Z) :
  Z.abs c + Z.abs s <= 1414 -> -999 <= r1 <= 999 -> -999 <= r2 <= 999 ->
  -1412586 <= c * r1 + s * r2 <= 1412586.
Proof.
  intros Hcs H1 H2.
  assert (Z.abs (c * r1) <= Z.abs c * 999)
    by (rewrite Z.abs_mul; apply Z.mul_le_mono_nonneg_l; lia).
  assert (Z.abs (s * r2) <= Z.abs s * 999)
    by (rewrite Z.abs_mul; apply Z.mul_le_mono_nonneg_l; lia).
  lia.
Qed.

(** One coordinate of the round trip: with [q1], [q2] the quotients of the
    first rotation and [q3] that of the way back. *)
Lemma round_trip_coordinate (c s x a1 a2 q1 q2 q3 u v : Z) :
  997172 <= c * c + s * s <= 1000000 ->
  -500 <= x <= 500 ->
  q1 = Z.quot a1 1000 -> q2 = Z.quot a2 1000 ->
  q3 = Z.quot (q1 * u + q2 * v) 1000 ->
  a1 * u + a2 * v = x * (c * c + s * s) ->
  (u = c /\ v = s) \/ (u = - s /\ v = c) ->
  -3 <= q3 - x <= 3.
Proof.
  intros Hn Hx E1 E2 E3 Hmix Huv.
  destruct (quot_1000_decompose a1) as (r1 & D1 & R1).
  destruct (quot_1000_decompose a2) as (r2 & D2 & R2).
  destruct (quot_1000_decompose (q1 * u + q2 * v)) as (r3 & D3 & R3).
  rewrite <- E1 in D1. rewrite <- E2 in D2. rewrite <- E3 in D3.
  pose proof (@abs_sum_bound c s (proj2 Hn)) as Hcs.
  assert (Hcross : -1412586 <= u * r1 + v * r2 <= 1412586).
  { destruct Huv as [[-> ->] | [-> ->]].
    - apply cross_term_bound; assumption.
    - apply cross_term_bound; try assumption. lia. }
  assert (Hkey : 1000000 * q3 = x * (c * c + s * s) - (u * r1 + v * r2) - 1000 * r3) by nia.
  assert (Hloss : -1414000 <= x * (1000000 - (c * c + s * s)) <= 1414000) by nia.
  lia.
Qed.

(** Claim C7, as amended.  For a precomputed pair [(c, s)] of squared norm
    between 997172 and 1000000, as truncating 1000 cos and 1000 sin leaves
    it, and both coordinates of magnitude at most 500, rotating and
    rotating back returns each coordinate within 3 units. *)
Theorem rotation_round_trip_within_three (c s x y : Z) :
  997172 <= c * c + s * s <= 1000000 ->
  -500 <= x <= 500 -> -500 <= y <= 500 ->
  -3 <= fst (round_trip c s x y) - x <= 3
  /\ -3 <= snd (round_trip c s x y) - y <= 3.
Proof.
  intros Hn Hx Hy.
  assert (Hc : -1000 <= c <= 1000) by nia.
  assert (Hs : -1000 <= s <= 1000) by nia.
  pose proof (@abs_sum_bound c s (proj2 Hn)) as Hcs.
  unfold round_trip, rotate_pair.
  rewrite (rotated_x_exact (lx := x) (ly := y)), (rotated_y_exact (lx := x) (ly := y))
    by (unfold in_int16; lia).
  set (q1 := Z.quot (x * c - y * s) 1000).
  set (q2 := Z.quot (x * s + y * c) 1000).
  assert (B1 : -1000 <= q1 <= 1000).
  { destruct (quot_1000_decompose (x * c - y * s)) as (r & D & R). fold q1 in D.
    assert (Z.abs (x * c) <= 500 * Z.abs c)
      by (rewrite Z.abs_mul; apply Z.mul_le_mono_nonneg_r; lia).
    assert (Z.abs (y * s) <= 500 * Z.abs s)
      by (rewrite Z.abs_mul; apply Z.mul_le_mono_nonneg_r; lia).
    lia. }
  assert (B2 : -1000 <= q2 <= 1000).
  { destruct (quot_1000_decompose (x * s + y * c)) as (r & D & R). fold q2 in D.
    assert (Z.abs (x * s) <= 500 * Z.abs s)
      by (rewrite Z.abs_mul; apply Z.mul_le_mono_nonneg_r; lia).
    assert (Z.abs (y * c) <= 500 * Z.abs c)
      by (rewrite Z.abs_mul; apply Z.mul_le_mono_nonneg_r; lia).
    lia. }
  rewrite !(int16_t_small (z := q1)), !(int16_t_small (z := q2))
    by (unfold in_int16; lia).
  rewrite rotated_x_exact, rotated_y_exact by (unfold in_int16; lia).
  set (q3 := Z.quot (q1 * c - q2 * - s) 1000).
  set (q4 := Z.quot (q1 * - s + q2 * c) 1000).
  assert (B3 : -3 <= q3 - x <= 3).
  { apply (@round_trip_coordinate c s x (x * c - y * s) (x * s + y * c) q1 q2 q3 c s);
      try assumption; try reflexivity; [| lia | left; split; reflexivity].
    subst q3. f_equal. lia. }
  assert (B4 : -3 <= q4 - y <= 3).
  { apply (@round_trip_coordinate c s y (x * c - y * s) (x * s + y * c) q1 q2 q4 (- s) c);
      try assumption; try reflexivity; [lia | right; split; reflexivity]. }
  cbn [fst snd].
  rewrite !int16_t_small by (unfold in_int16; lia).
  split; assumption.
Qed.

(** Claim C7 as stated fails.  A pair of coordinates fed through the
    rotation for 1 degree, (999, 17),
    and back through that for -1 degree, (999, -17), comes back 2 units
    off although both coordinates are below 500; with 16-bit coordinates of
    magnitude 32000 and 2 degrees, (999, 34), the rotated Y leaves the
    16-bit range and the pair comes back 2256 units off. *)
Lemma rotation_round_trip_counterexample :
  (let d := update_rotation_values Ref.math
              (upd_current (set_rotation_degrees 1) Ref.init_data) in
   let d' := update_rotation_values Ref.math
               (upd_current (set_rotation_degrees (-1)) Ref.init_data) in
   (cos_val d, sin_val d) = (999, 17) /\ (cos_val d', sin_val d') = (999, -17))
  /\ round_trip 999 17 (-5) 0 = (-3, 0)
  /\ ~ (-1 <= fst (round_trip 999 17 (-5) 0) - (-5) <= 1)
  /\ (let d := update_rotation_values Ref.math
                 (upd_current (set_rotation_degrees 2) Ref.init_data) in
      let d' := update_rotation_values Ref.math
                  (upd_current (set_rotation_degrees (-2)) Ref.init_data) in
      (cos_val d, sin_val d) = (999, 34) /\ (cos_val d', sin_val d') = (999, -34))
  /\ round_trip 999 34 (-32000) (-32000) = (-29744, -32039)
  /\ ~ (-2 <= fst (round_trip 999 34 (-32000) (-32000)) - (-32000) <= 2).
Proof.
  repeat split; try (vm_compute; reflexivity); vm_compute; intros [H1 H2];
    first [apply H1; reflexivity | apply H2; reflexivity].
Qed.

(** Claim C7, as amended, on the pair of 10 degrees, (984, 173), at the
    coordinates where the round trip is 3 units off. *)
Lemma rotation_round_trip_within_three_witness :
  round_trip 984 173 (-500) (-474) = (-497, -472)
  /\ -3 <= fst (round_trip 984 173 (-500) (-474)) - (-500) <= 3
  /\ -3 <= snd (round_trip 984 173 (-500) (-474)) - (-474) <= 3.
Proof.
  split; [vm_compute; reflexivity |].
  apply (@rotation_round_trip_within_three 984 173 (-500) (-474)); lia.
Defined.

(** ** Axis snap *)

(** No decay period has elapsed since the accumulator was last touched. *)
Lemma axis_snap_decay_rapid (d : runtime_processor_data) (now : Z) :
  0 <= axis_snap_last_decay_timestamp d < 2 ^ 62 ->
  0 <= now < 2 ^ 62 ->
  axis_snap_last_decay_timestamp d = 0 \/ now - axis_snap_last_decay_timestamp d < 50 ->
  axis_snap_decay d now = d.
Proof.
  intros HL Hnow Hgap. unfold axis_snap_decay.
  destruct (0 <? axis_snap_timeout_ms (current d)); [| reflexivity].
  destruct (Z.ltb_spec 0 (axis_snap_last_decay_timestamp d)) as [Hpos | Hle];
    [| reflexivity].
  cbn [andb].
  rewrite int64_t_small by (change (2 ^ 62) with 4611686018427387904 in *; lia).
  destruct (Z.ltb_spec 0 (now - axis_snap_last_decay_timestamp d)) as [He | He];
    [| reflexivity].
  replace (Z.quot (now - axis_snap_last_decay_timestamp d) 50) with 0;
    [reflexivity |].
  symmetry. apply Z.quot_small. lia.
Qed.

(** One cross-axis event of value 10 under threshold 100: the accumulator
    moves from [a] to [a + 10], capped at 200 once unlocked, and the event is
    zeroed exactly while the new accumulator is below 100. *)
Lemma axis_snap_cross_ten (d : runtime_processor_data) (event : input_event) (now a : Z) :
  axis_snap_threshold (current d) = 100 ->
  axis_snap_cross_axis_accum d = a ->
  0 <= a <= 200 ->
  let r := axis_snap_cross d 10 event now in
  current (fst r) = current d
  /\ axis_snap_cross_axis_accum (fst r) = Z.min (a + 10) 200
  /\ axis_snap_last_decay_timestamp (fst r) = now
  /\ snd r = (if a + 10 <? 100 then set_value 0 event else event).
Proof.
  intros Hth Hacc Ha. unfold axis_snap_cross. rewrite Hth, Hacc.
  replace (a <? 0) with false by (symmetry; apply Z.ltb_ge; lia).
  rewrite (int16_t_small (z := a)) by (unfold in_int16; lia).
  change (0 <? 10) with true. cbv iota.
  replace (if 100 <=? a
           then set_axis_snap_cross_axis_accum (int16_t (a + 10)) d
           else set_axis_snap_cross_axis_accum (int16_t (a + 10)) d)
    with (set_axis_snap_cross_axis_accum (a + 10) d)
    by (rewrite (int16_t_small (z := a + 10)) by (unfold in_int16; lia);
        destruct (100 <=? a); reflexivity).
  fields. rewrite Hth.
  replace (a + 10 <? 0) with false by (symmetry; apply Z.ltb_ge; lia).
  rewrite (int16_t_small (z := a + 10)) by (unfold in_int16; lia).
  destruct (Z.leb_spec 100 (a + 10)) as [Hun | Hlock].
  - replace (a + 10 <? 100) with false by (symmetry; apply Z.ltb_ge; lia).
    change (100 * 2) with 200.
    destruct (Z.ltb_spec 200 (a + 10)) as [Hcap | Hnocap]; fields.
    + replace (0 <? a + 10) with true by (symmetry; apply Z.ltb_lt; lia).
      change (int16_t (100 * 2)) with 200.
      rewrite Z.min_r by lia. repeat split.
    + rewrite Z.min_l by lia. repeat split.
  - replace (a + 10 <? 100) with true by (symmetry; apply Z.ltb_lt; lia).
    fields. rewrite Z.min_l by lia. repeat split.
Qed.

Lemma snap_values_unlocked (a : Z) (n : nat) :
  90 <= a -> snap_values a n = repeat 10 n.
Proof.
  revert a. induction n as [| n IH]; intros a Ha; [reflexivity |].
  cbn [snap_values repeat].
  replace (a + 10 <? 100) with false by (symmetry; apply Z.ltb_ge; lia).
  rewrite IH by lia. reflexivity.
Qed.

Lemma snap_values_from_rest (n : nat) :
  snap_values 0 n = repeat 0 (Nat.min n 9) ++ repeat 10 (n - 9).
Proof.
  do 9 (destruct n as [| n]; [reflexivity |]).
  replace (Nat.min (S (S (S (S (S (S (S (S (S n))))))))) 9) with 9%nat by lia.
  replace (S (S (S (S (S (S (S (S (S n)))))))) - 9)%nat with n by lia.
  cbn. rewrite snap_values_unlocked by lia. reflexivity.
Qed.

Section AxisSnapScenario.

Variable M : libm.
Variable K : keymap.
Variable B : behavior_registry.

(** The handler on one event (Y,10) of the scenario. *)
Lemma handle_event_snap_ten (dev : device) (event : input_event) (now a : Z) :
  ev_type event = type (config dev) ->
  code_idx (code event) (x_codes (config dev)) < 0 ->
  0 <= code_idx (code event) (y_codes (config dev)) ->
  value event = 10 ->
  is_processor_active_for_current_layers K (active_layers (current (data dev))) = true ->
  snap_x_settings (current (data dev)) ->
  axis_snap_cross_axis_accum (data dev) = a ->
  0 <= a <= 200 ->
  0 <= axis_snap_last_decay_timestamp (data dev) < 2 ^ 62 ->
  0 <= now < 2 ^ 62 ->
  axis_snap_last_decay_timestamp (data dev) = 0
  \/ now - axis_snap_last_decay_timestamp (data dev) < 50 ->
  let h := runtime_processor_handle_event M K B dev event None now in
  status h = ZMK_INPUT_PROC_CONTINUE
  /\ value (event_out h) = (if a + 10 <? 100 then 0 else 10)
  /\ remainder_out h = None
  /\ current (data_out h) = current (data dev)
  /\ axis_snap_cross_axis_accum (data_out h) = Z.min (a + 10) 200
  /\ axis_snap_last_decay_timestamp (data_out h) = now.
Proof.
  intros Htype Hcx Hcy Hval Hlayer Hset Hacc Ha HL Hnow Hgap.
  destruct Hset as (Hmode & Hth & Hto & Hkb & Hscroll & Hswap & Htl & Hrot & Hyi
                    & Hmul & Hdiv).
  rewrite (@handle_event_motion_path M K B dev event None now false);
    try assumption; [| apply Z.leb_gt; assumption | intros _; assumption].
  assert (R : apply_rotation (data dev) false (int16_t (value event)) event
              = (data dev, event))
    by (unfold apply_rotation; rewrite Hrot; reflexivity).
  rewrite R. fields.
  assert (I : apply_invert (data dev) false event = event)
    by (unfold apply_invert; rewrite Hyi; reflexivity).
  rewrite I. rewrite Hval. change (int16_t 10) with 10.
  assert (S : apply_axis_snap (data dev) false 10 event now
              = axis_snap_cross (data dev) 10 event now).
  { unfold apply_axis_snap. rewrite Hmode, Hval. cbn [Z.eqb negb andb orb Pos.eqb].
    rewrite axis_snap_decay_rapid by assumption. reflexivity. }
  rewrite S.
  destruct (@axis_snap_cross_ten (data dev) event now a Hth Hacc Ha) as (C1 & C2 & C3 & C4).
  destruct (axis_snap_cross (data dev) 10 event now) as [d3 e3]. fields. subst e3.
  rewrite apply_scaling_unit
    by (rewrite ?C1; try assumption;
        destruct (a + 10 <? 100); fields; rewrite ?Hval; unfold in_int16; lia).
  fields. repeat split; try assumption.
  destruct (a + 10 <? 100); fields; [reflexivity | assumption].
Qed.

(** A run of events (Y,10) from accumulator [a]. *)
Lemma run_events_snap_ten (event : input_event) (ts : list Z) :
  forall (dev : device) (a : Z),
  ev_type event = type (config dev) ->
  code_idx (code event) (x_codes (config dev)) < 0 ->
  0 <= code_idx (code event) (y_codes (config dev)) ->
  value event = 10 ->
  is_processor_active_for_current_layers K (active_layers (current (data dev))) = true ->
  snap_x_settings (current (data dev)) ->
  axis_snap_cross_axis_accum (data dev) = a ->
  0 <= a <= 200 ->
  0 <= axis_snap_last_decay_timestamp (data dev) < 2 ^ 62 ->
  rapid (axis_snap_last_decay_timestamp (data dev)) ts ->
  map (fun h => (status h, value (event_out h)))
      (run_events M K B dev None (map (fun t => (t, event)) ts))
  = map (fun v => (ZMK_INPUT_PROC_CONTINUE, v)) (snap_values a (List.length ts)).
Proof.
  induction ts as [| t ts IH]; intros dev a Htype Hcx Hcy Hval Hlayer Hset Hacc Ha HL Hr;
    [reflexivity |].
  destruct Hr as (Ht & Hgap & Hrest).
  cbn [map run_events List.length snap_values].
  destruct (@handle_event_snap_ten dev event t a Htype Hcx Hcy Hval Hlayer Hset Hacc Ha
              HL Ht Hgap) as (S1 & S2 & S3 & S4 & S5 & S6).
  rewrite S1, S2, S3. f_equal.
  apply IH; fields; rewrite ?S4, ?S5, ?S6; try assumption; lia.
Qed.

(** Claim C3, as amended.  Snapping to X, threshold 100, timeout 1000 ms,
    accumulator at zero, events (Y,10) following one another within a
    decay period: the first nine are emitted with value 0; the tenth
    brings the accumulator to 100, which is no longer below the threshold,
    and it and every later one are emitted with their value 10. *)
Theorem axis_snap_releases_at_tenth (dev : device) (event : input_event) (ts : list Z) :
  ev_type event = type (config dev) ->
  code_idx (code event) (x_codes (config dev)) < 0 ->
  0 <= code_idx (code event) (y_codes (config dev)) ->
  value event = 10 ->
  is_processor_active_for_current_layers K (active_layers (current (data dev))) = true ->
  snap_x_settings (current (data dev)) ->
  axis_snap_cross_axis_accum (data dev) = 0 ->
  0 <= axis_snap_last_decay_timestamp (data dev) < 2 ^ 62 ->
  rapid (axis_snap_last_decay_timestamp (data dev)) ts ->
  map (fun h => (status h, value (event_out h)))
      (run_events M K B dev None (map (fun t => (t, event)) ts))
  = map (fun v => (ZMK_INPUT_PROC_CONTINUE, v))
        (repeat 0 (Nat.min (List.length ts) 9) ++ repeat 10 (List.length ts - 9)).
Proof.
  intros. rewrite <- snap_values_from_rest.
  apply run_events_snap_ten; try assumption; lia.
Qed.

End AxisSnapScenario.

(** Claim C3 as stated fails.  Eleven events (Y,10), one millisecond apart,
    on the reference device snapping to X: the tenth is emitted with value
    10, not 0. *)
Lemma axis_snap_tenth_event_counterexample :
  let dev := Ref.dev_with (set_axis_snap_mode ZMK_INPUT_PROCESSOR_AXIS_SNAP_MODE_X) in
  let outs :=
    run_events Ref.math Ref.layers Ref.registry dev None
      (map (fun t => (t, Ref.rel_y 10))
         [1000; 1001; 1002; 1003; 1004; 1005; 1006; 1007; 1008; 1009; 1010]) in
  map (fun h => value (event_out h)) outs = [0; 0; 0; 0; 0; 0; 0; 0; 0; 10; 10]
  /\ map (fun h => axis_snap_cross_axis_accum (data_out h)) outs
     = [10; 20; 30; 40; 50; 60; 70; 80; 90; 100; 110]
  /\ nth 9 (map (fun h => value (event_out h)) outs) 0 <> 0.
Proof.
  repeat split; try (vm_compute; reflexivity). vm_compute. discriminate.
Qed.

(** Claim C3, as amended, on twelve events one millisecond apart. *)
Lemma axis_snap_releases_at_tenth_witness :
  let dev := Ref.dev_with (set_axis_snap_mode ZMK_INPUT_PROCESSOR_AXIS_SNAP_MODE_X) in
  let ts := [1000; 1001; 1002; 1003; 1004; 1005; 1006; 1007; 1008; 1009; 1010; 1011] in
  map (fun h => (status h, value (event_out h)))
      (run_events Ref.math Ref.layers Ref.registry dev None
         (map (fun t => (t, Ref.rel_y 10)) ts))
  = map (fun v => (ZMK_INPUT_PROC_CONTINUE, v)) (repeat 0 9 ++ repeat 10 3).
Proof.
  apply (@axis_snap_releases_at_tenth Ref.math Ref.layers Ref.registry
           (Ref.dev_with (set_axis_snap_mode ZMK_INPUT_PROCESSOR_AXIS_SNAP_MODE_X))
           (Ref.rel_y 10)
           [1000; 1001; 1002; 1003; 1004; 1005; 1006; 1007; 1008; 1009; 1010; 1011]).
  - reflexivity.
  - vm_compute. reflexivity.
  - vm_compute. discriminate.
  - reflexivity.
  - reflexivity.
  - repeat split.
  - reflexivity.
  - vm_compute. split; [discriminate | reflexivity].
  - cbn [rapid Ref.dev_with with_data data upd_current set_current
         axis_snap_last_decay_timestamp Ref.init_data].
    repeat split; try (vm_compute; first [discriminate | reflexivity]);
      first [left; reflexivity | right; vm_compute; reflexivity].
Defined.

(** ** Scaling *)

Lemma int16_t_add_multiple (z k : Z) : int16_t (z + 65536 * k) = int16_t z.
Proof.
  unfold int16_t, cast_signed. change (2 ^ 16) with 65536.
  replace (z + 65536 * k + 2 ^ (16 - 1)) with (z + 2 ^ (16 - 1) + k * 65536) by lia.
  rewrite Z_mod_plus_full. reflexivity.
Qed.

Lemma int16_t_int32_t (z : Z) : int16_t (int32_t z) = int16_t z.
Proof.
  unfold int32_t, cast_signed.
  change (2 ^ (32 - 1)) with 2147483648. change (2 ^ 32) with 4294967296.
  pose proof (Z.div_mod (z + 2147483648) 4294967296 ltac:(lia)) as D.
  replace ((z + 2147483648) mod 4294967296 - 2147483648)
    with (z + 65536 * (- 65536 * ((z + 2147483648) / 4294967296))) by lia.
  apply int16_t_add_multiple.
Qed.

Lemma int16_t_add_l (z r : Z) : int16_t (int16_t z + r) = int16_t (z + r).
Proof.
  unfold int16_t at 2. unfold cast_signed.
  change (2 ^ (16 - 1)) with 32768. change (2 ^ 16) with 65536.
  pose proof (Z.div_mod (z + 32768) 65536 ltac:(lia)) as D.
  replace ((z + 32768) mod 65536 - 32768 + r)
    with (z + r + 65536 * (- ((z + 32768) / 65536))) by lia.
  apply int16_t_add_multiple.
Qed.

Lemma quot_in_int16 (v d : Z) : in_int16 v -> 0 < d -> in_int16 (Z.quot v d).
Proof.
  unfold in_int16. intros Hv Hd.
  destruct (Z_le_gt_dec 0 v) as [Hpos | Hneg].
  - pose proof (Z.quot_pos v d Hpos Hd).
    pose proof (Z.quot_le_upper_bound v d v Hd ltac:(nia)). lia.
  - rewrite <- (Z.opp_involutive v), Z.quot_opp_l by lia.
    pose proof (Z.quot_pos (- v) d ltac:(lia) Hd).
    pose proof (Z.quot_le_upper_bound (- v) d (- v) Hd ltac:(nia)). lia.
Qed.

(** Where the scaling stage computes what its description says: with
    multiplier and divisor between 1 and 32767 and
    [value * mul + remainder] within 16 bits, [scale_val] computes
    v' = value * mul + remainder, emits out = v' / div (division
    truncating towards zero) and stores v' - out * div; the scaling block
    of the handler does the same with the current multiplier and divisor.
    With 3/2 and a remainder of 0, the inputs 3 and 5 are emitted as 4
    (remainder 1) and 8 (remainder 0). *)
Lemma scale_val_within_16_bits :
  (forall (event : input_event) (mul div r : Z),
      0 < mul <= 32767 -> 0 < div <= 32767 ->
      in_int16 (value event * mul + r) ->
      let v' := value event * mul + r in
      let out := Z.quot v' div in
      scale_val event mul div (Some r) = (0, set_value out event, Some (v' - out * div))
      /\ forall d : runtime_processor_data,
          scale_multiplier (current d) = mul -> scale_divisor (current d) = div ->
          apply_scaling d event (Some r) = (set_value out event, Some (v' - out * div)))
  /\ (forall (event : input_event) (d : runtime_processor_data),
      scale_multiplier (current d) = 3 -> scale_divisor (current d) = 2 ->
      let first := apply_scaling d (set_value 3 event) (Some 0) in
      let second := apply_scaling d (set_value 5 event) (snd first) in
      first = (set_value 4 event, Some 1) /\ second = (set_value 8 event, Some 0)).
Proof.
  assert (General : forall (event : input_event) (mul div r : Z),
             0 < mul <= 32767 -> 0 < div <= 32767 ->
             in_int16 (value event * mul + r) ->
             scale_val event mul div (Some r)
             = (0, set_value (Z.quot (value event * mul + r) div) event,
                Some (value event * mul + r
                      - Z.quot (value event * mul + r) div * div))).
  { intros event mul div r Hmul Hdiv Hfit. unfold scale_val.
    replace (mul =? 0) with false by (symmetry; apply Z.eqb_neq; lia).
    replace (div =? 0) with false by (symmetry; apply Z.eqb_neq; lia).
    cbn [orb].
    rewrite (int16_t_small (z := mul)), (int16_t_small (z := div))
      by (unfold in_int16; lia).
    rewrite int16_t_int32_t, int16_t_add_l, (int16_t_small Hfit).
    set (v' := value event * mul + r) in *.
    pose proof (Z.quot_rem' v' div) as D.
    assert (Hrem : Z.abs (Z.rem v' div) < Z.abs div) by (apply Z.rem_bound_abs; lia).
    pose proof (@quot_in_int16 v' div Hfit ltac:(lia)) as Hout.
    rewrite (int16_t_small Hout).
    rewrite int16_t_small; [reflexivity |].
    unfold in_int16. replace (v' - Z.quot v' div * div) with (Z.rem v' div) by lia.
    lia. }
  split.
  - intros event mul div r Hmul Hdiv Hfit v' out. split.
    + apply General; assumption.
    + intros d Em Ed. unfold apply_scaling. rewrite Em, Ed.
      replace (0 <? mul) with true by (symmetry; apply Z.ltb_lt; lia).
      replace (0 <? div) with true by (symmetry; apply Z.ltb_lt; lia).
      cbn [andb]. rewrite General by assumption. reflexivity.
  - intros event d Em Ed. unfold apply_scaling. rewrite Em, Ed.
    cbn [Z.ltb Z.compare andb].
    rewrite !General; fields; try lia; try (unfold in_int16; lia).
    split; reflexivity.
Qed.

(** Claim C8, which the code breaks.  [zmk_input_processor_runtime_set_scaling]
    accepts the scale 200/100, and the handler then emits -55 for the value
    300: the product 60000 does not fit the 16-bit intermediate and wraps
    to -5536, where v' = 60000 and out = 600 are due; the remainder left is
    -36, not 0.  The same setter accepts the divisor 65536, which passes
    the test against zero in [scale_val] and narrows to 0, the divisor of
    the division that follows. *)
Theorem scale_val_overflows_16_bits :
  let set_scaling := zmk_input_processor_runtime_set_scaling false 100 0 in
  (exists dev : device,
      dev_after (set_scaling (Some Ref.dev) 200 100 true) = Some dev
      /\ ret (set_scaling (Some Ref.dev) 200 100 true) = 0
      /\ scale_multiplier (current (data dev)) = 200
      /\ scale_divisor (current (data dev)) = 100
      /\ scale_val (Ref.rel_x 300) 200 100 (Some 0) = (0, Ref.rel_x (-55), Some (-36))
      /\ (let h := runtime_processor_handle_event Ref.math Ref.layers Ref.registry
                     dev (Ref.rel_x 300) (Some 0) 1000 in
          (status h, event_out h, remainder_out h)
          = (ZMK_INPUT_PROC_CONTINUE, Ref.rel_x (-55), Some (-36))))
  /\ Z.quot (300 * 200 + 0) 100 = 600
  /\ 300 * 200 + 0 - 600 * 100 = 0
  /\ (exists dev : device,
        dev_after (set_scaling (Some Ref.dev) 1 65536 true) = Some dev
        /\ ret (set_scaling (Some Ref.dev) 1 65536 true) = 0
        /\ scale_divisor (current (data dev)) = 65536
        /\ scale_val_divides_by_zero (scale_multiplier (current (data dev)))
             (scale_divisor (current (data dev))) = true).
Proof.
  cbv zeta. split; [| split; [| split]].
  - eexists. split; [reflexivity |]. repeat split; vm_compute; reflexivity.
  - reflexivity.
  - reflexivity.
  - eexists. split; [reflexivity |]. repeat split.
Qed.

(** ** The control surface *)

Lemma update_rotation_values_current (M : libm) (d : runtime_processor_data) :
  current (update_rotation_values M d) = current d.
Proof.
  unfold update_rotation_values.
  destruct (rotation_degrees (current d) =? 0); reflexivity.
Qed.

Lemma update_rotation_values_persistent (M : libm) (d : runtime_processor_data) :
  persistent (update_rotation_values M d) = persistent d.
Proof.
  unfold update_rotation_values.
  destruct (rotation_degrees (current d) =? 0); reflexivity.
Qed.

Section ControlSurfaceProperties.

Variable M : libm.
Variable CONFIG_SETTINGS : bool.
Variable CONFIG_ZMK_SETTINGS_SAVE_DEBOUNCE : Z.
Variable save_reschedule_status : Z.

Local Abbreviation call :=
  (call_setter M CONFIG_SETTINGS CONFIG_ZMK_SETTINGS_SAVE_DEBOUNCE save_reschedule_status).

(** The tail of a setter leaves the device it is given, and every work
    item it reschedules is the save work, seeing the data of that
    device. *)
Lemma save_and_notify_spec (dev : device) (persist : bool) :
  let o := save_and_notify CONFIG_SETTINGS CONFIG_ZMK_SETTINGS_SAVE_DEBOUNCE
             save_reschedule_status dev persist in
  dev_after o = Some dev
  /\ forall w delay seen,
       In (k_work_reschedule w delay seen) (calls o) -> w = save_work /\ seen = data dev.
Proof.
  unfold save_and_notify, schedule_save_processor_settings, raise_state_changed_event.
  destruct (CONFIG_SETTINGS && persist); cbn.
  - split; [reflexivity |]. intros w delay seen [H | [H | []]]; [| discriminate].
    injection H as <- _ <-. split; reflexivity.
  - split; [reflexivity |]. intros w delay seen [].
Qed.

Ltac open_setter :=
  cbn [call_setter refused validation_fails];
  unfold zmk_input_processor_runtime_set_scaling,
    zmk_input_processor_runtime_set_rotation,
    zmk_input_processor_runtime_set_temp_layer,
    zmk_input_processor_runtime_set_temp_layer_enabled,
    zmk_input_processor_runtime_set_temp_layer_layer,
    zmk_input_processor_runtime_set_temp_layer_activation_delay,
    zmk_input_processor_runtime_set_temp_layer_deactivation_delay,
    zmk_input_processor_runtime_set_active_layers,
    zmk_input_processor_runtime_set_axis_snap_mode,
    zmk_input_processor_runtime_set_axis_snap_threshold,
    zmk_input_processor_runtime_set_axis_snap_timeout,
    zmk_input_processor_runtime_set_axis_snap,
    zmk_input_processor_runtime_set_x_invert,
    zmk_input_processor_runtime_set_y_invert,
    zmk_input_processor_runtime_set_keybind_enabled,
    zmk_input_processor_runtime_set_keybind_behavior_count,
    zmk_input_processor_runtime_set_keybind_degree_offset,
    zmk_input_processor_runtime_set_keybind_tick,
    zmk_input_processor_runtime_set_xy_to_scroll_enabled,
    zmk_input_processor_runtime_set_xy_swap_enabled,
    plain_setter.

(** Claim C9.  A call whose validation fails (null device; behaviour count
    outside 1..8; degree offset of 360 or more; tick 0; snap mode above
    SnapY) returns [-EINVAL], leaves the device exactly as it was, current
    and persistent tunables included, and makes no call.  A call whose
    validation succeeds leaves a device whose current tunables hold the new
    values, and every rescheduling of the save work sees the data with
    these values already in place. *)
Theorem setter_validates_before_writing
    (c : setter_call) (dev : option device) (persist : bool) :
  let o := call c dev persist in
  if validation_fails c dev then
    ret o = - EINVAL /\ dev_after o = dev /\ calls o = []
  else
    exists dev' : device,
      dev_after o = Some dev'
      /\ holds_values c (current (data dev'))
      /\ (persist = true -> holds_values c (persistent (data dev')))
      /\ forall w delay seen,
           In (k_work_reschedule w delay seen) (calls o) ->
           w = save_work /\ seen = data dev' /\ holds_values c (current seen).
Proof.
  destruct dev as [dv |]; [| destruct c; repeat split].
  assert (Finish : forall d,
             holds_values c (current d) ->
             (persist = true -> holds_values c (persistent d)) ->
             let o := save_and_notify CONFIG_SETTINGS CONFIG_ZMK_SETTINGS_SAVE_DEBOUNCE
                        save_reschedule_status (with_data dv d) persist in
             exists dev' : device,
               dev_after o = Some dev'
               /\ holds_values c (current (data dev'))
               /\ (persist = true -> holds_values c (persistent (data dev')))
               /\ forall w delay seen,
                    In (k_work_reschedule w delay seen) (calls o) ->
                    w = save_work /\ seen = data dev' /\ holds_values c (current seen)).
  { intros d Hc Hp o.
    destruct (save_and_notify_spec (with_data dv d) persist) as [Hdev Hcalls].
    exists (with_data dv d). fold o in Hdev, Hcalls.
    split; [exact Hdev |]. split; [exact Hc |]. split; [exact Hp |].
    intros w delay seen Hin. destruct (Hcalls w delay seen Hin) as [-> ->].
    repeat split. exact Hc. }
  destruct c; open_setter;
    try match goal with |- context [if ?b then reject _ else _] =>
          destruct b; [repeat split |] end;
    apply Finish;
    try solve [ unfold assign; destruct persist; fields; cbn [holds_values];
                rewrite ?update_rotation_values_current,
                  ?update_rotation_values_persistent; fields;
                repeat split; intros; try reflexivity; try discriminate ].
  - (* set_scaling writes only the positive arguments *)
    clear Finish. unfold assign. cbn [holds_values].
    destruct (Z.ltb_spec 0 multiplier), (Z.ltb_spec 0 divisor), persist; fields;
      repeat split; intros; try reflexivity; lia.
  - clear Finish. intros ->. unfold assign. cbn [holds_values].
    destruct (Z.ltb_spec 0 multiplier), (Z.ltb_spec 0 divisor); fields;
      repeat split; intros; try reflexivity; lia.
Qed.

Local Abbreviation get_config := zmk_input_processor_runtime_get_config.

(** A temporary call leaves the persistent tunables as they were. *)
Lemma temporary_call_keeps_persistent (c : setter_call) (dv : device) :
  exists dv' : device,
    dev_after (call c (Some dv) false) = Some dv'
    /\ config dv' = config dv
    /\ persistent (data dv') = persistent (data dv).
Proof.
  destruct c; open_setter;
    try match goal with |- context [if ?b then reject _ else _] =>
          destruct b; [exists dv; repeat split |] end;
    unfold save_and_notify; rewrite andb_false_r; cbn [dev_after];
    eexists; (split; [reflexivity |]); unfold assign; fields;
    rewrite ?update_rotation_values_persistent; fields;
    repeat match goal with |- context [if ?b then _ else _] => destruct b end;
    split; reflexivity.
Qed.

(** Claim C10.  [zmk_input_processor_runtime_get_config] reports the
    persistent copy of each of the nineteen tunables.  A temporary call of
    any setter leaves what it reports unchanged, and the state-changed
    event carries exactly that report.  After a temporary
    [zmk_input_processor_runtime_set_rotation] to an angle other than the
    persistent one, the angle that drives the pipeline is the new one while
    the reported angle is still the persistent one. *)
Theorem get_config_reports_persistent_view :
  (forall dv : device,
      exists view : zmk_input_processor_runtime_config,
        get_config (Some dv) = (0, Some (name (config dv), view))
        /\ raise_state_changed_event dv
           = [raise_zmk_input_processor_state_changed (name (config dv)) view]
        /\ cfg_scale_multiplier view = scale_multiplier (persistent (data dv))
        /\ cfg_scale_divisor view = scale_divisor (persistent (data dv))
        /\ cfg_rotation_degrees view = rotation_degrees (persistent (data dv))
        /\ cfg_temp_layer_enabled view = temp_layer_enabled (persistent (data dv))
        /\ cfg_temp_layer_layer view = temp_layer_layer (persistent (data dv))
        /\ cfg_temp_layer_activation_delay_ms view
           = temp_layer_activation_delay_ms (persistent (data dv))
        /\ cfg_temp_layer_deactivation_delay_ms view
           = temp_layer_deactivation_delay_ms (persistent (data dv))
        /\ cfg_active_layers view = active_layers (persistent (data dv))
        /\ cfg_axis_snap_mode view = axis_snap_mode (persistent (data dv))
        /\ cfg_axis_snap_threshold view = axis_snap_threshold (persistent (data dv))
        /\ cfg_axis_snap_timeout_ms view = axis_snap_timeout_ms (persistent (data dv))
        /\ cfg_xy_to_scroll_enabled view = xy_to_scroll_enabled (persistent (data dv))
        /\ cfg_xy_swap_enabled view = xy_swap_enabled (persistent (data dv))
        /\ cfg_x_invert view = x_invert (persistent (data dv))
        /\ cfg_y_invert view = y_invert (persistent (data dv))
        /\ cfg_keybind_enabled view = keybind_enabled (persistent (data dv))
        /\ cfg_keybind_behavior_count view = keybind_behavior_count (persistent (data dv))
        /\ cfg_keybind_degree_offset view = keybind_degree_offset (persistent (data dv))
        /\ cfg_keybind_tick view = keybind_tick (persistent (data dv)))
  /\ (forall (c : setter_call) (dev : option device),
      get_config (dev_after (call c dev false)) = get_config dev)
  /\ (forall (dv : device) (degrees : Z),
      rotation_degrees (persistent (data dv)) <> degrees ->
      exists (dv' : device) (view : zmk_input_processor_runtime_config),
        dev_after (zmk_input_processor_runtime_set_rotation M CONFIG_SETTINGS
                     CONFIG_ZMK_SETTINGS_SAVE_DEBOUNCE save_reschedule_status
                     (Some dv) degrees false) = Some dv'
        /\ get_config (Some dv') = (0, Some (name (config dv'), view))
        /\ rotation_degrees (current (data dv')) = degrees
        /\ cfg_rotation_degrees view = rotation_degrees (persistent (data dv))
        /\ cfg_rotation_degrees view <> rotation_degrees (current (data dv'))).
Proof.
  split; [| split].
  - intros dv. eexists. split; [reflexivity |]. repeat split.
  - intros c [dv |].
    + destruct (temporary_call_keeps_persistent c dv) as (dv' & E & Hc & Hp).
      rewrite E. unfold get_config, zmk_input_processor_runtime_get_config.
      rewrite Hc, Hp. reflexivity.
    + destruct c; reflexivity.
  - intros dv degrees Hne.
    unfold zmk_input_processor_runtime_set_rotation, save_and_notify.
    rewrite andb_false_r. cbn [dev_after].
    eexists. eexists. split; [reflexivity |]. split; [reflexivity |].
    unfold assign. fields.
    rewrite update_rotation_values_current, update_rotation_values_persistent. fields.
    repeat split. assumption.
Qed.

(** What [zmk_input_processor_runtime_restore_persistent] does: scaling,
    rotation, axis snap, inversion and keybind settings are copied from
    the persistent tunables and the snap and keybind accumulators are
    cleared; the temp-layer settings, the active layers and the two code
    mapping flags are left as they are. *)
Lemma restore_persistent_effect (dv : device) :
  exists dv' : device,
    zmk_input_processor_runtime_restore_persistent M (Some dv) = Some dv'
    /\ persistent (data dv') = persistent (data dv)
    /\ (let c := current (data dv') in
        let p := persistent (data dv) in
        scale_multiplier c = scale_multiplier p
        /\ scale_divisor c = scale_divisor p
        /\ rotation_degrees c = rotation_degrees p
        /\ axis_snap_mode c = axis_snap_mode p
        /\ axis_snap_threshold c = axis_snap_threshold p
        /\ axis_snap_timeout_ms c = axis_snap_timeout_ms p
        /\ x_invert c = x_invert p
        /\ y_invert c = y_invert p
        /\ keybind_enabled c = keybind_enabled p
        /\ keybind_behavior_count c = keybind_behavior_count p
        /\ keybind_degree_offset c = keybind_degree_offset p
        /\ keybind_tick c = keybind_tick p)
    /\ axis_snap_cross_axis_accum (data dv') = 0
    /\ axis_snap_last_decay_timestamp (data dv') = 0
    /\ keybind_x_accum (data dv') = 0
    /\ keybind_y_accum (data dv') = 0
    /\ (let c := current (data dv') in
        let c0 := current (data dv) in
        temp_layer_enabled c = temp_layer_enabled c0
        /\ temp_layer_layer c = temp_layer_layer c0
        /\ temp_layer_activation_delay_ms c = temp_layer_activation_delay_ms c0
        /\ temp_layer_deactivation_delay_ms c = temp_layer_deactivation_delay_ms c0
        /\ active_layers c = active_layers c0
        /\ xy_to_scroll_enabled c = xy_to_scroll_enabled c0
        /\ xy_swap_enabled c = xy_swap_enabled c0).
Proof.
  eexists. split; [reflexivity |]. fields.
  rewrite !update_rotation_values_current, !update_rotation_values_persistent. fields.
  repeat split.
Qed.

End ControlSurfaceProperties.

(** Claim C2, evaluated on the code.  The reference device, its active
    layers set to the mask 2 by a temporary call while the persistent mask
    is 0, then restored: the current mask is still 2 and differs from the
    persistent one.  The same happens to the temp-layer settings and to the
    two code mapping flags. *)
Theorem restore_persistent_misses_tunables :
  let restore := zmk_input_processor_runtime_restore_persistent Ref.math in
  let after c := restore (call_setters Ref.math true 100 1 [c] (Some Ref.dev) false) in
  (exists dv,
      after (SetActiveLayers 2) = Some dv
      /\ active_layers (current (data dv)) = 2
      /\ active_layers (persistent (data dv)) = 0)
  /\ (exists dv,
      after (SetTempLayer true 3 250 750) = Some dv
      /\ temp_layer_enabled (current (data dv)) = true
      /\ temp_layer_enabled (persistent (data dv)) = false
      /\ temp_layer_layer (current (data dv)) = 3
      /\ temp_layer_layer (persistent (data dv)) = 0
      /\ temp_layer_activation_delay_ms (current (data dv)) = 250
      /\ temp_layer_activation_delay_ms (persistent (data dv)) = 100
      /\ temp_layer_deactivation_delay_ms (current (data dv)) = 750
      /\ temp_layer_deactivation_delay_ms (persistent (data dv)) = 500)
  /\ (exists dv,
      after (SetXyToScrollEnabled true) = Some dv
      /\ xy_to_scroll_enabled (current (data dv)) = true
      /\ xy_to_scroll_enabled (persistent (data dv)) = false)
  /\ (exists dv,
      after (SetXySwapEnabled true) = Some dv
      /\ xy_swap_enabled (current (data dv)) = true
      /\ xy_swap_enabled (persistent (data dv)) = false).
Proof.
  repeat split; eexists; (split; [vm_compute; reflexivity |]); repeat split.
Qed.

(** * Further properties of the translation unit *)

(** ** Code lookup and the three gates *)

Lemma code_idx_from_spec (c : Z) (l : list Z) :
  forall i : Z,
    (~ In c l /\ code_idx_from i c l = - ENODEV)
    \/ (exists k : nat,
           code_idx_from i c l = i + Z.of_nat k
           /\ (k < List.length l)%nat
           /\ nth k l (c + 1) = c
           /\ forall j : nat, (j < k)%nat -> nth j l c <> c).
Proof.
  induction l as [| x l IH]; intros i.
  - left. split; [intros [] | reflexivity].
  - cbn [code_idx_from]. destruct (Z.eqb_spec x c) as [-> | Hne].
    + right. exists 0%nat. repeat split; [lia | cbn; lia |]. intros j Hj. lia.
    + destruct (IH (i + 1)) as [[Hnot E] | (k & E & Hk & Hn & Hfirst)].
      * left. split; [| exact E]. intros [H | H]; [congruence | auto].
      * right. exists (S k). repeat split; [lia | cbn; lia | exact Hn |].
        intros [| j] Hj; cbn [nth]; [congruence | apply Hfirst; lia].
Qed.

(** [code_idx] returns a non-negative value exactly for the codes of the
    list, and then the position of the first occurrence; for any other code
    it returns [-ENODEV]. *)
Theorem code_idx_first_occurrence (c : Z) (l : list Z) :
  (In c l ->
   exists k : nat,
     code_idx c l = Z.of_nat k
     /\ (k < List.length l)%nat
     /\ nth k l (c + 1) = c
     /\ forall j : nat, (j < k)%nat -> nth j l c <> c)
  /\ (~ In c l -> code_idx c l = - ENODEV)
  /\ (0 <= code_idx c l <-> In c l).
Proof.
  unfold code_idx.
  destruct (code_idx_from_spec c l 0) as [[Hnot E] | (k & E & Hk & Hn & Hfirst)].
  - split; [intros H; contradiction |]. split; [intros _; exact E |].
    rewrite E. unfold ENODEV. split; [lia | intros H; contradiction].
  - assert (Hin : In c l) by (rewrite <- Hn; apply nth_In; exact Hk).
    split; [| split].
    + intros _. exists k. rewrite E. repeat split; auto.
    + intros H. contradiction.
    + rewrite E. split; [intros _; exact Hin | lia].
Qed.

Section Gates.

Variable M : libm.
Variable K : keymap.
Variable B : behavior_registry.

Lemma layers_loop_spec (n : nat) :
  forall (m idx : Z),
    0 <= m ->
    layers_loop K n m idx = true
    <-> exists j : nat,
          (j < n)%nat
          /\ Z.testbit m (Z.of_nat j) = true
          /\ zmk_keymap_layer_index_to_id K (idx + Z.of_nat j) <> ZMK_KEYMAP_LAYER_ID_INVAL
          /\ zmk_keymap_layer_active K (zmk_keymap_layer_index_to_id K (idx + Z.of_nat j))
             = true.
Proof.
  induction n as [| n IH]; intros m idx Hm.
  - cbn. split; [discriminate | intros (j & Hj & _); lia].
  - cbn [layers_loop]. destruct (Z.eqb_spec m 0) as [-> | Hnz].
    + split; [discriminate |]. intros (j & _ & Hbit & _).
      rewrite Z.bits_0 in Hbit. discriminate.
    + rewrite <- Z.bit0_odd.
      destruct (Z.testbit m 0
                && negb (zmk_keymap_layer_index_to_id K idx =? ZMK_KEYMAP_LAYER_ID_INVAL)
                && zmk_keymap_layer_active K (zmk_keymap_layer_index_to_id K idx))
        eqn:Hhere.
      * split; [intros _ | reflexivity].
        apply andb_prop in Hhere. destruct Hhere as [Hhere Hact].
        apply andb_prop in Hhere. destruct Hhere as [Hbit Hval].
        exists 0%nat. rewrite Z.add_0_r. repeat split; [lia | exact Hbit | | exact Hact].
        apply negb_true_iff, Z.eqb_neq in Hval. exact Hval.
      * rewrite IH by (apply Z.shiftr_nonneg; exact Hm). split.
        -- intros (j & Hj & Hbit & Hval & Hact). exists (S j).
           rewrite Z.shiftr_spec in Hbit by lia.
           replace (idx + Z.of_nat (S j)) with (idx + 1 + Z.of_nat j) by lia.
           replace (Z.of_nat (S j)) with (Z.of_nat j + 1) by lia.
           repeat split; [lia | exact Hbit | exact Hval | exact Hact].
        -- intros ([| j] & Hj & Hbit & Hval & Hact).
           ++ exfalso. rewrite Z.add_0_r in Hval, Hact. change (Z.of_nat 0) with 0 in Hbit.
              rewrite Hbit, Hact in Hhere.
              apply Z.eqb_neq in Hval. rewrite Hval in Hhere. discriminate.
           ++ exists j. rewrite Z.shiftr_spec by lia.
              replace (idx + 1 + Z.of_nat j) with (idx + Z.of_nat (S j)) by lia.
              replace (Z.of_nat j + 1) with (Z.of_nat (S j)) by lia.
              repeat split; [lia | exact Hbit | exact Hval | exact Hact].
Qed.

(** The layer gate is open exactly when the mask is zero or some bit of
    the mask below [ZMK_KEYMAP_LAYERS_LEN] selects a layer index that maps
    to a valid layer id which is active; bits at or above the number of
    layers and indices without a layer are ignored. *)
Theorem layer_gate_open_iff (mask : Z) :
  0 <= mask ->
  is_processor_active_for_current_layers K mask = true
  <-> mask = 0
      \/ exists i : nat,
           (i < ZMK_KEYMAP_LAYERS_LEN K)%nat
           /\ Z.testbit mask (Z.of_nat i) = true
           /\ zmk_keymap_layer_index_to_id K (Z.of_nat i) <> ZMK_KEYMAP_LAYER_ID_INVAL
           /\ zmk_keymap_layer_active K (zmk_keymap_layer_index_to_id K (Z.of_nat i))
              = true.
Proof.
  intros Hm. unfold is_processor_active_for_current_layers.
  destruct (Z.eqb_spec mask 0) as [-> | Hnz].
  - split; [left; reflexivity | reflexivity].
  - rewrite layers_loop_spec by exact Hm. cbn [Z.add]. split.
    + intros H. right. exact H.
    + intros [H | H]; [contradiction | exact H].
Qed.

(** An event of another type, an event whose code is in neither code
    list, and an event arriving while the layer gate is closed all leave
    the handler as they came: status [ZMK_INPUT_PROC_CONTINUE], the data,
    the event and the remainder unchanged, and no call made. *)
Theorem handler_passes_foreign_events_through
    (dev : device) (event : input_event) (remainder : option Z) (now : Z) :
  ev_type event <> type (config dev)
  \/ (~ In (code event) (x_codes (config dev)) /\ ~ In (code event) (y_codes (config dev)))
  \/ is_processor_active_for_current_layers K (active_layers (current (data dev))) = false ->
  runtime_processor_handle_event M K B dev event remainder now
  = Build_handled ZMK_INPUT_PROC_CONTINUE (data dev) event remainder [].
Proof.
  intros H. unfold runtime_processor_handle_event.
  destruct (Z.eqb_spec (ev_type event) (type (config dev))) as [Ht | Ht]; [| reflexivity].
  cbn [negb].
  destruct ((code_idx (code event) (x_codes (config dev)) <? 0)
            && (code_idx (code event) (y_codes (config dev)) <? 0)) eqn:Hcodes;
    [reflexivity |].
  destruct H as [H | [[Hx Hy] | H]].
  - contradiction.
  - exfalso.
    apply (proj1 (proj2 (code_idx_first_occurrence _ _))) in Hx.
    apply (proj1 (proj2 (code_idx_first_occurrence _ _))) in Hy.
    rewrite Hx, Hy in Hcodes. discriminate.
  - rewrite H. reflexivity.
Qed.

End Gates.

(** A wheel event on the reference device, whose codes are X and Y only. *)
Lemma handler_passes_foreign_events_through_witness :
  runtime_processor_handle_event Ref.math Ref.layers Ref.registry Ref.dev
    {| ev_type := 2; code := INPUT_REL_WHEEL; value := 3 |} (Some 1) 1000
  = Build_handled ZMK_INPUT_PROC_CONTINUE Ref.init_data
      {| ev_type := 2; code := INPUT_REL_WHEEL; value := 3 |} (Some 1) [].
Proof.
  apply (@handler_passes_foreign_events_through Ref.math Ref.layers Ref.registry Ref.dev).
  right. left. split; cbn; intros [H | []]; discriminate.
Defined.

(** The mask 5 on the reference keymap, where only layer 0 is active. *)
Lemma layer_gate_open_iff_witness :
  is_processor_active_for_current_layers Ref.layers 5 = true
  <-> 5 = 0
      \/ exists i : nat,
           (i < 4)%nat
           /\ Z.testbit 5 (Z.of_nat i) = true
           /\ Z.of_nat i <> ZMK_KEYMAP_LAYER_ID_INVAL
           /\ (Z.of_nat i =? 0) = true.
Proof.
  apply (@layer_gate_open_iff Ref.layers 5). lia.
Defined.

(** ** What the handler leaves alone *)

Lemma same_settings_refl (d : runtime_processor_data) : same_settings d d.
Proof. repeat split. Qed.

Lemma same_settings_trans (d1 d2 d3 : runtime_processor_data) :
  same_settings d1 d2 -> same_settings d2 d3 -> same_settings d1 d3.
Proof.
  unfold same_settings. intros (A1 & A2 & A3 & A4 & A5 & A6 & A7)
    (B1 & B2 & B3 & B4 & B5 & B6 & B7).
  repeat split; congruence.
Qed.

Ltac split_ifs :=
  repeat match goal with
         | |- context [if ?b then _ else _] => destruct b
         end.

Section HandlerFrame.

Variable M : libm.
Variable K : keymap.
Variable B : behavior_registry.

Lemma process_keybind_same_settings (dev : device) (is_x : bool) (val now : Z) :
  same_settings (data dev) (snd (fst (process_keybind M K B dev is_x val now))).
Proof.
  unfold process_keybind, same_settings.
  destruct (negb (keybind_enabled (current (data dev)))
            || (keybind_behavior_count (current (data dev)) =? 0)
            || (keybind_behaviors_len (config dev) =? 0)); [repeat split |].
  destruct is_x; fields;
    match goal with |- context [if ?c <? ?t then _ else _] => destruct (c <? t) end;
    repeat split.
Qed.

Lemma temp_layer_activation_same_settings (d : runtime_processor_data) (e : input_event)
    (now : Z) :
  same_settings d (fst (temp_layer_activation d e now)).
Proof. unfold temp_layer_activation, same_settings. split_ifs; repeat split. Qed.

Lemma apply_rotation_same_settings (d : runtime_processor_data) (is_x : bool) (val : Z)
    (e : input_event) :
  same_settings d (fst (apply_rotation d is_x val e)).
Proof.
  unfold apply_rotation, same_settings.
  destruct (negb (rotation_degrees (current d) =? 0)); [| repeat split].
  destruct is_x; fields; split_ifs; repeat split.
Qed.

Lemma axis_snap_decay_same_settings (d : runtime_processor_data) (now : Z) :
  same_settings d (axis_snap_decay d now).
Proof.
  unfold axis_snap_decay, same_settings.
  destruct ((0 <? axis_snap_timeout_ms (current d))
            && (0 <? axis_snap_last_decay_timestamp d)); [| repeat split].
  destruct (0 <? int64_t (now - axis_snap_last_decay_timestamp d)); [| repeat split].
  destruct (0 <? Z.quot (int64_t (now - axis_snap_last_decay_timestamp d)) 50);
    [| repeat split].
  destruct (0 <? axis_snap_cross_axis_accum d); fields.
  - match goal with |- context [if ?b then _ else _] => destruct b end; repeat split.
  - destruct (axis_snap_cross_axis_accum d <? 0); fields;
      [match goal with |- context [if ?b then _ else _] => destruct b end |];
      repeat split.
Qed.

Lemma axis_snap_cross_same_settings (d : runtime_processor_data) (val : Z)
    (e : input_event) (now : Z) :
  same_settings d (fst (axis_snap_cross d val e now)).
Proof.
  unfold axis_snap_cross, same_settings.
  match goal with |- context [if ?t <=? ?a then set_axis_snap_cross_axis_accum _ _ else _] =>
    destruct (t <=? a) end; fields;
    match goal with |- context [if ?t <=? ?a then _ else _] => destruct (t <=? a) end;
    [match goal with |- context [if ?t <? ?a then _ else _] => destruct (t <? a) end | |
     match goal with |- context [if ?t <? ?a then _ else _] => destruct (t <? a) end |];
    repeat split.
Qed.

Lemma apply_axis_snap_same_settings (d : runtime_processor_data) (is_x : bool) (val : Z)
    (e : input_event) (now : Z) :
  same_settings d (fst (apply_axis_snap d is_x val e now)).
Proof.
  unfold apply_axis_snap.
  destruct (negb (axis_snap_mode (current d) =? ZMK_INPUT_PROCESSOR_AXIS_SNAP_MODE_NONE)
            && negb (value e =? 0)); [| apply same_settings_refl].
  match goal with |- context [if negb ?b then _ else _] => destruct b end; cbn [negb fst].
  - apply axis_snap_decay_same_settings.
  - eapply same_settings_trans; [apply axis_snap_decay_same_settings |].
    apply axis_snap_cross_same_settings.
Qed.

(** The handler's own writes: the rotation carry, the accumulators and
    the input and decay timestamps.  This is a statement about the code of
    the handler; what a behaviour does when the handler invokes it is not
    part of the model. *)
Lemma handle_event_same_settings
    (dev : device) (event : input_event) (remainder : option Z) (now : Z) :
  same_settings (data dev)
    (data_out (runtime_processor_handle_event M K B dev event remainder now)).
Proof.
  unfold runtime_processor_handle_event.
  destruct (negb (ev_type event =? type (config dev))); [apply same_settings_refl |].
  destruct ((code_idx (code event) (x_codes (config dev)) <? 0)
            && (code_idx (code event) (y_codes (config dev)) <? 0));
    [apply same_settings_refl |].
  destruct (negb (is_processor_active_for_current_layers K
                    (active_layers (current (data dev))))); [apply same_settings_refl |].
  set (is_x := 0 <=? code_idx (code event) (x_codes (config dev))).
  set (val := int16_t (value event)).
  pose proof (process_keybind_same_settings dev is_x val now) as Hk.
  destruct (process_keybind M K B dev is_x val now) as [[consumed d1] tr].
  cbn [fst snd] in Hk. destruct consumed; [exact Hk |].
  set (e1 := code_mapping d1 is_x event).
  pose proof (temp_layer_activation_same_settings d1 e1 now) as Ha.
  destruct (temp_layer_activation d1 e1 now) as [d2 tr2]. cbn [fst] in Ha.
  pose proof (apply_rotation_same_settings d2 is_x val e1) as Hr.
  destruct (apply_rotation d2 is_x val e1) as [d3 e3]. cbn [fst] in Hr.
  set (e4 := apply_invert d3 is_x e3).
  pose proof (apply_axis_snap_same_settings d3 is_x (int16_t (value e4)) e4 now) as Hs.
  destruct (apply_axis_snap d3 is_x (int16_t (value e4)) e4 now) as [d5 e5].
  cbn [fst] in Hs.
  destruct (apply_scaling d5 e5 remainder) as [e6 r6]. cbn [data_out].
  eapply same_settings_trans; [exact Hk |].
  eapply same_settings_trans; [exact Ha |].
  eapply same_settings_trans; [exact Hr | exact Hs].
Qed.

(** A call of the handler that invokes no behaviour, on settings that keep
    its divisions defined, never changes a tunable, current or persistent,
    nor the precomputed cosine and sine, the temp-layer flags or the time
    of the last key press: only the rotation carry, the accumulators and
    the input and decay timestamps can differ afterwards.  (A behaviour the
    handler invokes runs inside the call and may write any of these itself;
    settings with a division by zero make the source trap.) *)
Theorem handler_keeps_settings
    (dev : device) (event : input_event) (remainder : option Z) (now : Z) :
  divisions_defined (current (data dev)) ->
  invokes_no_behavior (trace (runtime_processor_handle_event M K B dev event remainder now)) ->
  same_settings (data dev)
    (data_out (runtime_processor_handle_event M K B dev event remainder now)).
Proof. intros _ _. apply handle_event_same_settings. Qed.

End HandlerFrame.

(** The reference device with snapping to X and a scale of 3/2, on the
    event (Y,10). *)
Lemma handler_keeps_settings_witness :
  let dev := Ref.dev_with (fun t => set_axis_snap_mode ZMK_INPUT_PROCESSOR_AXIS_SNAP_MODE_X
                                      (set_scale_divisor 2 (set_scale_multiplier 3 t))) in
  same_settings (data dev)
    (data_out (runtime_processor_handle_event Ref.math Ref.layers Ref.registry dev
                 (Ref.rel_y 10) (Some 0) 1000)).
Proof.
  apply (@handler_keeps_settings Ref.math Ref.layers Ref.registry
           (Ref.dev_with (fun t => set_axis_snap_mode ZMK_INPUT_PROCESSOR_AXIS_SNAP_MODE_X
                                     (set_scale_divisor 2 (set_scale_multiplier 3 t))))
           (Ref.rel_y 10) (Some 0) 1000).
  - split; [right | right; right]; vm_compute; discriminate.
  - intros behavior_dev layer position timestamp pressed H. vm_compute in H. exact H.
Defined.

(** ** The keybind dispatcher *)

Lemma uint8_t_range (z : Z) : 0 <= uint8_t z < 256.
Proof. unfold uint8_t, cast_unsigned. change (2 ^ 8) with 256. apply Z.mod_pos_bound. lia. Qed.

Lemma uint8_t_small (z : Z) : 0 <= z < 256 -> uint8_t z = z.
Proof. intros H. unfold uint8_t, cast_unsigned. change (2 ^ 8) with 256. apply Z.mod_small, H. Qed.

Section KeybindBounds.

Variable M : libm.
Variable K : keymap.
Variable B : behavior_registry.

(** Whatever [atan2] returns, the index chosen lies below the behaviour
    count. *)
Lemma keybind_behavior_idx_range (x y degree_offset behavior_count : Z) :
  1 <= behavior_count <= 255 ->
  0 <= keybind_behavior_idx M x y degree_offset behavior_count < behavior_count.
Proof.
  intros Hb. unfold keybind_behavior_idx.
  destruct (behavior_count =? 1); [lia |].
  match goal with |- context [Z.rem (uint8_t ?f) _] =>
    pose proof (uint8_t_range f) as Hf;
    pose proof (Z.rem_bound_pos (uint8_t f) behavior_count ltac:(lia) ltac:(lia)) as Hr
  end.
  rewrite uint8_t_small by lia. exact Hr.
Qed.

(** What [trigger_keybind_behavior] invokes for an index below [bound]:
    nothing, or the behaviour configured at the index, which the registry
    knows, pressed and then released, the release left out when the press
    is refused. *)
Lemma trigger_keybind_behavior_shape (cfg : runtime_processor_config)
    (behavior_idx now bound : Z) :
  0 <= behavior_idx < bound ->
  let tr := snd (trigger_keybind_behavior K B cfg behavior_idx now) in
  tr = []
  \/ exists (behavior_name : string) (i : Z),
       0 <= i < bound
       /\ nth (Z.to_nat i) (keybind_behaviors cfg) None = Some behavior_name
       /\ zmk_behavior_get_binding B behavior_name = true
       /\ (tr = press_and_release K behavior_name now
           \/ invoke_status B behavior_name true < 0
              /\ tr = [zmk_behavior_invoke_binding behavior_name
                         (zmk_keymap_highest_layer_active K) 0 now true]).
Proof.
  intros Hi. cbv zeta. unfold trigger_keybind_behavior.
  destruct (keybind_behaviors_len cfg <=? behavior_idx); [left; reflexivity |].
  destruct (nth (Z.to_nat behavior_idx) (keybind_behaviors cfg) None) as [nm |] eqn:Hn;
    [| left; reflexivity].
  destruct (zmk_behavior_get_binding B nm) eqn:Hb; cbn [negb]; [| left; reflexivity].
  right. exists nm, behavior_idx.
  refine (conj Hi (conj Hn (conj Hb _))).
  destruct (Z.ltb_spec (invoke_status B nm true) 0); cbn [snd];
    [right; split; [assumption | reflexivity] | left; reflexivity].
Qed.

(** The calls of [process_keybind], with the accumulators as the event
    leaves them and the behaviour count as clamped. *)
Lemma process_keybind_trace (dev : device) (is_x : bool) (val now : Z) :
  0 <= keybind_behavior_count (current (data dev)) <= 255 ->
  let x := if is_x then int32_t (keybind_x_accum (data dev) + val)
           else keybind_x_accum (data dev) in
  let y := if is_x then keybind_y_accum (data dev)
           else int32_t (keybind_y_accum (data dev) + val) in
  let tick := keybind_tick (current (data dev)) in
  snd (process_keybind M K B dev is_x val now)
  = if negb (keybind_enabled (current (data dev)))
       || (keybind_behavior_count (current (data dev)) =? 0)
       || (keybind_behaviors_len (config dev) =? 0)
    then []
    else if int32_t (int32_t (x * x) + int32_t (y * y)) <? int32_t (tick * tick) then []
    else snd (trigger_keybind_behavior K B (config dev)
                (keybind_behavior_idx M x y (keybind_degree_offset (current (data dev)))
                   (effective_behavior_count dev)) now).
Proof.
  intros Hcount. cbv zeta. unfold process_keybind, effective_behavior_count.
  destruct (negb (keybind_enabled (current (data dev)))); [reflexivity |].
  destruct (Z.eqb_spec (keybind_behavior_count (current (data dev))) 0); [reflexivity |].
  destruct (Z.eqb_spec (keybind_behaviors_len (config dev)) 0); [reflexivity |].
  cbn [orb].
  assert (Hlen : 0 <= keybind_behaviors_len (config dev))
    by (unfold keybind_behaviors_len; lia).
  set (bc1 := if keybind_behaviors_len (config dev)
                 <? keybind_behavior_count (current (data dev))
              then uint8_t (keybind_behaviors_len (config dev))
              else keybind_behavior_count (current (data dev))).
  assert (Hbc1 : bc1 = Z.min (keybind_behavior_count (current (data dev)))
                         (keybind_behaviors_len (config dev))).
  { subst bc1.
    destruct (Z.ltb_spec (keybind_behaviors_len (config dev))
                (keybind_behavior_count (current (data dev)))).
    - rewrite uint8_t_small by lia. lia.
    - lia. }
  set (bc := if MAX_KEYBIND_BEHAVIORS <? bc1 then MAX_KEYBIND_BEHAVIORS else bc1).
  assert (Hbc : bc = Z.min (keybind_behavior_count (current (data dev)))
                       (Z.min (keybind_behaviors_len (config dev)) MAX_KEYBIND_BEHAVIORS)).
  { subst bc. unfold MAX_KEYBIND_BEHAVIORS in *.
    destruct (Z.ltb_spec 8 bc1); lia. }
  rewrite <- Hbc. clearbody bc. clear Hbc Hbc1 bc1.
  destruct is_x; fields;
    match goal with |- context [if ?c <? ?t then _ else _] => destruct (c <? t) end;
    reflexivity.
Qed.

(** Whatever [atan2] returns, [process_keybind] invokes nothing, or
    presses and then releases one behaviour, which is configured at an
    index below the effective count (the smallest of the configured count,
    the number of behaviours and 8) and known to the registry; the release
    is left out only when the press is refused.  And it does invoke: when
    keybind is enabled, the behaviours in use are ready and the movement
    accumulated with the event reaches the tick, one of them is pressed and
    released. *)
Theorem keybind_invokes_only_behaviors_in_use (dev : device) (is_x : bool) (val now : Z) :
  0 <= keybind_behavior_count (current (data dev)) <= 255 ->
  let tr := snd (process_keybind M K B dev is_x val now) in
  let x := if is_x then int32_t (keybind_x_accum (data dev) + val)
           else keybind_x_accum (data dev) in
  let y := if is_x then keybind_y_accum (data dev)
           else int32_t (keybind_y_accum (data dev) + val) in
  let tick := keybind_tick (current (data dev)) in
  (tr = []
   \/ exists (behavior_name : string) (i : Z),
        0 <= i < effective_behavior_count dev
        /\ nth (Z.to_nat i) (keybind_behaviors (config dev)) None = Some behavior_name
        /\ zmk_behavior_get_binding B behavior_name = true
        /\ (tr = press_and_release K behavior_name now
            \/ invoke_status B behavior_name true < 0
               /\ tr = [zmk_behavior_invoke_binding behavior_name
                          (zmk_keymap_highest_layer_active K) 0 now true]))
  /\ (keybind_enabled (current (data dev)) = true ->
      0 < effective_behavior_count dev ->
      behaviors_ready B (config dev) (effective_behavior_count dev) ->
      -32767 <= x <= 32767 -> -32767 <= y <= 32767 -> 0 <= tick <= 32767 ->
      tick * tick <= x * x + y * y ->
      exists (behavior_name : string) (i : Z),
        0 <= i < effective_behavior_count dev
        /\ nth (Z.to_nat i) (keybind_behaviors (config dev)) None = Some behavior_name
        /\ zmk_behavior_get_binding B behavior_name = true
        /\ tr = press_and_release K behavior_name now).
Proof.
  intros Hcount tr x y tick. subst tr.
  rewrite (process_keybind_trace dev is_x val now Hcount). fold x y tick.
  assert (Hlen : 0 <= keybind_behaviors_len (config dev))
    by (unfold keybind_behaviors_len; lia).
  assert (Hidx : 0 < effective_behavior_count dev ->
                 0 <= keybind_behavior_idx M x y (keybind_degree_offset (current (data dev)))
                        (effective_behavior_count dev)
                 < effective_behavior_count dev).
  { intros Hpos. apply keybind_behavior_idx_range.
    unfold effective_behavior_count, MAX_KEYBIND_BEHAVIORS in *. lia. }
  split.
  - destruct (negb (keybind_enabled (current (data dev)))); [left; reflexivity |].
    destruct (Z.eqb_spec (keybind_behavior_count (current (data dev))) 0);
      [left; reflexivity |].
    destruct (Z.eqb_spec (keybind_behaviors_len (config dev)) 0); [left; reflexivity |].
    cbn [orb].
    destruct (int32_t (int32_t (x * x) + int32_t (y * y)) <? int32_t (tick * tick));
      [left; reflexivity |].
    apply trigger_keybind_behavior_shape. apply Hidx.
    unfold effective_behavior_count, MAX_KEYBIND_BEHAVIORS. lia.
  - intros Hen Hpos Hready Rx Ry Rt Hsq. rewrite Hen. cbn [negb orb].
    destruct (Z.eqb_spec (keybind_behavior_count (current (data dev))) 0);
      [unfold effective_behavior_count in Hpos; lia |].
    destruct (Z.eqb_spec (keybind_behaviors_len (config dev)) 0);
      [unfold effective_behavior_count in Hpos; lia |].
    cbn [orb].
    rewrite (int32_t_small (z := x * x)) by (unfold in_int32; nia).
    rewrite (int32_t_small (z := y * y)) by (unfold in_int32; nia).
    rewrite (int32_t_small (z := x * x + y * y)) by (unfold in_int32; nia).
    rewrite (int32_t_small (z := tick * tick)) by (unfold in_int32; nia).
    destruct (Z.ltb_spec (x * x + y * y) (tick * tick)); [lia |].
    destruct (@trigger_keybind_behavior_ready K B (config dev) (effective_behavior_count dev)
                (keybind_behavior_idx M x y (keybind_degree_offset (current (data dev)))
                   (effective_behavior_count dev)) now Hready (Hidx Hpos))
      as (nm & Hnth & Hbound & Htrig).
    exists nm. eexists. refine (conj (Hidx Hpos) (conj Hnth (conj Hbound _))).
    rewrite Htrig. reflexivity.
Qed.

(** With keybind enabled, a tick between 1 and 10000 and an event value
    of 16 bits, the accumulated movement is below the tick after every
    call that finds it below the tick: either the event kept it there, or
    a direction fired and both accumulators are zero again.  (The bound on
    the tick keeps the 32-bit squares from wrapping.) *)
Theorem keybind_accumulators_stay_below_tick (dev : device) (is_x : bool) (val now : Z) :
  keybind_enabled (current (data dev)) = true ->
  0 < keybind_behavior_count (current (data dev)) ->
  keybind_behaviors (config dev) <> [] ->
  0 < keybind_tick (current (data dev)) <= 10000 ->
  in_int16 val ->
  keybind_x_accum (data dev) * keybind_x_accum (data dev)
  + keybind_y_accum (data dev) * keybind_y_accum (data dev)
  < keybind_tick (current (data dev)) * keybind_tick (current (data dev)) ->
  let d' := snd (fst (process_keybind M K B dev is_x val now)) in
  keybind_x_accum d' * keybind_x_accum d' + keybind_y_accum d' * keybind_y_accum d'
  < keybind_tick (current d') * keybind_tick (current d').
Proof.
  intros Hen Hcount Hlist Htick Hval Hpre.
  unfold process_keybind. rewrite Hen.
  replace (keybind_behavior_count (current (data dev)) =? 0) with false
    by (symmetry; apply Z.eqb_neq; lia).
  replace (keybind_behaviors_len (config dev) =? 0) with false
    by (symmetry; apply Z.eqb_neq; unfold keybind_behaviors_len;
        destruct (keybind_behaviors (config dev)); [congruence | cbn [List.length]; lia]).
  cbn [negb orb].
  set (t := keybind_tick (current (data dev))) in *.
  set (x := keybind_x_accum (data dev)) in *.
  set (y := keybind_y_accum (data dev)) in *.
  assert (Hx : -10000 < x < 10000) by nia.
  assert (Hy : -10000 < y < 10000) by nia.
  unfold in_int16 in Hval.
  destruct is_x; fields; fold t; fold x; fold y.
  - rewrite (int32_t_small (z := x + val)) by (unfold in_int32; lia).
    rewrite (int32_t_small (z := (x + val) * (x + val))) by (unfold in_int32; nia).
    rewrite (int32_t_small (z := y * y)) by (unfold in_int32; nia).
    rewrite (int32_t_small (z := (x + val) * (x + val) + y * y)) by (unfold in_int32; nia).
    rewrite (int32_t_small (z := t * t)) by (unfold in_int32; nia).
    destruct (Z.ltb_spec ((x + val) * (x + val) + y * y) (t * t)); fields; fold t; nia.
  - rewrite (int32_t_small (z := y + val)) by (unfold in_int32; lia).
    rewrite (int32_t_small (z := (y + val) * (y + val))) by (unfold in_int32; nia).
    rewrite (int32_t_small (z := x * x)) by (unfold in_int32; nia).
    rewrite (int32_t_small (z := x * x + (y + val) * (y + val))) by (unfold in_int32; nia).
    rewrite (int32_t_small (z := t * t)) by (unfold in_int32; nia).
    destruct (Z.ltb_spec (x * x + (y + val) * (y + val)) (t * t)); fields; fold t; nia.
Qed.

End KeybindBounds.

(** The reference device with keybind switched on and the event (X,10),
    which reaches the tick. *)
Lemma keybind_invokes_only_behaviors_in_use_witness :
  let dev := Ref.dev_with (set_keybind_enabled true) in
  let tr := snd (process_keybind Ref.math Ref.layers Ref.registry dev true 10 1000) in
  let x := int32_t (keybind_x_accum (data dev) + 10) in
  let y := keybind_y_accum (data dev) in
  let tick := keybind_tick (current (data dev)) in
  (tr = []
   \/ exists (behavior_name : string) (i : Z),
        0 <= i < effective_behavior_count dev
        /\ nth (Z.to_nat i) (keybind_behaviors (config dev)) None = Some behavior_name
        /\ zmk_behavior_get_binding Ref.registry behavior_name = true
        /\ (tr = press_and_release Ref.layers behavior_name 1000
            \/ invoke_status Ref.registry behavior_name true < 0
               /\ tr = [zmk_behavior_invoke_binding behavior_name
                          (zmk_keymap_highest_layer_active Ref.layers) 0 1000 true]))
  /\ (keybind_enabled (current (data dev)) = true ->
      0 < effective_behavior_count dev ->
      behaviors_ready Ref.registry (config dev) (effective_behavior_count dev) ->
      -32767 <= x <= 32767 -> -32767 <= y <= 32767 -> 0 <= tick <= 32767 ->
      tick * tick <= x * x + y * y ->
      exists (behavior_name : string) (i : Z),
        0 <= i < effective_behavior_count dev
        /\ nth (Z.to_nat i) (keybind_behaviors (config dev)) None = Some behavior_name
        /\ zmk_behavior_get_binding Ref.registry behavior_name = true
        /\ tr = press_and_release Ref.layers behavior_name 1000).
Proof.
  apply (@keybind_invokes_only_behaviors_in_use Ref.math Ref.layers Ref.registry
           (Ref.dev_with (set_keybind_enabled true)) true 10 1000).
  vm_compute. split; discriminate.
Defined.

(** The reference device with keybind switched on, at rest, and the event
    (X,3). *)
Lemma keybind_accumulators_stay_below_tick_witness :
  let dev := Ref.dev_with (set_keybind_enabled true) in
  let d' := snd (fst (process_keybind Ref.math Ref.layers Ref.registry dev true 3 1000)) in
  keybind_x_accum d' * keybind_x_accum d' + keybind_y_accum d' * keybind_y_accum d'
  < keybind_tick (current d') * keybind_tick (current d').
Proof.
  apply (@keybind_accumulators_stay_below_tick Ref.math Ref.layers Ref.registry
           (Ref.dev_with (set_keybind_enabled true)) true 3 1000);
    try reflexivity; try (vm_compute; first [reflexivity | discriminate]);
    vm_compute; split; first [reflexivity | discriminate].
Defined.

(** ** Inversion, snapping and scaling *)

Lemma int32_t_neg_neg (v : Z) : in_int32 v -> int32_t (- int32_t (- v)) = v.
Proof.
  unfold in_int32. intros Hv.
  destruct (Z.eq_dec v (-2147483648)) as [-> | Hne]; [vm_compute; reflexivity |].
  rewrite (int32_t_small (z := - v)) by (unfold in_int32; lia).
  rewrite Z.opp_involutive. apply int32_t_small. unfold in_int32. lia.
Qed.

(** Inverting twice gives the event back: the inversion block is its own
    inverse on every 32-bit value, the most negative one included, which
    negation leaves where it is. *)
Theorem apply_invert_involutive (d : runtime_processor_data) (is_x : bool)
    (e : input_event) :
  in_int32 (value e) ->
  apply_invert d is_x (apply_invert d is_x e) = e.
Proof.
  intros Hv. unfold apply_invert.
  destruct ((is_x && x_invert (current d)) || (negb is_x && y_invert (current d))).
  - destruct e as [t c v]. cbn in *. rewrite int32_t_neg_neg by exact Hv. reflexivity.
  - reflexivity.
Qed.

Lemma apply_invert_involutive_witness :
  let d := upd_current (set_x_invert true) Ref.init_data in
  apply_invert d true (apply_invert d true (Ref.rel_x (-2147483648)))
  = Ref.rel_x (-2147483648).
Proof.
  apply (@apply_invert_involutive (upd_current (set_x_invert true) Ref.init_data) true
           (Ref.rel_x (-2147483648))).
  vm_compute. split; discriminate.
Defined.

(** With the snap timeout off or at least one decay period of 50 ms (so
    that the decay divides by no zero), the axis snap block never alters a
    value other than by zeroing it, and it never touches an event on the
    axis snapped to. *)
Theorem axis_snap_only_suppresses (d : runtime_processor_data) (is_x : bool) (val : Z)
    (e : input_event) (now : Z) :
  axis_snap_timeout_ms (current d) <= 0 \/ 50 <= axis_snap_timeout_ms (current d) ->
  let r := apply_axis_snap d is_x val e now in
  (snd r = e \/ snd r = set_value 0 e)
  /\ (axis_snap_mode (current d) = ZMK_INPUT_PROCESSOR_AXIS_SNAP_MODE_X /\ is_x = true
      \/ axis_snap_mode (current d) = ZMK_INPUT_PROCESSOR_AXIS_SNAP_MODE_Y /\ is_x = false ->
      snd r = e).
Proof.
  intros _. unfold apply_axis_snap.
  destruct (negb (axis_snap_mode (current d) =? ZMK_INPUT_PROCESSOR_AXIS_SNAP_MODE_NONE)
            && negb (value e =? 0)).
  - split.
    + match goal with |- context [if negb ?b then _ else _] => destruct b end;
        cbn [negb snd]; [left; reflexivity |].
      unfold axis_snap_cross. split_ifs; cbn [snd]; auto.
    + intros [[Hm Hx] | [Hm Hx]]; rewrite Hm, Hx; reflexivity.
  - split; [left; reflexivity | intros _; reflexivity].
Qed.

(** Snapping to X with the reference threshold and timeout, on the event
    (Y,10) at rest. *)
Lemma axis_snap_only_suppresses_witness :
  let d := upd_current (set_axis_snap_mode ZMK_INPUT_PROCESSOR_AXIS_SNAP_MODE_X)
             Ref.init_data in
  let r := apply_axis_snap d false 10 (Ref.rel_y 10) 1000 in
  (snd r = Ref.rel_y 10 \/ snd r = set_value 0 (Ref.rel_y 10))
  /\ (axis_snap_mode (current d) = ZMK_INPUT_PROCESSOR_AXIS_SNAP_MODE_X /\ false = true
      \/ axis_snap_mode (current d) = ZMK_INPUT_PROCESSOR_AXIS_SNAP_MODE_Y /\ false = false ->
      snd r = Ref.rel_y 10).
Proof.
  apply (@axis_snap_only_suppresses
           (upd_current (set_axis_snap_mode ZMK_INPUT_PROCESSOR_AXIS_SNAP_MODE_X)
              Ref.init_data) false 10 (Ref.rel_y 10) 1000).
  right. vm_compute. discriminate.
Defined.

(** The decay moves the accumulator towards zero and never past it, as
    long as the timeout is at least one 50 ms period (the divisor of the
    decay rate is then not zero) and the total decay, the decay per 50 ms
    (at least 1) times the number of periods elapsed, fits 16 bits. *)
Theorem axis_snap_decay_towards_zero (d : runtime_processor_data) (now : Z) :
  in_int16 (axis_snap_cross_axis_accum d) ->
  0 <= axis_snap_threshold (current d) ->
  50 <= axis_snap_timeout_ms (current d) ->
  0 <= axis_snap_last_decay_timestamp d < 2 ^ 62 ->
  0 <= now < 2 ^ 62 ->
  Z.max 1 (Z.quot (axis_snap_threshold (current d))
             (Z.quot (axis_snap_timeout_ms (current d)) 50))
  * Z.quot (now - axis_snap_last_decay_timestamp d) 50 <= 32767 ->
  let a := axis_snap_cross_axis_accum d in
  let a' := axis_snap_cross_axis_accum (axis_snap_decay d now) in
  (0 <= a -> 0 <= a' <= a) /\ (a <= 0 -> a <= a' <= 0).
Proof.
  intros Ha Hth Hto HL Hnow Hfit a a'. subst a a'. unfold axis_snap_decay.
  destruct ((0 <? axis_snap_timeout_ms (current d))
            && (0 <? axis_snap_last_decay_timestamp d)); [| lia].
  rewrite int64_t_small by (change (2 ^ 62) with 4611686018427387904 in *; lia).
  set (elapsed := now - axis_snap_last_decay_timestamp d) in *.
  destruct (0 <? elapsed); [| lia].
  set (periods := Z.quot elapsed 50) in *.
  destruct (Z.ltb_spec 0 periods) as [Hp | Hp]; [| lia].
  set (q := Z.quot (axis_snap_threshold (current d))
              (Z.quot (axis_snap_timeout_ms (current d)) 50)) in *.
  assert (Hq : 0 <= q).
  { subst q. apply Z.quot_pos; [exact Hth |].
    apply Z.quot_str_pos. lia. }
  assert (Hq' : q <= 32767) by nia.
  rewrite (int16_t_small (z := q)) by (unfold in_int16; lia).
  set (per := if q <? 1 then 1 else q).
  assert (Hper : per = Z.max 1 q) by (subst per; destruct (Z.ltb_spec q 1); lia).
  rewrite <- Hper in Hfit.
  assert (Hper1 : 1 <= per) by lia.
  assert (Htot : 1 <= per * periods <= 32767) by nia.
  rewrite (int64_t_small (z := per * periods)) by lia.
  rewrite (int16_t_small (z := per * periods)) by (unfold in_int16; lia).
  unfold in_int16 in Ha.
  set (a := axis_snap_cross_axis_accum d) in *.
  destruct (Z.ltb_spec 0 a) as [Hpos | Hnpos]; fields.
  - rewrite (int16_t_small (z := a - per * periods)) by (unfold in_int16; lia).
    destruct (Z.ltb_spec (a - per * periods) 0); fields; lia.
  - destruct (Z.ltb_spec a 0) as [Hneg | Hz]; fields; fold a; [| lia].
    rewrite (int16_t_small (z := a + per * periods)) by (unfold in_int16; lia).
    destruct (Z.ltb_spec 0 (a + per * periods)); fields; lia.
Qed.

Lemma axis_snap_decay_towards_zero_witness :
  let d := set_axis_snap_last_decay_timestamp 1000
             (set_axis_snap_cross_axis_accum 150 Ref.init_data) in
  let a' := axis_snap_cross_axis_accum (axis_snap_decay d 1500) in
  (0 <= 150 -> 0 <= a' <= 150) /\ (150 <= 0 -> 150 <= a' <= 0).
Proof.
  apply (@axis_snap_decay_towards_zero
           (set_axis_snap_last_decay_timestamp 1000
              (set_axis_snap_cross_axis_accum 150 Ref.init_data)) 1500);
    vm_compute; repeat split; first [reflexivity | discriminate].
Defined.

(** After a cross-axis event the accumulator is within twice the
    threshold, whatever it was before, and the event is zeroed exactly
    while the accumulator is below the threshold.  The threshold is at most
    16383 and the accumulator and the value together stay within 16
    bits. *)
Theorem axis_snap_cross_capped (d : runtime_processor_data) (val : Z) (e : input_event)
    (now : Z) :
  0 <= axis_snap_threshold (current d) <= 16383 ->
  Z.abs (axis_snap_cross_axis_accum d) + Z.abs val <= 32767 ->
  let r := axis_snap_cross d val e now in
  let a' := axis_snap_cross_axis_accum (fst r) in
  Z.abs a' <= 2 * axis_snap_threshold (current d)
  /\ (Z.abs a' < axis_snap_threshold (current d) -> snd r = set_value 0 e)
  /\ (axis_snap_threshold (current d) <= Z.abs a' -> snd r = e).
Proof.
  intros Hth Hfit. unfold axis_snap_cross.
  set (t := axis_snap_threshold (current d)) in *.
  set (a := axis_snap_cross_axis_accum d) in *.
  assert (Habs : int16_t (if a <? 0 then - a else a) = Z.abs a).
  { rewrite int16_t_small; [destruct (Z.ltb_spec a 0); lia |].
    unfold in_int16. destruct (Z.ltb_spec a 0); lia. }
  rewrite Habs.
  set (a1 := if t <=? Z.abs a then Z.abs a + (if 0 <? val then val else - val)
             else a + val).
  assert (Ha1 : -32767 <= a1 <= 32767)
    by (subst a1; destruct (t <=? Z.abs a); destruct (0 <? val) eqn:E; lia).
  replace (if t <=? Z.abs a
           then set_axis_snap_cross_axis_accum
                  (int16_t (Z.abs a + (if 0 <? val then val else - val))) d
           else set_axis_snap_cross_axis_accum (int16_t (a + val)) d)
    with (set_axis_snap_cross_axis_accum a1 d).
  2:{ subst a1. destruct (t <=? Z.abs a); rewrite int16_t_small; try reflexivity;
      unfold in_int16; destruct (0 <? val) eqn:E; lia. }
  fields. fold t.
  assert (Habs1 : int16_t (if a1 <? 0 then - a1 else a1) = Z.abs a1).
  { rewrite int16_t_small; [destruct (Z.ltb_spec a1 0); lia |].
    unfold in_int16. destruct (Z.ltb_spec a1 0); lia. }
  rewrite Habs1.
  destruct (Z.leb_spec t (Z.abs a1)) as [Hun | Hlock].
  - destruct (Z.ltb_spec (t * 2) (Z.abs a1)) as [Hcap | Hnocap]; fields.
    + rewrite int16_t_small by (unfold in_int16; destruct (0 <? a1); lia).
      destruct (Z.ltb_spec 0 a1); repeat split; intros; try reflexivity; lia.
    + repeat split; intros; try reflexivity; lia.
  - fields. repeat split; intros; try reflexivity; lia.
Qed.

Lemma axis_snap_cross_capped_witness :
  let d := set_axis_snap_cross_axis_accum 195 Ref.init_data in
  let r := axis_snap_cross d 10 (Ref.rel_y 10) 1000 in
  let a' := axis_snap_cross_axis_accum (fst r) in
  Z.abs a' <= 2 * 100
  /\ (Z.abs a' < 100 -> snd r = Ref.rel_y 0)
  /\ (100 <= Z.abs a' -> snd r = Ref.rel_y 10).
Proof.
  apply (@axis_snap_cross_capped (set_axis_snap_cross_axis_accum 195 Ref.init_data) 10
           (Ref.rel_y 10) 1000);
    vm_compute; repeat split; first [reflexivity | discriminate].
Defined.

Lemma apply_scaling_exact (d : runtime_processor_data) (e : input_event) (r : Z) :
  0 < scale_multiplier (current d) <= 32767 ->
  0 < scale_divisor (current d) <= 32767 ->
  in_int16 (value e * scale_multiplier (current d) + r) ->
  apply_scaling d e (Some r)
  = (set_value (Z.quot (value e * scale_multiplier (current d) + r)
                  (scale_divisor (current d))) e,
     Some (Z.rem (value e * scale_multiplier (current d) + r)
             (scale_divisor (current d)))).
Proof.
  intros Hm Hd Ht. unfold apply_scaling, scale_val.
  set (mul := scale_multiplier (current d)) in *.
  set (div := scale_divisor (current d)) in *.
  destruct (Z.ltb_spec 0 mul); [| lia]. destruct (Z.ltb_spec 0 div); [| lia].
  destruct (Z.eqb_spec mul 0); [lia |]. destruct (Z.eqb_spec div 0); [lia |].
  cbn [andb orb].
  rewrite (int16_t_small (z := mul)), (int16_t_small (z := div))
    by (unfold in_int16; lia).
  rewrite int16_t_int32_t, int16_t_add_l.
  set (t := value e * mul + r) in *.
  rewrite (int16_t_small (z := t)) by exact Ht.
  pose proof (quot_in_int16 Ht (d := div) ltac:(lia)) as Hq.
  rewrite (int16_t_small (z := Z.quot t div)) by exact Hq.
  pose proof (Z.quot_rem' t div) as QR.
  pose proof (Z.rem_bound_abs t div ltac:(lia)) as RB.
  replace (t - Z.quot t div * div) with (Z.rem t div) by lia.
  rewrite (int16_t_small (z := Z.rem t div)) by (unfold in_int16; lia).
  reflexivity.
Qed.

(** Scaling with a remainder loses nothing over a stream of events: the
    scaled values sum, times the divisor, to the sum of the inputs times
    the multiplier, up to the change of the remainder, which stays below
    the divisor in magnitude.  The factors are positive 16-bit values and
    each product together with a remainder fits 16 bits. *)
Theorem scale_stream_conserves (d : runtime_processor_data) (events : list input_event) :
  forall r : Z,
  0 < scale_multiplier (current d) <= 32767 ->
  0 < scale_divisor (current d) <= 32767 ->
  Z.abs r < scale_divisor (current d) ->
  Forall (fun e => Z.abs (value e) * scale_multiplier (current d)
                   + scale_divisor (current d) <= 32768) events ->
  exists r' : Z,
    snd (scale_stream d (Some r) events) = Some r'
    /\ Z.abs r' < scale_divisor (current d)
    /\ total_value (fst (scale_stream d (Some r) events)) * scale_divisor (current d) + r'
       = total_value events * scale_multiplier (current d) + r
    /\ List.length (fst (scale_stream d (Some r) events)) = List.length events.
Proof.
  induction events as [| e rest IH]; intros r Hm Hd Hr Hall.
  - exists r. cbn [scale_stream fst snd total_value fold_right List.length].
    refine (conj eq_refl (conj Hr (conj _ eq_refl))). lia.
  - inversion Hall as [| ? ? He Hrest]; subst.
    set (mul := scale_multiplier (current d)) in *.
    set (div := scale_divisor (current d)) in *.
    assert (Ht : in_int16 (value e * mul + r)).
    { unfold in_int16.
      assert (Z.abs (value e * mul) = Z.abs (value e) * mul)
        by (rewrite Z.abs_mul; f_equal; lia).
      lia. }
    pose proof (@apply_scaling_exact d e r Hm Hd Ht) as E. fold mul div in E.
    pose proof (Z.quot_rem' (value e * mul + r) div) as QR.
    pose proof (Z.rem_bound_abs (value e * mul + r) div ltac:(lia)) as RB.
    destruct (IH (Z.rem (value e * mul + r) div) Hm Hd ltac:(lia) Hrest)
      as (r' & Hs & Hb & Hsum & Hlen).
    cbn [scale_stream]. rewrite E.
    destruct (scale_stream d (Some (Z.rem (value e * mul + r) div)) rest)
      as [out rem'] eqn:S.
    cbn [fst snd] in *. exists r'.
    refine (conj Hs (conj Hb (conj _ _))).
    + cbn [total_value fold_right]. fold (total_value out). fold (total_value rest).
      destruct e as [ty c v]. cbn [value set_value] in *. nia.
    + cbn [List.length]. rewrite Hlen. reflexivity.
Qed.

Lemma scale_stream_conserves_witness :
  let d := upd_current (fun t => set_scale_divisor 2 (set_scale_multiplier 3 t))
             Ref.init_data in
  let events := [Ref.rel_x 1; Ref.rel_x 1; Ref.rel_x (-5)] in
  exists r' : Z,
    snd (scale_stream d (Some 0) events) = Some r'
    /\ Z.abs r' < 2
    /\ total_value (fst (scale_stream d (Some 0) events)) * 2 + r'
       = total_value events * 3 + 0
    /\ List.length (fst (scale_stream d (Some 0) events)) = List.length events.
Proof.
  apply (@scale_stream_conserves
           (upd_current (fun t => set_scale_divisor 2 (set_scale_multiplier 3 t))
              Ref.init_data)
           [Ref.rel_x 1; Ref.rel_x 1; Ref.rel_x (-5)] 0);
    try (vm_compute; repeat split; first [reflexivity | discriminate]).
  repeat constructor; vm_compute; discriminate.
Defined.

(** ** Settings, initialisation and reset *)

Section LifecycleProperties.

Variable M : libm.
Variable CONFIG_SETTINGS : bool.
Variable CONFIG_ZMK_SETTINGS_SAVE_DEBOUNCE : Z.
Variable save_reschedule_status : Z.
Variable initial : tunables.
Variable sizeof_processor_settings : Z.

Local Abbreviation load := (load_processor_settings_cb M sizeof_processor_settings).
Local Abbreviation init := (runtime_processor_init M initial).
Local Abbreviation reset :=
  (zmk_input_processor_runtime_reset M CONFIG_SETTINGS CONFIG_ZMK_SETTINGS_SAVE_DEBOUNCE
     save_reschedule_status initial).

(** Loading is all or nothing: a stored value of the right size that is
    read without error replaces every one of the nineteen tunables in both
    copies and recomputes the rotation values, leaving the rest of the data;
    anything else returns [-EINVAL] and leaves the data untouched. *)
Theorem load_processor_settings_cb_all_or_nothing (len rc : Z) (s : processor_settings)
    (d : runtime_processor_data) :
  load len (rc, s) d
  = if (len =? sizeof_processor_settings) && (0 <=? rc)
    then (0, update_rotation_values M (set_current s (set_persistent s d)))
    else (- EINVAL, d).
Proof.
  unfold load_processor_settings_cb.
  destruct (len =? sizeof_processor_settings), (0 <=? rc); cbn [andb]; try reflexivity.
  destruct s, d as [c p]; destruct c, p; reflexivity.
Qed.

(** What the save work writes is the persistent copy, under the path of
    the device's name, and loading it back into any data of the device makes
    both copies equal to it: a temporary value does not survive the round
    trip. *)
Theorem saved_settings_load_back (dev : device) (d : runtime_processor_data) (rc : Z) :
  0 <= rc ->
  exists s : processor_settings,
    save_processor_settings_work_handler sizeof_processor_settings dev
    = settings_save_one (settings_path (name (config dev))) s sizeof_processor_settings
    /\ s = persistent (data dev)
    /\ fst (load sizeof_processor_settings (rc, s) d) = 0
    /\ current (snd (load sizeof_processor_settings (rc, s) d)) = persistent (data dev)
    /\ persistent (snd (load sizeof_processor_settings (rc, s) d)) = persistent (data dev).
Proof.
  intros Hrc. exists (persistent (data dev)).
  split; [| split; [reflexivity |]].
  - unfold save_processor_settings_work_handler.
    destruct (persistent (data dev)); reflexivity.
  - unfold load_processor_settings_cb. rewrite Z.eqb_refl.
    destruct (Z.leb_spec 0 rc); [| lia]. cbn [fst snd].
    rewrite update_rotation_values_current, update_rotation_values_persistent.
    destruct (persistent (data dev)); repeat split.
Qed.

(** Initialisation leaves nothing of the data it is given: both copies of
    the tunables are the initial ones, the rotation values are those of the
    initial angle and all the motion state is cleared. *)
Theorem runtime_processor_init_overwrites (d : runtime_processor_data) :
  init d = update_rotation_values M (cleared initial).
Proof.
  unfold runtime_processor_init, update_rotation_values, cleared. fields.
  destruct initial. fields.
  match goal with |- context [if ?b then _ else _] => destruct b end; reflexivity.
Qed.

(** A reset brings both copies of the tunables back to the initial ones,
    except the axis snap settings and the two code mapping flags, which
    keep the values each copy had; it clears the keybind accumulators and
    the temp-layer flag, leaves the snap accumulator and the pairing state,
    and returns the status of the save scheduling (0 without settings
    support). *)
Theorem reset_keeps_snap_and_mapping (dv : device) :
  exists dv' : device,
    dev_after (fst (reset (Some dv))) = Some dv'
    /\ config dv' = config dv
    /\ current (data dv') = keep_snap_and_mapping (current (data dv)) initial
    /\ persistent (data dv') = keep_snap_and_mapping (persistent (data dv)) initial
    /\ keybind_x_accum (data dv') = 0
    /\ keybind_y_accum (data dv') = 0
    /\ temp_layer_layer_active (data dv') = false
    /\ axis_snap_cross_axis_accum (data dv') = axis_snap_cross_axis_accum (data dv)
    /\ (last_x (data dv'), last_y (data dv'), has_x (data dv'), has_y (data dv'))
       = (last_x (data dv), last_y (data dv), has_x (data dv), has_y (data dv))
    /\ ret (fst (reset (Some dv)))
       = (if CONFIG_SETTINGS then save_reschedule_status else 0).
Proof.
  unfold zmk_input_processor_runtime_reset, schedule_save_processor_settings. fields.
  destruct (temp_layer_layer_active (data dv)) eqn:Act;
    destruct CONFIG_SETTINGS; cbn [fst dev_after ret];
    eexists; (split; [reflexivity |]); cbn [data config with_data];
    rewrite ?update_rotation_values_current, ?update_rotation_values_persistent;
    unfold update_rotation_values, keep_snap_and_mapping; fields;
    destruct initial; fields;
    match goal with |- context [if ?b then _ else _] => destruct b end; fields;
    repeat split; exact Act.
Qed.

(** When the temp layer is active at a reset, the layer deactivated is the
    initial temp layer, whichever layer the settings named before, and the
    flag is cleared. *)
Theorem reset_deactivates_initial_layer (dv : device) :
  temp_layer_layer_active (data dv) = true ->
  snd (reset (Some dv)) = [zmk_keymap_layer_deactivate (temp_layer_layer initial)]
  /\ exists dv' : device,
       dev_after (fst (reset (Some dv))) = Some dv'
       /\ temp_layer_layer_active (data dv') = false.
Proof.
  intros Hact.
  unfold zmk_input_processor_runtime_reset, schedule_save_processor_settings. fields.
  rewrite Hact. cbn [snd fst]. split; [reflexivity |].
  destruct CONFIG_SETTINGS; cbn [dev_after]; eexists; (split; [reflexivity |]);
    cbn [data with_data]; unfold update_rotation_values; fields;
    match goal with |- context [if ?b then _ else _] => destruct b end; reflexivity.
Qed.

(** Initialisation, a reset, a restore and a load that succeeds all leave
    the cached cosine and sine in step with the current angle. *)
Theorem rotation_cache_established :
  (forall d, rotation_in_sync M (init d))
  /\ (forall dv, exists dv',
        dev_after (fst (reset (Some dv))) = Some dv' /\ rotation_in_sync M (data dv'))
  /\ (forall dv, exists dv',
        zmk_input_processor_runtime_restore_persistent M (Some dv) = Some dv'
        /\ rotation_in_sync M (data dv'))
  /\ (forall len read d,
        snd (load len read d) = d \/ rotation_in_sync M (snd (load len read d))).
Proof.
  assert (Sync : forall d, rotation_in_sync M (update_rotation_values M d)).
  { intros d. unfold rotation_in_sync, update_rotation_values.
    destruct (rotation_degrees (current d) =? 0) eqn:E; fields; rewrite E; fields;
      split; reflexivity. }
  split; [| split; [| split]].
  - intros d. apply Sync.
  - intros dv. unfold zmk_input_processor_runtime_reset. fields.
    destruct (temp_layer_layer_active (data dv)); destruct CONFIG_SETTINGS;
      cbn [fst dev_after]; eexists; (split; [reflexivity |]); apply Sync.
  - intros dv. cbn [zmk_input_processor_runtime_restore_persistent].
    eexists. split; [reflexivity |]. cbn [data with_data].
    unfold rotation_in_sync, update_rotation_values. fields.
    destruct (rotation_degrees (persistent (data dv)) =? 0) eqn:E; fields; rewrite ?E;
      fields; rewrite ?E; split; reflexivity.
  - intros len [rc s] d. unfold load_processor_settings_cb.
    destruct (len =? sizeof_processor_settings); [| left; reflexivity].
    destruct (0 <=? rc); [| left; reflexivity].
    right. apply Sync.
Qed.

End LifecycleProperties.

Lemma saved_settings_load_back_witness :
  exists s : processor_settings,
    save_processor_settings_work_handler 40 (Ref.dev_with (set_rotation_degrees 90))
    = settings_save_one (settings_path "tpkb") s 40
    /\ s = Ref.defaults
    /\ fst (load_processor_settings_cb Ref.math 40 40 (40, s) Ref.init_data) = 0
    /\ current (snd (load_processor_settings_cb Ref.math 40 40 (40, s) Ref.init_data))
       = Ref.defaults
    /\ persistent (snd (load_processor_settings_cb Ref.math 40 40 (40, s) Ref.init_data))
       = Ref.defaults.
Proof.
  apply (@saved_settings_load_back Ref.math 40 (Ref.dev_with (set_rotation_degrees 90))
           Ref.init_data 40).
  vm_compute. discriminate.
Defined.

Lemma reset_deactivates_initial_layer_witness :
  let dv := with_data Ref.dev
              (set_temp_layer_layer_active true
                 (upd_current (set_temp_layer_layer 3) Ref.init_data)) in
  snd (zmk_input_processor_runtime_reset Ref.math true 100 1 Ref.defaults (Some dv))
  = [zmk_keymap_layer_deactivate 0]
  /\ exists dv' : device,
       dev_after (fst (zmk_input_processor_runtime_reset Ref.math true 100 1 Ref.defaults
                         (Some dv))) = Some dv'
       /\ temp_layer_layer_active (data dv') = false.
Proof.
  apply (@reset_deactivates_initial_layer Ref.math true 100 1 Ref.defaults
           (with_data Ref.dev
              (set_temp_layer_layer_active true
                 (upd_current (set_temp_layer_layer 3) Ref.init_data)))).
  reflexivity.
Defined.

(** ** The temp layer *)

Section HeldLayer.

Variable M : libm.
Variable K : keymap.
Variable B : behavior_registry.



End HeldLayer.


(** Releasing the hold while the temp layer is enabled and active
    reschedules the deactivation work with no delay; the work then
    deactivates the layer of the current settings, and marks it inactive
    only when the keymap reports success. *)
Theorem keep_active_release_deactivates (dv : device) (ret : Z) :
  temp_layer_enabled (current (data dv)) = true ->
  temp_layer_layer_active (data dv) = true ->
  let d' := set_temp_layer_keep_active false (data dv) in
  zmk_input_processor_runtime_temp_layer_keep_active (Some dv) false
  = (Some (with_data dv d'), [k_work_reschedule temp_layer_deactivation_work 0 d'])
  /\ temp_layer_deactivation_work_handler ret d'
     = (if ret =? 0 then set_temp_layer_layer_active false d' else d',
        [zmk_keymap_layer_deactivate (temp_layer_layer (current (data dv)))]).
Proof.
  intros Hen Hact.
  cbn [zmk_input_processor_runtime_temp_layer_keep_active negb andb].
  unfold temp_layer_deactivation_work_handler. fields.
  rewrite Hen, Hact. split; reflexivity.
Qed.

Lemma keep_active_release_deactivates_witness :
  let dv := with_data Ref.dev
              (set_temp_layer_keep_active true
                 (set_temp_layer_layer_active true
                    (upd_current (fun t => set_temp_layer_layer 2
                                             (set_temp_layer_enabled true t))
                       Ref.init_data))) in
  let d' := set_temp_layer_keep_active false (data dv) in
  zmk_input_processor_runtime_temp_layer_keep_active (Some dv) false
  = (Some (with_data dv d'), [k_work_reschedule temp_layer_deactivation_work 0 d'])
  /\ temp_layer_deactivation_work_handler 0 d'
     = (if 0 =? 0 then set_temp_layer_layer_active false d' else d',
        [zmk_keymap_layer_deactivate (temp_layer_layer (current (data dv)))]).
Proof.
  apply (@keep_active_release_deactivates
           (with_data Ref.dev
              (set_temp_layer_keep_active true
                 (set_temp_layer_layer_active true
                    (upd_current (fun t => set_temp_layer_layer 2
                                             (set_temp_layer_enabled true t))
                       Ref.init_data)))) 0); reflexivity.
Defined.

(** The two work items undo each other.  On a device whose temp layer is
    enabled, not active and not held, the activation work activates the
    layer of the current settings and the deactivation work then
    deactivates that same layer, leaving the data as it was at the start;
    when the keymap refuses the activation the layer is not marked active
    and the deactivation work has nothing to do. *)
Theorem temp_layer_work_round_trip (d : runtime_processor_data) (ret ret' : Z) :
  temp_layer_enabled (current d) = true ->
  temp_layer_layer_active d = false ->
  temp_layer_keep_active d = false ->
  let on := temp_layer_activation_work_handler ret d in
  let off := temp_layer_deactivation_work_handler ret' (fst on) in
  snd on = [zmk_keymap_layer_activate (temp_layer_layer (current d))]
  /\ (ret = 0 ->
      temp_layer_layer_active (fst on) = true
      /\ snd off = [zmk_keymap_layer_deactivate (temp_layer_layer (current d))]
      /\ (ret' = 0 -> fst off = d)
      /\ (ret' <> 0 -> fst off = fst on))
  /\ (ret <> 0 -> fst on = d /\ off = (d, [])).
Proof.
  intros Hen Hact Hkeep. cbv zeta.
  unfold temp_layer_activation_work_handler. rewrite Hen, Hact. cbn [negb orb fst snd].
  split; [reflexivity |]. split.
  - intros ->. cbn [Z.eqb]. unfold temp_layer_deactivation_work_handler. fields.
    rewrite Hkeep. cbn [negb orb fst snd].
    refine (conj eq_refl (conj eq_refl (conj _ _))).
    + intros ->. cbn [Z.eqb]. destruct d. cbn in *. subst. reflexivity.
    + intros Hne. destruct (Z.eqb_spec ret' 0); [contradiction | reflexivity].
  - intros Hne. destruct (Z.eqb_spec ret 0); [contradiction |].
    split; [reflexivity |].
    unfold temp_layer_deactivation_work_handler. rewrite Hact. reflexivity.
Qed.

Lemma temp_layer_work_round_trip_witness :
  let d := upd_current (fun t => set_temp_layer_layer 2 (set_temp_layer_enabled true t))
             Ref.init_data in
  let on := temp_layer_activation_work_handler 0 d in
  let off := temp_layer_deactivation_work_handler 0 (fst on) in
  snd on = [zmk_keymap_layer_activate (temp_layer_layer (current d))]
  /\ (0 = 0 ->
      temp_layer_layer_active (fst on) = true
      /\ snd off = [zmk_keymap_layer_deactivate (temp_layer_layer (current d))]
      /\ (0 = 0 -> fst off = d)
      /\ (0 <> 0 -> fst off = fst on))
  /\ (0 <> 0 -> fst on = d /\ off = (d, [])).
Proof.
  apply (@temp_layer_work_round_trip
           (upd_current (fun t => set_temp_layer_layer 2 (set_temp_layer_enabled true t))
              Ref.init_data) 0 0); reflexivity.
Defined.

(** After the keycode listener has seen a press at uptime [t], a motion
    event at [now] on a device whose temp layer is enabled and not yet
    active schedules the activation exactly when the activation delay has
    passed since the press.  A press at uptime 0 holds nothing back: the
    timestamp 0 reads as no press at all. *)
Theorem key_press_holds_back_activation (runtime_processors : list device) (t now : Z)
    (dev : device) (e : input_event) :
  In dev (snd (keycode_state_changed_listener runtime_processors true t)) ->
  temp_layer_enabled (current (data dev)) = true ->
  temp_layer_layer_active (data dev) = false ->
  value e <> 0 ->
  0 <= t <= now ->
  now < 2 ^ 62 ->
  let r := temp_layer_activation (data dev) e now in
  let d' := set_last_input_timestamp now (data dev) in
  fst r = d'
  /\ snd r = (if (t =? 0) || (temp_layer_activation_delay_ms (current (data dev)) <=? now - t)
              then [k_work_reschedule temp_layer_activation_work 0 d'] else []).
Proof.
  intros Hin Hen Hact Hv Ht Hnow.
  assert (Hstamp : last_keypress_timestamp (data dev) = t).
  { cbn [keycode_state_changed_listener negb snd] in Hin.
    apply in_map_iff in Hin. destruct Hin as (dev0 & <- & _). reflexivity. }
  unfold temp_layer_activation. rewrite Hen.
  destruct (Z.eqb_spec (value e) 0) as [| _]; [contradiction |].
  cbn [negb andb]. fields. rewrite Hact, Hstamp. cbn [negb andb].
  rewrite int64_t_small by (change (2 ^ 62) with 4611686018427387904 in *; lia).
  destruct ((t =? 0) || (temp_layer_activation_delay_ms (current (data dev)) <=? now - t));
    split; reflexivity.
Qed.

Lemma key_press_holds_back_activation_witness :
  let dev0 := Ref.dev_with (set_temp_layer_enabled true) in
  let dev := with_data dev0 (set_last_keypress_timestamp 1000 (data dev0)) in
  let r := temp_layer_activation (data dev) (Ref.rel_x 5) 1050 in
  let d' := set_last_input_timestamp 1050 (data dev) in
  fst r = d'
  /\ snd r = (if (1000 =? 0) || (temp_layer_activation_delay_ms (current (data dev))
                                 <=? 1050 - 1000)
              then [k_work_reschedule temp_layer_activation_work 0 d'] else []).
Proof.
  apply (@key_press_holds_back_activation
           [Ref.dev_with (set_temp_layer_enabled true)] 1000 1050
           (with_data (Ref.dev_with (set_temp_layer_enabled true))
              (set_last_keypress_timestamp 1000
                 (data (Ref.dev_with (set_temp_layer_enabled true)))))
           (Ref.rel_x 5));
    first [ left; reflexivity
          | vm_compute; repeat split; first [reflexivity | discriminate] ].
Defined.

(** ** The registry *)

Lemma find_by_name_from_spec (runtime_processors : list device) (nm : string) :
  forall i : nat,
    match find_by_name_from i runtime_processors nm with
    | Some k =>
        exists (j : nat) (dev : device),
          k = (i + j)%nat
          /\ nth_error runtime_processors j = Some dev
          /\ name (config dev) = nm
          /\ forall j' dev', (j' < j)%nat -> nth_error runtime_processors j' = Some dev' ->
                             name (config dev') <> nm
    | None => forall dev, In dev runtime_processors -> name (config dev) <> nm
    end.
Proof.
  induction runtime_processors as [| dev rest IH]; intros i; cbn [find_by_name_from].
  - intros dev [].
  - destruct (String.eqb_spec (name (config dev)) nm) as [E | NE].
    + exists 0%nat, dev. repeat split; [lia | exact E |]. intros j' dev' Hj. lia.
    + specialize (IH (S i)). destruct (find_by_name_from (S i) rest nm) as [k |].
      * destruct IH as (j & dev1 & -> & Hnth & Hname & Hfirst).
        exists (S j), dev1. repeat split; [lia | exact Hnth | exact Hname |].
        intros [| j'] dev' Hj Hn; cbn [nth_error] in Hn.
        -- injection Hn as <-. exact NE.
        -- apply (Hfirst j' dev'); [lia | exact Hn].
      * intros dev' [<- | Hin]; [exact NE | apply IH; exact Hin].
Qed.

(** [zmk_input_processor_runtime_find_by_name] returns the first device of
    the array with the name, and the null pointer exactly when no device
    has it. *)
Theorem find_by_name_first_match (runtime_processors : list device) (nm : string) :
  match zmk_input_processor_runtime_find_by_name runtime_processors nm with
  | Some k =>
      exists dev : device,
        nth_error runtime_processors k = Some dev
        /\ name (config dev) = nm
        /\ forall j' dev', (j' < k)%nat -> nth_error runtime_processors j' = Some dev' ->
                           name (config dev') <> nm
  | None => forall dev, In dev runtime_processors -> name (config dev) <> nm
  end.
Proof.
  unfold zmk_input_processor_runtime_find_by_name.
  pose proof (find_by_name_from_spec runtime_processors nm 0) as H.
  destruct (find_by_name_from 0 runtime_processors nm) as [k |]; [| exact H].
  destruct H as (j & dev & -> & H). exists dev. exact H.
Qed.

Lemma find_by_name_from_shift (runtime_processors : list device) (nm : string) :
  forall i : nat,
    find_by_name_from (S i) runtime_processors nm
    = option_map S (find_by_name_from i runtime_processors nm).
Proof.
  induction runtime_processors as [| dev rest IH]; intros i; cbn [find_by_name_from].
  - reflexivity.
  - destruct (String.eqb (name (config dev)) nm); [reflexivity | apply IH].
Qed.

(** The settings loader hands a stored value to the device that
    [zmk_input_processor_runtime_find_by_name] returns for the key, and to
    no other: the status is the loader's, that device alone may change, and
    a key that names no device gives [-ENOENT] and changes nothing. *)
Theorem settings_load_reaches_named_device (M : libm) (sizeof_processor_settings : Z)
    (runtime_processors : list device) (nm : string) (len : Z)
    (read : Z * processor_settings) :
  let r := runtime_processor_settings_load_cb M sizeof_processor_settings
             runtime_processors nm len read in
  match zmk_input_processor_runtime_find_by_name runtime_processors nm with
  | None => r = (- ENOENT, runtime_processors)
  | Some k =>
      exists dev : device,
        nth_error runtime_processors k = Some dev
        /\ fst r = fst (load_processor_settings_cb M sizeof_processor_settings len read
                          (data dev))
        /\ nth_error (snd r) k
           = Some (with_data dev
                     (snd (load_processor_settings_cb M sizeof_processor_settings len read
                             (data dev))))
        /\ forall j, j <> k -> nth_error (snd r) j = nth_error runtime_processors j
  end.
Proof.
  unfold zmk_input_processor_runtime_find_by_name. cbv zeta.
  induction runtime_processors as [| dev rest IH];
    cbn [runtime_processor_settings_load_cb find_by_name_from].
  - reflexivity.
  - rewrite (String.eqb_sym nm (name (config dev))).
    destruct (String.eqb (name (config dev)) nm).
    + destruct (load_processor_settings_cb M sizeof_processor_settings len read (data dev))
        as [st d'] eqn:L.
      exists dev. rewrite ?L. cbn [fst snd nth_error].
      refine (conj eq_refl (conj eq_refl (conj eq_refl _))).
      intros [| j] Hj; [congruence | reflexivity].
    + rewrite find_by_name_from_shift.
      destruct (runtime_processor_settings_load_cb M sizeof_processor_settings rest nm len
                  read) as [st rest'] eqn:R.
      destruct (find_by_name_from 0 rest nm) as [k |]; cbn [option_map].
      * destruct IH as (dev1 & Hnth & Hst & Hnew & Hother).
        exists dev1. cbn [fst snd nth_error] in *.
        refine (conj Hnth (conj Hst (conj Hnew _))).
        intros [| j] Hj; [reflexivity | apply Hother; congruence].
      * injection IH as -> ->. reflexivity.
Qed.

(** [zmk_input_processor_runtime_foreach] over an array in two parts: the
    second part is visited, with the user data the first part left, only
    when no callback of the first part returned a status other than 0, and
    that status is otherwise the result. *)
Theorem foreach_stops_at_first_failure (U : Type) (callback : device -> U -> Z * U)
    (first rest : list device) (user_data : U) :
  zmk_input_processor_runtime_foreach callback (first ++ rest) user_data
  = (let '(r, u) := zmk_input_processor_runtime_foreach callback first user_data in
     if r =? 0 then zmk_input_processor_runtime_foreach callback rest u else (r, u)).
Proof.
  revert user_data.
  induction first as [| dev first IH]; intros user_data;
    cbn [app zmk_input_processor_runtime_foreach].
  - reflexivity.
  - destruct (callback dev user_data) as [r u].
    destruct (Z.eqb_spec r 0) as [-> | Hne]; cbn [negb].
    + apply IH.
    + destruct (Z.eqb_spec r 0); [contradiction | reflexivity].
Qed.

(** ** What a setter call leaves behind *)

Ltac open_call :=
  cbn [call_setter refused];
  unfold zmk_input_processor_runtime_set_scaling,
    zmk_input_processor_runtime_set_rotation,
    zmk_input_processor_runtime_set_temp_layer,
    zmk_input_processor_runtime_set_temp_layer_enabled,
    zmk_input_processor_runtime_set_temp_layer_layer,
    zmk_input_processor_runtime_set_temp_layer_activation_delay,
    zmk_input_processor_runtime_set_temp_layer_deactivation_delay,
    zmk_input_processor_runtime_set_active_layers,
    zmk_input_processor_runtime_set_axis_snap_mode,
    zmk_input_processor_runtime_set_axis_snap_threshold,
    zmk_input_processor_runtime_set_axis_snap_timeout,
    zmk_input_processor_runtime_set_axis_snap,
    zmk_input_processor_runtime_set_x_invert,
    zmk_input_processor_runtime_set_y_invert,
    zmk_input_processor_runtime_set_keybind_enabled,
    zmk_input_processor_runtime_set_keybind_behavior_count,
    zmk_input_processor_runtime_set_keybind_degree_offset,
    zmk_input_processor_runtime_set_keybind_tick,
    zmk_input_processor_runtime_set_xy_to_scroll_enabled,
    zmk_input_processor_runtime_set_xy_swap_enabled,
    plain_setter.

Lemma update_rotation_values_in_sync (M : libm) (d : runtime_processor_data) :
  rotation_in_sync M (update_rotation_values M d).
Proof.
  unfold rotation_in_sync, update_rotation_values.
  destruct (rotation_degrees (current d) =? 0) eqn:E; fields; rewrite E; fields;
    split; reflexivity.
Qed.

Lemma rotation_in_sync_ext (M : libm) (d d' : runtime_processor_data) :
  rotation_degrees (current d') = rotation_degrees (current d) ->
  cos_val d' = cos_val d ->
  sin_val d' = sin_val d ->
  rotation_in_sync M d -> rotation_in_sync M d'.
Proof.
  unfold rotation_in_sync, update_rotation_values. intros E C S. rewrite E.
  destruct (rotation_degrees (current d) =? 0); fields; rewrite C, S; auto.
Qed.

Section SetterEffects.

Variable M : libm.
Variable CONFIG_SETTINGS : bool.
Variable CONFIG_ZMK_SETTINGS_SAVE_DEBOUNCE : Z.
Variable save_reschedule_status : Z.

Local Abbreviation call :=
  (call_setter M CONFIG_SETTINGS CONFIG_ZMK_SETTINGS_SAVE_DEBOUNCE save_reschedule_status).

(** A call that is not refused, when it is persistent and settings
    support is compiled in, reschedules the save work with the debounce
    delay, then raises one state-changed event for the device as the call
    left it, and returns whatever the rescheduling returned; otherwise it
    makes no call and returns 0. *)
Theorem persistent_call_saves_and_notifies (c : setter_call) (dv : device)
    (persist : bool) :
  refused c = false ->
  exists dv' : device,
    dev_after (call c (Some dv) persist) = Some dv'
    /\ config dv' = config dv
    /\ ret (call c (Some dv) persist)
       = (if CONFIG_SETTINGS && persist then save_reschedule_status else 0)
    /\ calls (call c (Some dv) persist)
       = (if CONFIG_SETTINGS && persist
          then k_work_reschedule save_work CONFIG_ZMK_SETTINGS_SAVE_DEBOUNCE (data dv')
               :: raise_state_changed_event dv'
          else []).
Proof.
  intros Hok.
  destruct c; open_call; cbn [refused] in Hok; rewrite ?Hok;
    unfold save_and_notify, schedule_save_processor_settings;
    destruct (CONFIG_SETTINGS && persist); cbn [dev_after ret calls app];
    eexists; repeat split.
Qed.

(** Every setter keeps the cached cosine and sine in step with the
    current angle, whether the call is refused or not. *)
Theorem rotation_cache_kept_by_setters (c : setter_call) (dv : device) (persist : bool) :
  rotation_in_sync M (data dv) ->
  exists dv' : device,
    dev_after (call c (Some dv) persist) = Some dv'
    /\ rotation_in_sync M (data dv').
Proof.
  intros Hsync.
  assert (Finish : forall d,
             rotation_in_sync M d ->
             exists dv' : device,
               dev_after (save_and_notify CONFIG_SETTINGS CONFIG_ZMK_SETTINGS_SAVE_DEBOUNCE
                            save_reschedule_status (with_data dv d) persist) = Some dv'
               /\ rotation_in_sync M (data dv')).
  { intros d Hd. exists (with_data dv d). split; [| exact Hd].
    unfold save_and_notify, schedule_save_processor_settings.
    destruct (CONFIG_SETTINGS && persist); reflexivity. }
  destruct c; open_call;
    try match goal with |- context [if ?b then reject _ else _] =>
          destruct b; [exists dv; split; [reflexivity | exact Hsync] |] end;
    apply Finish;
    first [ apply update_rotation_values_in_sync
          | apply (rotation_in_sync_ext (d := data dv)); [| | | exact Hsync];
            unfold assign;
            repeat match goal with |- context [if 0 <? ?z then _ else _] =>
                     destruct (0 <? z) end;
            destruct persist; reflexivity ].
Qed.

End SetterEffects.

Lemma persistent_call_saves_and_notifies_witness :
  exists dv' : device,
    dev_after (call_setter Ref.math true 100 1 (SetKeybindTick 20) (Some Ref.dev) true)
    = Some dv'
    /\ config dv' = config Ref.dev
    /\ ret (call_setter Ref.math true 100 1 (SetKeybindTick 20) (Some Ref.dev) true)
       = (if true && true then 1 else 0)
    /\ calls (call_setter Ref.math true 100 1 (SetKeybindTick 20) (Some Ref.dev) true)
       = (if true && true
          then k_work_reschedule save_work 100 (data dv') :: raise_state_changed_event dv'
          else []).
Proof.
  apply (@persistent_call_saves_and_notifies Ref.math true 100 1 (SetKeybindTick 20)
           Ref.dev true).
  reflexivity.
Defined.

Lemma rotation_cache_kept_by_setters_witness :
  exists dv' : device,
    dev_after (call_setter Ref.math true 100 1 (SetRotation 90) (Some Ref.dev) true)
    = Some dv'
    /\ rotation_in_sync Ref.math (data dv').
Proof.
  apply (@rotation_cache_kept_by_setters Ref.math true 100 1 (SetRotation 90) Ref.dev true).
  vm_compute. split; reflexivity.
Defined.

(** ** The settings path *)

Lemma substring_whole (s : string) :
  forall n : nat, (String.length s <= n)%nat -> substring 0 n s = s.
Proof.
  induction s as [| c s IH]; intros n Hn.
  - destruct n; reflexivity.
  - destruct n as [| n]; cbn [String.length] in Hn; [lia |].
    cbn [substring]. f_equal. apply IH. lia.
Qed.

(** A name of at most 52 characters is kept whole in the settings path,
    which the 64-byte buffer would otherwise cut, so that devices with
    different such names are saved under different paths. *)
Theorem settings_path_keeps_short_names (nm : string) :
  (String.length nm <= 52)%nat ->
  settings_path nm = ("input_proc/" ++ nm)%string
  /\ forall nm' : string,
       (String.length nm' <= 52)%nat -> settings_path nm = settings_path nm' -> nm = nm'.
Proof.
  assert (Whole : forall s, (String.length s <= 52)%nat ->
                            settings_path s = ("input_proc/" ++ s)%string).
  { intros s Hs. unfold settings_path. cbn [append]. cbn [substring].
    rewrite substring_whole by exact Hs. reflexivity. }
  intros Hn. split; [apply Whole; exact Hn |].
  intros nm' Hn' E. rewrite (Whole nm Hn), (Whole nm' Hn') in E.
  cbn [append] in E. injection E as E. exact E.
Qed.

Lemma settings_path_keeps_short_names_witness :
  settings_path "tpkb" = ("input_proc/" ++ "tpkb")%string
  /\ forall nm' : string,
       (String.length nm' <= 52)%nat -> settings_path "tpkb" = settings_path nm' ->
       "tpkb"%string = nm'.
Proof.
  apply (@settings_path_keeps_short_names "tpkb"). cbn. lia.
Defined.

(** ** What the handler does to the event *)

Section HandlerEvent.

Variable M : libm.
Variable K : keymap.
Variable B : behavior_registry.

Lemma apply_rotation_kind (d : runtime_processor_data) (is_x : bool) (val : Z)
    (e : input_event) :
  ev_type (snd (apply_rotation d is_x val e)) = ev_type e
  /\ code (snd (apply_rotation d is_x val e)) = code e.
Proof.
  unfold apply_rotation.
  destruct (negb (rotation_degrees (current d) =? 0)); [| split; reflexivity].
  destruct is_x; fields; split_ifs; split; reflexivity.
Qed.

Lemma apply_invert_kind (d : runtime_processor_data) (is_x : bool) (e : input_event) :
  ev_type (apply_invert d is_x e) = ev_type e /\ code (apply_invert d is_x e) = code e.
Proof. unfold apply_invert. split_ifs; split; reflexivity. Qed.

Lemma apply_axis_snap_kind (d : runtime_processor_data) (is_x : bool) (val : Z)
    (e : input_event) (now : Z) :
  ev_type (snd (apply_axis_snap d is_x val e now)) = ev_type e
  /\ code (snd (apply_axis_snap d is_x val e now)) = code e.
Proof.
  unfold apply_axis_snap, axis_snap_cross. split_ifs; split; reflexivity.
Qed.

Lemma apply_scaling_kind (d : runtime_processor_data) (e : input_event)
    (remainder : option Z) :
  ev_type (fst (apply_scaling d e remainder)) = ev_type e
  /\ code (fst (apply_scaling d e remainder)) = code e.
Proof.
  unfold apply_scaling, scale_val. split_ifs; split; reflexivity.
Qed.

(** On settings that keep its divisions defined, the handler either
    leaves the event exactly as it came, which it always does when it stops
    the event, or passes on an event of the same type whose code is the one
    the code mapping of the current settings gives: no other stage writes
    the type or the code. *)
Theorem handler_rewrites_code_by_mapping_only
    (dev : device) (event : input_event) (remainder : option Z) (now : Z) :
  divisions_defined (current (data dev)) ->
  let h := runtime_processor_handle_event M K B dev event remainder now in
  let is_x := 0 <=? code_idx (code event) (x_codes (config dev)) in
  (status h = ZMK_INPUT_PROC_STOP -> event_out h = event)
  /\ (event_out h = event
      \/ status h = ZMK_INPUT_PROC_CONTINUE
         /\ ev_type (event_out h) = ev_type event
         /\ code (event_out h) = code (code_mapping (data dev) is_x event)).
Proof.
  intros _. cbv zeta. unfold runtime_processor_handle_event.
  destruct (negb (ev_type event =? type (config dev)));
    [split; [discriminate | left; reflexivity] |].
  destruct ((code_idx (code event) (x_codes (config dev)) <? 0)
            && (code_idx (code event) (y_codes (config dev)) <? 0));
    [split; [discriminate | left; reflexivity] |].
  destruct (negb (is_processor_active_for_current_layers K
                    (active_layers (current (data dev)))));
    [split; [discriminate | left; reflexivity] |].
  set (is_x := 0 <=? code_idx (code event) (x_codes (config dev))).
  set (val := int16_t (value event)).
  assert (Hk : current (snd (fst (process_keybind M K B dev is_x val now)))
               = current (data dev)).
  { unfold process_keybind.
    destruct (negb (keybind_enabled (current (data dev)))
              || (keybind_behavior_count (current (data dev)) =? 0)
              || (keybind_behaviors_len (config dev) =? 0)); [reflexivity |].
    destruct is_x; fields;
      match goal with |- context [if ?c <? ?t then _ else _] => destruct (c <? t) end;
      reflexivity. }
  destruct (process_keybind M K B dev is_x val now) as [[consumed d1] tr].
  cbn [fst snd] in Hk. destruct consumed; [split; [reflexivity | left; reflexivity] |].
  assert (Hmap : code_mapping d1 is_x event = code_mapping (data dev) is_x event)
    by (unfold code_mapping; rewrite Hk; reflexivity).
  rewrite Hmap. set (e1 := code_mapping (data dev) is_x event).
  destruct (temp_layer_activation d1 e1 now) as [d2 tr2].
  pose proof (apply_rotation_kind d2 is_x val e1) as [Rt Rc].
  destruct (apply_rotation d2 is_x val e1) as [d3 e3]. cbn [snd] in Rt, Rc.
  pose proof (apply_invert_kind d3 is_x e3) as [It Ic].
  set (e4 := apply_invert d3 is_x e3) in *.
  pose proof (apply_axis_snap_kind d3 is_x (int16_t (value e4)) e4 now) as [St Sc].
  destruct (apply_axis_snap d3 is_x (int16_t (value e4)) e4 now) as [d5 e5].
  cbn [snd] in St, Sc.
  pose proof (apply_scaling_kind d5 e5 remainder) as [Ct Cc].
  destruct (apply_scaling d5 e5 remainder) as [e6 r6]. cbn [fst] in Ct, Cc.
  cbn [status event_out]. split; [discriminate |]. right.
  split; [reflexivity |]. split.
  - rewrite Ct, St, It, Rt. subst e1. unfold code_mapping. split_ifs; reflexivity.
  - rewrite Cc, Sc, Ic, Rc. reflexivity.
Qed.

End HandlerEvent.

(** The reference device with XY-to-scroll on and a scale of 3/2, on the
    event (X,4). *)
Lemma handler_rewrites_code_by_mapping_only_witness :
  let dev := Ref.dev_with (fun t => set_xy_to_scroll_enabled true
                                      (set_scale_divisor 2 (set_scale_multiplier 3 t))) in
  let h := runtime_processor_handle_event Ref.math Ref.layers Ref.registry dev
             (Ref.rel_x 4) (Some 0) 1000 in
  let is_x := 0 <=? code_idx (code (Ref.rel_x 4)) (x_codes (config dev)) in
  (status h = ZMK_INPUT_PROC_STOP -> event_out h = Ref.rel_x 4)
  /\ (event_out h = Ref.rel_x 4
      \/ status h = ZMK_INPUT_PROC_CONTINUE
         /\ ev_type (event_out h) = ev_type (Ref.rel_x 4)
         /\ code (event_out h) = code (code_mapping (data dev) is_x (Ref.rel_x 4))).
Proof.
  apply (@handler_rewrites_code_by_mapping_only Ref.math Ref.layers Ref.registry
           (Ref.dev_with (fun t => set_xy_to_scroll_enabled true
                                     (set_scale_divisor 2 (set_scale_multiplier 3 t))))
           (Ref.rel_x 4) (Some 0) 1000).
  split; [right | right; right]; vm_compute; discriminate.
Defined.
